(** * JT/T 808 message processor: registration codec and dispatch

    A shallow embedding of [internal/protocol/model/msg_0100.go] and
    [internal/protocol/msg_processor.go].  Go values are modelled as
    follows: [string] is a byte string (Stdlib [string]), [[]byte] is
    [list byte], fixed-width unsigned integers and [int] are [Z], a
    nilable pointer or interface is an [option], and a call that may
    panic returns in the [Go] monad. *)

From Stdlib Require Import ZArith Lia Strings.Byte Ascii String List DecimalString.
From stdpp Require Import gmap strings list fin_maps.

Local Open Scope Z_scope.

(** ** Outcome of a Go call: it returns, or the goroutine panics. *)

Inductive Go (A : Type) : Type :=
| Done (a : A)
| Panic.
Arguments Done {A} a.
Arguments Panic {A}.

#[global] Instance Go_ret : MRet Go := fun A a => Done a.
#[global] Instance Go_bind : MBind Go := fun A B f c =>
  match c with
  | Done a => f a
  | Panic => Panic
  end.

(** ** Bytes and byte strings *)

Definition Z_of_byte (b : byte) : Z := Z.of_N (Byte.to_N b).

Definition byte_of_Z (z : Z) : byte :=
  match Byte.of_N (Z.to_N (z mod 256)) with
  | Some b => b
  | None => x00
  end.

Definition is_nul (c : ascii) : bool := Ascii.eqb c Ascii.zero.

(** [strings.TrimRight(s, "\x00")]: drop the longest suffix of NUL bytes. *)
Fixpoint TrimRight_nul (s : string) : string :=
  match s with
  | EmptyString => EmptyString
  | String c r =>
      match TrimRight_nul r with
      | EmptyString => if is_nul c then EmptyString else String c EmptyString
      | r' => String c r'
      end
  end.

(** [s[lo:hi]] on a byte slice; out-of-range bounds panic. *)
Definition slice (pkt : list byte) (lo hi : Z) : Go (list byte) :=
  if (0 <=? lo) && (lo <=? hi) && (hi <=? Z.of_nat (length pkt))
  then Done (take (Z.to_nat (hi - lo)) (drop (Z.to_nat lo) pkt))
  else Panic.

(** The GBK transcoding tables used by [hex.ReadGBK] and [hex.WriteGBK]
    are outside the sources; they are taken as parameters. *)
Class GBK := {
  gbk_encode : string -> list byte;   (* UTF-8 text to GBK bytes *)
  gbk_decode : list byte -> string;   (* GBK bytes to UTF-8 text *)
}.

Module hex.

(** Package [internal/codec/hex] is not among the sources; its functions
    follow section 4.A of the specification: readers work over a buffer
    with an explicit cursor and a short read (cursor + n > len) is fatal
    for the packet, writers append to the buffer.  Each reader returns the
    value and the advanced cursor. *)

(** Modelled from the spec: [read_byte]. *)
Definition ReadByte (pkt : list byte) (idx : Z) : Go (byte * Z) :=
  bs ← slice pkt idx (idx + 1);
  match bs with
  | [b] => Done (b, idx + 1)
  | _ => Panic
  end.

(** Modelled from the spec: [read_word], a big-endian u16. *)
Definition ReadWord (pkt : list byte) (idx : Z) : Go (Z * Z) :=
  bs ← slice pkt idx (idx + 2);
  match bs with
  | [hi; lo] => Done (256 * Z_of_byte hi + Z_of_byte lo, idx + 2)
  | _ => Panic
  end.

(** Modelled from the spec: [read_string(n)], [n] bytes as ASCII with the
    trailing NUL bytes trimmed. *)
Definition ReadString (pkt : list byte) (idx n : Z) : Go (string * Z) :=
  bs ← slice pkt idx (idx + n);
  Done (TrimRight_nul (string_of_list_byte bs), idx + n).

(** Modelled from the spec: [read_gbk(n)], [n] bytes decoded from GBK to
    UTF-8. *)
Definition ReadGBK `{GBK} (pkt : list byte) (idx n : Z) : Go (string * Z) :=
  bs ← slice pkt idx (idx + n);
  Done (gbk_decode bs, idx + n).

(** Modelled from the spec: the writer symmetric to [read_byte]. *)
Definition WriteByte (pkt : list byte) (b : byte) : list byte := pkt ++ [b].

(** Modelled from the spec: the writer symmetric to [read_word]. *)
Definition WriteWord (pkt : list byte) (w : Z) : list byte :=
  pkt ++ [byte_of_Z (w / 256); byte_of_Z w].

(** Modelled from the spec: the writer symmetric to [read_gbk]. *)
Definition WriteGBK `{GBK} (pkt : list byte) (s : string) : list byte :=
  pkt ++ gbk_encode s.

End hex.

(** ** Errors

    The sentinel errors of package [protocol] are distinct from the error
    values of the packages it imports (model, storage, encoding/json):
    those packages cannot name a variable of [protocol].  [Wrap] is
    [errors.Wrap]/[errors.Wrapf] of github.com/pkg/errors. *)

Inductive lib_error : Type :=
| ErrDecodeMsg                 (* model.ErrDecodeMsg *)
| ErrEncodeHeader              (* model.ErrEncodeHeader *)
| ErrDeviceNotFound            (* storage.ErrDeviceNotFound *)
| ErrOpaque (msg : string).    (* any other error value of an imported package *)

Inductive error : Type :=
| ErrMsgIDNotSupportted
| ErrNotAuthorized
| ErrActiveClose
| Lib (e : lib_error)
| Wrap (cause : error) (msg : string).

#[global] Instance lib_error_eq_dec : EqDecision lib_error.
Proof. solve_decision. Defined.
#[global] Instance error_eq_dec : EqDecision error.
Proof. solve_decision. Defined.

(** [errors.Is(err, target)]: [target] occurs on the unwrap chain of [err]. *)
Fixpoint errors_Is (err target : error) : bool :=
  if decide (err = target) then true
  else match err with
       | Wrap cause _ => errors_Is cause target
       | _ => false
       end.

(** ** Package model *)

Module model.

(** Modelled from the spec: the protocol revisions named in sections 1 and
    4.H; the Go type [VersionType] is declared outside the sources. *)
Inductive VersionType : Type := Version2011 | Version2013 | Version2019.

#[global] Instance VersionType_eq_dec : EqDecision VersionType.
Proof. solve_decision. Defined.

(** The header structs are declared outside the sources; they carry the
    fields the two source files read. *)
Record MsgBodyAttr := {
  BodyLength : Z;               (* uint16 *)
  VersionDesc : VersionType;
}.

Record MsgHeader := {
  MsgID : Z;                    (* uint16 *)
  Attr : MsgBodyAttr;
  PhoneNumber : string;
}.

Record PacketData := {
  Header : MsgHeader;           (* a non-nil pointer, shared with the decoded message *)
  Body : list byte;
}.

(** A local variable of type [*VersionType]: it points either into the
    header or at the element of a freshly allocated slice. *)
Inductive VersionPtr : Type :=
| AtHeaderVersionDesc                   (* &m.Header.Attr.VersionDesc *)
| AtFresh (v : VersionType).            (* &[]VersionType{v}[0] *)

Definition load (h : MsgHeader) (p : VersionPtr) : VersionType :=
  match p with
  | AtHeaderVersionDesc => VersionDesc (Attr h)
  | AtFresh v => v
  end.

Module Msg0100.

Record t := {
  Header : option MsgHeader;
  ProvinceID : Z;               (* uint16 *)
  CityID : Z;                   (* uint16 *)
  ManufacturerID : string;
  DeviceMode : string;
  DeviceID : string;
  PlateColor : byte;
  PlateNumber : string;
}.

Definition zero : t :=
  {| Header := None; ProvinceID := 0; CityID := 0; ManufacturerID := "";
     DeviceMode := ""; DeviceID := ""; PlateColor := x00; PlateNumber := "" |}.

(** Lines 27-42 of [Decode]: the field widths and the final value of the
    local pointer [ver].  No statement stores through [ver], so the header
    is only read. *)
Definition widths (h : MsgHeader) (idx : Z) : option (Z * Z * Z * VersionPtr) :=
  let ver := AtHeaderVersionDesc in
  if decide (load h ver = Version2019) then Some (11, 30, 30, ver)
  else if decide (load h ver = Version2013) then
    let remainLen := BodyLength (Attr h) - idx in
    if 5 + 20 + 7 + 1 <? remainLen then Some (5, 20, 7, ver)
    else Some (5, 8, 7, AtFresh Version2011)
  else None.

(** [Decode] returns the receiver and the packet as they are after the
    call, with the error result.  [m.Header] and [packet.Header] are the
    same pointer, so one header value [h] stands for both. *)
Definition Decode `{GBK} (m : t) (packet : PacketData) : Go (t * PacketData * option error) :=
  let h := model.Header packet in
  let pkt := Body packet in
  '(province, idx) ← hex.ReadWord pkt 0;
  '(city, idx) ← hex.ReadWord pkt idx;
  match widths h idx with
  | None =>
      Done ({| Header := Some h; ProvinceID := province; CityID := city;
               ManufacturerID := ManufacturerID m; DeviceMode := DeviceMode m;
               DeviceID := DeviceID m; PlateColor := PlateColor m;
               PlateNumber := PlateNumber m |},
            packet, Some (Lib ErrDecodeMsg))
  | Some (manuLen, modeLen, idLen, _) =>
      '(manu, idx) ← hex.ReadString pkt idx manuLen;
      '(mode, idx) ← hex.ReadString pkt idx modeLen;
      '(id, idx) ← hex.ReadString pkt idx idLen;
      '(color, idx) ← hex.ReadByte pkt idx;
      '(plate, idx) ← hex.ReadGBK pkt idx (BodyLength (Attr h) - idx);
      Done ({| Header := Some h; ProvinceID := province; CityID := city;
               ManufacturerID := TrimRight_nul manu;
               DeviceMode := TrimRight_nul mode;
               DeviceID := TrimRight_nul id;
               PlateColor := color; PlateNumber := plate |},
            packet, None)
  end.

(** A fixed-width field: the loop appends [width - len(field)] NUL bytes
    (none when the field is already that long). *)
Definition pad (field : list byte) (width : Z) : list byte :=
  field ++ replicate (Z.to_nat (width - Z.of_nat (length field))) x00.

(** Lines 55-92 of [Encode]: the body handed to [writeHeader]; [None] is
    the [ErrEncodeHeader] return. *)
Definition EncodeBody `{GBK} (m : t) : Go (option (list byte)) :=
  let pkt := hex.WriteWord [] (ProvinceID m) in
  let pkt := hex.WriteWord pkt (CityID m) in
  match Header m with
  | None => Panic
  | Some h =>
      let msgVer := VersionDesc (Attr h) in
      let lens :=
        if decide (msgVer = Version2019) then Some (11, 30, 30)
        else if decide (msgVer = Version2013) then Some (5, 20, 7)
        else if decide (msgVer = Version2011) then Some (5, 8, 7)
        else None in
      match lens with
      | None => Done None
      | Some (manuLen, modeLen, idLen) =>
          let pkt := pkt ++ pad (list_byte_of_string (ManufacturerID m)) manuLen in
          let pkt := pkt ++ pad (list_byte_of_string (DeviceMode m)) modeLen in
          let pkt := pkt ++ pad (list_byte_of_string (DeviceID m)) idLen in
          let pkt := hex.WriteByte pkt (PlateColor m) in
          let pkt := hex.WriteGBK pkt (PlateNumber m) in
          Done (Some pkt)
      end
  end.

(** [Encode]; [writeHeader] is declared outside the sources and is a
    parameter. *)
Definition Encode `{GBK}
    (writeHeader : t -> list byte -> Go (list byte * option error)) (m : t)
  : Go (list byte * option error) :=
  body ← EncodeBody m;
  match body with
  | None => Done ([], Some (Lib ErrEncodeHeader))
  | Some pkt => writeHeader m pkt
  end.

(** [GetHeader] (lines 98-100). *)
Definition GetHeader (m : t) : option MsgHeader := Header m.

(** [GenOutgoing] (lines 102-104): nothing to do, no error. *)
Definition GenOutgoing {I : Type} (m : t) (incoming : I) : option error := None.

End Msg0100.

(** The remaining message structs are declared outside the sources; each is
    given the fields that [msg_processor.go] reads or writes. *)

Module Msg0001.
Record t := { Header : option MsgHeader }.
Definition zero : t := {| Header := None |}.
End Msg0001.

Module Msg0002.
Record t := { Header : option MsgHeader }.
Definition zero : t := {| Header := None |}.
End Msg0002.

Module Msg0003.
Record t := { Header : option MsgHeader }.
Definition zero : t := {| Header := None |}.
End Msg0003.

Module Msg0102.
Record t := {
  Header : option MsgHeader;
  AuthCode : string;
  IMEI : string;
  SoftwareVersion : string;
}.
Definition zero : t :=
  {| Header := None; AuthCode := ""; IMEI := ""; SoftwareVersion := "" |}.
Definition with_credentials (m : t) (code imei ver : string) : t :=
  {| Header := Header m; AuthCode := code; IMEI := imei; SoftwareVersion := ver |}.
End Msg0102.

Module Msg0200.
Record t := {
  Header : option MsgHeader;
  StatusSign : Z;               (* uint32 *)
}.
Definition zero : t := {| Header := None; StatusSign := 0 |}.
End Msg0200.

Module Msg8001.
Record t := {
  Header : option MsgHeader;
  Result : Z;                   (* byte *)
}.
Definition zero : t := {| Header := None; Result := 0 |}.
Definition with_Result (m : t) (r : Z) : t := {| Header := Header m; Result := r |}.
End Msg8001.

Module Msg8100.
Record t := {
  Header : option MsgHeader;
  Result : Z;                   (* byte *)
  AuthCode : string;
}.
Definition zero : t := {| Header := None; Result := 0; AuthCode := "" |}.
Definition with_Result (m : t) (r : Z) : t :=
  {| Header := Header m; Result := r; AuthCode := AuthCode m |}.
Definition with_AuthCode (m : t) (code : string) : t :=
  {| Header := Header m; Result := Result m; AuthCode := code |}.
End Msg8100.

(** A value of interface type [JT808Msg]: a pointer to one of the message
    structs, tagged with its dynamic type. *)
Inductive JT808Msg : Type :=
| OfMsg0001 (m : Msg0001.t)
| OfMsg0002 (m : Msg0002.t)
| OfMsg0003 (m : Msg0003.t)
| OfMsg0100 (m : Msg0100.t)
| OfMsg0102 (m : Msg0102.t)
| OfMsg0200 (m : Msg0200.t)
| OfMsg8001 (m : Msg8001.t)
| OfMsg8100 (m : Msg8100.t).

Record ProcessData := {
  Incoming : JT808Msg;
  Outgoing : option JT808Msg;   (* nil when the message needs no reply *)
}.

Definition with_Outgoing (data : ProcessData) (out : JT808Msg) : ProcessData :=
  {| Incoming := Incoming data; Outgoing := Some out |}.
Definition with_Incoming (data : ProcessData) (m : JT808Msg) : ProcessData :=
  {| Incoming := m; Outgoing := Outgoing data |}.

(** Interface method [GetHeader]; the structs outside the sources return
    their header field like [Msg0100] does. *)
Definition GetHeader (m : JT808Msg) : option MsgHeader :=
  match m with
  | OfMsg0001 m => Msg0001.Header m
  | OfMsg0002 m => Msg0002.Header m
  | OfMsg0003 m => Msg0003.Header m
  | OfMsg0100 m => Msg0100.GetHeader m
  | OfMsg0102 m => Msg0102.Header m
  | OfMsg0200 m => Msg0200.Header m
  | OfMsg8001 m => Msg8001.Header m
  | OfMsg8100 m => Msg8100.Header m
  end.

(** The [Decode] and [GenOutgoing] methods of the other message structs
    are outside the sources and are taken as parameters.  Each returns its
    receiver as it is after the call and the error result. *)
Class Methods := {
  Decode0001 : Msg0001.t -> PacketData -> Go (Msg0001.t * option lib_error);
  Decode0002 : Msg0002.t -> PacketData -> Go (Msg0002.t * option lib_error);
  Decode0003 : Msg0003.t -> PacketData -> Go (Msg0003.t * option lib_error);
  Decode0102 : Msg0102.t -> PacketData -> Go (Msg0102.t * option lib_error);
  Decode0200 : Msg0200.t -> PacketData -> Go (Msg0200.t * option lib_error);
  Decode8001 : Msg8001.t -> PacketData -> Go (Msg8001.t * option lib_error);
  Decode8100 : Msg8100.t -> PacketData -> Go (Msg8100.t * option lib_error);
  GenOutgoing0001 : Msg0001.t -> JT808Msg -> Go (Msg0001.t * option lib_error);
  GenOutgoing0002 : Msg0002.t -> JT808Msg -> Go (Msg0002.t * option lib_error);
  GenOutgoing0003 : Msg0003.t -> JT808Msg -> Go (Msg0003.t * option lib_error);
  GenOutgoing0102 : Msg0102.t -> JT808Msg -> Go (Msg0102.t * option lib_error);
  GenOutgoing0200 : Msg0200.t -> JT808Msg -> Go (Msg0200.t * option lib_error);
  GenOutgoing8001 : Msg8001.t -> JT808Msg -> Go (Msg8001.t * option lib_error);
  GenOutgoing8100 : Msg8100.t -> JT808Msg -> Go (Msg8100.t * option lib_error);
}.

(** Run a method of a concrete struct behind the interface. *)
Definition via {A : Type} (inj : A -> JT808Msg) (c : Go (A * option lib_error))
  : Go (JT808Msg * option error) :=
  '(m, e) ← c; Done (inj m, option_map Lib e).

(** Interface method [Decode]: the message and the packet after the call. *)
Definition Decode `{GBK} `{Methods} (m : JT808Msg) (pkt : PacketData)
  : Go (JT808Msg * PacketData * option error) :=
  match m with
  | OfMsg0100 m => '(m', pkt', e) ← Msg0100.Decode m pkt; Done (OfMsg0100 m', pkt', e)
  | OfMsg0001 m => '(m', e) ← via OfMsg0001 (Decode0001 m pkt); Done (m', pkt, e)
  | OfMsg0002 m => '(m', e) ← via OfMsg0002 (Decode0002 m pkt); Done (m', pkt, e)
  | OfMsg0003 m => '(m', e) ← via OfMsg0003 (Decode0003 m pkt); Done (m', pkt, e)
  | OfMsg0102 m => '(m', e) ← via OfMsg0102 (Decode0102 m pkt); Done (m', pkt, e)
  | OfMsg0200 m => '(m', e) ← via OfMsg0200 (Decode0200 m pkt); Done (m', pkt, e)
  | OfMsg8001 m => '(m', e) ← via OfMsg8001 (Decode8001 m pkt); Done (m', pkt, e)
  | OfMsg8100 m => '(m', e) ← via OfMsg8100 (Decode8100 m pkt); Done (m', pkt, e)
  end.

(** Interface method [GenOutgoing]. *)
Definition GenOutgoing `{Methods} (out incoming : JT808Msg) : Go (JT808Msg * option error) :=
  match out with
  | OfMsg0100 m => Done (OfMsg0100 m, Msg0100.GenOutgoing m incoming)
  | OfMsg0001 m => via OfMsg0001 (GenOutgoing0001 m incoming)
  | OfMsg0002 m => via OfMsg0002 (GenOutgoing0002 m incoming)
  | OfMsg0003 m => via OfMsg0003 (GenOutgoing0003 m incoming)
  | OfMsg0102 m => via OfMsg0102 (GenOutgoing0102 m incoming)
  | OfMsg0200 m => via OfMsg0200 (GenOutgoing0200 m incoming)
  | OfMsg8001 m => via OfMsg8001 (GenOutgoing8001 m incoming)
  | OfMsg8100 m => via OfMsg8100 (GenOutgoing8100 m incoming)
  end.

(** Modelled from the spec: section 3, status is one of offline, online,
    sleeping. *)
Inductive DeviceStatus : Type :=
| DeviceStatusOffline | DeviceStatusOnline | DeviceStatusSleeping.

(** Modelled from the spec: section 3, transport_kind is tcp or udp. *)
Inductive TransProtoKind : Type := TCP | UDP.

Module Device.
(** Modelled from the spec: the fields of Device in section 3, under the
    names the handlers use. *)
Record t := {
  ID : string;
  PlateNumber : string;
  PhoneNumber : string;
  SessionID : string;
  TransProto : TransProtoKind;
  Conn : Z;                     (* opaque connection handle *)
  Keepalive : Z;                (* time.Duration, in nanoseconds *)
  Status : DeviceStatus;
  IMEI : string;
  SoftwareVersion : string;
}.
Definition with_Status (d : t) (s : DeviceStatus) : t :=
  {| ID := ID d; PlateNumber := PlateNumber d; PhoneNumber := PhoneNumber d;
     SessionID := SessionID d; TransProto := TransProto d; Conn := Conn d;
     Keepalive := Keepalive d; Status := s; IMEI := IMEI d;
     SoftwareVersion := SoftwareVersion d |}.
End Device.

Module Session.
(** Modelled from the spec: the fields of Session in section 3. *)
Record t := {
  ID : string;
  TransProto : TransProtoKind;  (* what [GetTransProto] returns *)
  Conn : Z;
}.
End Session.

(** The decoded location fix; its declaration is outside the sources. *)
Module GISMeta.
(** Modelled from the spec: the status flags of a fix, with ACC apart
    (sections 3 and 4.H). *)
Record t := {
  ACCStatus : Z;
  Flags : Z;
}.
(** Modelled from the spec: a fix before decoding. *)
Definition New : t := {| ACCStatus := 0; Flags := 0 |}.
(** Modelled from the spec: the 32-bit status-sign word is decoded into
    the fix; ACC is bit 0, the other flags are the remaining bits. *)
Definition Decode (g : t) (statusSign : Z) : t :=
  {| ACCStatus := Z.land statusSign 1; Flags := Z.shiftr statusSign 1 |}.
End GISMeta.

End model.

Import model.

(** [x.f] through a nilable pointer, a call of a nilable func value, or a
    type assertion on a nilable interface: nil panics. *)
Definition deref {A : Type} (p : option A) : Go A :=
  match p with
  | Some a => Done a
  | None => Panic
  end.

(** ** Package storage *)

Module storage.

(** Modelled from the spec: the device registry of section 4.D, a store
    keyed by phone number with a derived index from plate to phone.  Each
    entry has a lifetime (its TTL): [expiry] holds the instant up to which
    the entry is kept without a further [put], the deadline
    [now + keepalive_interval] of section 4.F. *)
Record DeviceCache := {
  cacheByPhone : gmap string Device.t;
  cacheByPlate : gmap string string;
  expiry : gmap string Z;
}.

(** Modelled from the spec: the registry before any [put]. *)
Definition emptyDeviceCache : DeviceCache :=
  {| cacheByPhone := ∅; cacheByPlate := ∅; expiry := ∅ |}.

(** Modelled from the spec: [get_by_phone] yields the device, or the error
    [DeviceNotFound]. *)
Definition GetDeviceByPhone (cache : DeviceCache) (phone : string)
  : option Device.t * option error :=
  match cacheByPhone cache !! phone with
  | Some d => (Some d, None)
  | None => (None, Some (Lib ErrDeviceNotFound))
  end.

(** Modelled from the spec: [has_phone]. *)
Definition HasPhone (cache : DeviceCache) (phone : string) : bool :=
  bool_decide (is_Some (cacheByPhone cache !! phone)).

(** Modelled from the spec: [has_plate]. *)
Definition HasPlate (cache : DeviceCache) (plate : string) : bool :=
  bool_decide (is_Some (cacheByPlate cache !! plate)).

(** Modelled from the spec: [put] replaces the existing record and updates
    the plate index; it starts the lifetime of a new entry and renews the
    one of an entry that is already there (the TTL refresh), counted from
    [now], the reading of the clock at the call.  Two puts of one device at
    one instant leave what one does. *)
Definition CacheDevice (now : Z) (cache : DeviceCache) (d : Device.t) : DeviceCache :=
  {| cacheByPhone := <[Device.PhoneNumber d := d]> (cacheByPhone cache);
     cacheByPlate := <[Device.PlateNumber d := Device.PhoneNumber d]> (cacheByPlate cache);
     expiry := <[Device.PhoneNumber d := now + Device.Keepalive d]> (expiry cache) |}.

(** Modelled from the spec: [delete_by_phone] removes the device, its
    plate index entry and its lifetime; an absent phone is tolerated. *)
Definition DelDeviceByPhone (cache : DeviceCache) (phone : string) : DeviceCache :=
  match cacheByPhone cache !! phone with
  | None => cache
  | Some d =>
      {| cacheByPhone := delete phone (cacheByPhone cache);
         cacheByPlate := delete (Device.PlateNumber d) (cacheByPlate cache);
         expiry := delete phone (expiry cache) |}
  end.

(** Modelled from the spec: the capacity of a GIS ring,
    [gis_ring_capacity], default 128 (sections 4.E and 6). *)
Definition gis_ring_capacity : nat := 128.

(** Modelled from the spec: the GIS cache of section 4.E holds one ring of
    fixes per key, oldest first; a key without a ring yet has an empty
    one. *)
Definition GetGisRingByPhone (cache : gmap string (list GISMeta.t)) (key : string)
  : list GISMeta.t :=
  default [] (cache !! key).

(** Modelled from the spec: [write] appends the fix and overwrites the
    oldest entry when the ring is full. *)
Definition ring_Write (rb : list GISMeta.t) (fix_ : GISMeta.t) : list GISMeta.t :=
  if (length rb <? gis_ring_capacity)%nat then rb ++ [fix_]
  else drop 1 rb ++ [fix_].

End storage.

(** ** Package protocol *)

Module protocol.

(** The keep-alive timer of section 4.F is outside the sources; it is seen
    as the set of phone numbers that have an entry.  The deadline of an
    entry is the lifetime that the registry keeps for the phone number
    ([storage.expiry]); what happens when it elapses is not modelled. *)
Module KeepaliveTimer.
(** Modelled from the spec: [register(phone)] adds the entry. *)
Definition Register (t : gset string) (phone : string) : gset string := {[phone]} ∪ t.
(** Modelled from the spec: [cancel(phone)] removes the entry and is
    idempotent. *)
Definition Cancel (t : gset string) (phone : string) : gset string := t ∖ {[phone]}.
End KeepaliveTimer.

(** The process-wide singletons the handlers reach through
    [storage.GetDeviceCache], [NewKeepaliveTimer], [storage.GetGisCache],
    and the reading of the clock, in nanoseconds, from which the registry
    counts a lifetime. *)
Record World := {
  devices : storage.DeviceCache;
  timer : gset string;
  gis : gmap string (list GISMeta.t);
  now : Z;
}.

Definition emptyWorld : World :=
  {| devices := storage.emptyDeviceCache; timer := ∅; gis := ∅; now := 0 |}.

(** Declarations outside the sources that the processor depends on. *)
Class Env := {
  FNV32 : string -> Z;                  (* hash.FNV32, a uint32 *)
  ResCarAlreadyRegister : Z;            (* model result codes, bytes *)
  ResDeviceAlreadyRegister : Z;
  ResultFail : Z;
  DebugLevel : bool;                    (* log.Logger.GetLevel() == zerolog.DebugLevel *)
  jsonMarshal : JT808Msg -> option lib_error;   (* the error of json.Marshal *)
}.

(** [ctx.Value(model.SessionCtxKey{})]: the session stored in the context,
    if any.  The type assertion to a session pointer panics without one. *)
Definition Context : Type := option Session.t.

Definition time_Second : Z := 1000000000.
Definition time_Minute : Z := 60 * time_Second.

(** [strconv.Itoa] *)
Definition Itoa (n : Z) : string := NilZero.string_of_int (Z.to_int n).

(** [errors.Is] and [errors.Wrapf] on a possibly nil error. *)
Definition Is (err : option error) (target : error) : bool :=
  match err with
  | Some e => errors_Is e target
  | None => false
  end.

Definition Wrapf (err : option error) (msg : string) : option error :=
  option_map (fun e => Wrap e msg) err.

Definition handler : Type :=
  Context -> ProcessData -> World -> Go (option error * ProcessData * World).

Record action := {
  genData : option (unit -> ProcessData);
  process : option handler;
}.

Definition with_devices (w : World) (c : storage.DeviceCache) : World :=
  {| devices := c; timer := timer w; gis := gis w; now := now w |}.
Definition with_timer (w : World) (t : gset string) : World :=
  {| devices := devices w; timer := t; gis := gis w; now := now w |}.
Definition with_gis (w : World) (g : gmap string (list GISMeta.t)) : World :=
  {| devices := devices w; timer := timer w; gis := g; now := now w |}.
(** The clock moves on between two calls; no handler sets it. *)
Definition with_now (w : World) (t : Z) : World :=
  {| devices := devices w; timer := timer w; gis := gis w; now := t |}.

Definition not_found_msg (phone : string) : string :=
  "Fail to find device cache, phoneNumber=" +:+ phone.

Section handlers.
Context `{Env} `{Methods}.

(** [int] is taken to be 64 bits wide, so that [int(hash.FNV32(s))] is the
    value of the hash. *)
Definition genAuthCode (d : Device.t) : string :=
  let code := Device.ID d +:+ "_" +:+ Device.PlateNumber d +:+ "_" +:+ Device.PhoneNumber d in
  Itoa (FNV32 code).

Definition processMsg0002 : handler := fun ctx data w =>
  let cache := devices w in
  h ← deref (GetHeader (Incoming data));
  let '(device, err) := storage.GetDeviceByPhone cache (PhoneNumber h) in
  if Is err (Lib ErrDeviceNotFound) then
    Done (Wrapf err (not_found_msg (PhoneNumber h)), data, w)
  else
    device ← deref device;
    Done (None, data, with_devices w (storage.CacheDevice (now w) cache device)).

Definition processMsg0003 : handler := fun ctx data w =>
  let cache := devices w in
  h ← deref (GetHeader (Incoming data));
  let '(device, err) := storage.GetDeviceByPhone cache (PhoneNumber h) in
  if Is err (Lib ErrDeviceNotFound) then
    Done (Wrapf err (not_found_msg (PhoneNumber h)), data, w)
  else
    device ← deref device;
    let w := with_timer w (KeepaliveTimer.Cancel (timer w) (Device.PhoneNumber device)) in
    let w := with_devices w (storage.DelDeviceByPhone cache (Device.PhoneNumber device)) in
    Done (None, data, w).

Definition processMsg0100 : handler := fun ctx data w =>
  match Incoming data with
  | OfMsg0100 in_ =>
      let cache := devices w in
      match Outgoing data with
      | Some (OfMsg8100 out) =>
          if storage.HasPlate cache (Msg0100.PlateNumber in_) then
            let out := Msg8100.with_Result out ResCarAlreadyRegister in
            Done (None, with_Outgoing data (OfMsg8100 out), w)
          else
            h ← deref (Msg0100.Header in_);
            if storage.HasPhone cache (PhoneNumber h) then
              let out := Msg8100.with_Result out ResDeviceAlreadyRegister in
              Done (None, with_Outgoing data (OfMsg8100 out), w)
            else
              session ← deref ctx;
              let device :=
                {| Device.ID := Msg0100.DeviceID in_;
                   Device.PlateNumber := Msg0100.PlateNumber in_;
                   Device.PhoneNumber := PhoneNumber h;
                   Device.SessionID := Session.ID session;
                   Device.TransProto := Session.TransProto session;
                   Device.Conn := Session.Conn session;
                   Device.Keepalive := time_Minute * 1;
                   Device.Status := DeviceStatusOffline;
                   Device.IMEI := "";
                   Device.SoftwareVersion := "" |} in
              let out := Msg8100.with_AuthCode out (genAuthCode device) in
              let w := with_devices w (storage.CacheDevice (now w) cache device) in
              let w := with_timer w (KeepaliveTimer.Register (timer w) (Device.PhoneNumber device)) in
              Done (None, with_Outgoing data (OfMsg8100 out), w)
      | _ => Panic
      end
  | _ => Panic
  end.

Definition processMsg0102 : handler := fun ctx data w =>
  match Incoming data with
  | OfMsg0102 in_ =>
      let cache := devices w in
      h ← deref (Msg0102.Header in_);
      let '(device, err) := storage.GetDeviceByPhone cache (PhoneNumber h) in
      if Is err (Lib ErrDeviceNotFound) then
        Done (Wrapf err (not_found_msg (PhoneNumber h)), data, w)
      else
        match Outgoing data with
        | Some (OfMsg8001 out) =>
            device ← deref device;
            if decide (Msg0102.AuthCode in_ ≠ genAuthCode device) then
              let out := Msg8001.with_Result out ResultFail in
              let w := with_timer w (KeepaliveTimer.Cancel (timer w) (Device.PhoneNumber device)) in
              let w := with_devices w (storage.DelDeviceByPhone cache (Device.PhoneNumber device)) in
              Done (None, with_Outgoing data (OfMsg8001 out), w)
            else
              let device := Device.with_Status device DeviceStatusOnline in
              let w := with_devices w (storage.CacheDevice (now w) cache device) in
              Done (None, data, w)
        | _ => Panic
        end
  | _ => Panic
  end.

Definition handleMsg0200 : handler := fun ctx data w =>
  match Incoming data with
  | OfMsg0200 in_ =>
      let cache := devices w in
      h ← deref (Msg0200.Header in_);
      let '(device, err) := storage.GetDeviceByPhone cache (PhoneNumber h) in
      if Is err (Lib ErrDeviceNotFound) then
        Done (Wrapf err (not_found_msg (PhoneNumber h)), data, w)
      else
        device ← deref device;
        let gis_ := GISMeta.Decode GISMeta.New (Msg0200.StatusSign in_) in
        let '(device, w) :=
          if GISMeta.ACCStatus gis_ =? 0 then
            let device := Device.with_Status device DeviceStatusSleeping in
            (device, with_devices w (storage.CacheDevice (now w) cache device))
          else (device, w) in
        let gisCache := gis w in
        let rb := storage.GetGisRingByPhone gisCache (Device.ID device) in
        (* rb.Write(gis) updates the ring that the cache holds under that key *)
        let w := with_gis w (<[Device.ID device := storage.ring_Write rb gis_]> gisCache) in
        Done (None, data, w)
  | _ => Panic
  end.

Definition processMsg8100 : handler := fun ctx data w =>
  match Incoming data with
  | OfMsg8100 in_ =>
      match Outgoing data with
      | Some (OfMsg0102 out) =>
          let cache := devices w in
          h ← deref (Msg8100.Header in_);
          let '(device, err) := storage.GetDeviceByPhone cache (PhoneNumber h) in
          if Is err (Lib ErrDeviceNotFound) then
            Done (Some ErrActiveClose, data, w)
          else
            device ← deref device;
            let out := Msg0102.with_credentials out (genAuthCode device)
                         (Device.IMEI device) (Device.SoftwareVersion device) in
            '(out, err) ← GenOutgoing (OfMsg0102 out) (OfMsg8100 in_);
            let data := with_Outgoing data out in
            match err with
            | Some e => Done (Some (Wrap e "Fail to generate msg 8100"), data, w)
            | None => Done (None, data, w)
            end
      | _ => Panic
      end
  | _ => Panic
  end.

(** The dispatch table, filled in the order of [initProcessOption]. *)
Definition initProcessOption : gmap Z action :=
  let options : gmap Z action := ∅ in
  let options := <[0x0001 :=
    {| genData := Some (fun _ => {| Incoming := OfMsg0001 Msg0001.zero; Outgoing := None |});
       process := None |}]> options in
  let options := <[0x0002 :=
    {| genData := Some (fun _ => {| Incoming := OfMsg0002 Msg0002.zero;
                                    Outgoing := Some (OfMsg8001 Msg8001.zero) |});
       process := Some processMsg0002 |}]> options in
  let options := <[0x0003 :=
    {| genData := Some (fun _ => {| Incoming := OfMsg0003 Msg0003.zero;
                                    Outgoing := Some (OfMsg8001 Msg8001.zero) |});
       process := Some processMsg0003 |}]> options in
  let options := <[0x0100 :=
    {| genData := Some (fun _ => {| Incoming := OfMsg0100 Msg0100.zero;
                                    Outgoing := Some (OfMsg8100 Msg8100.zero) |});
       process := Some processMsg0100 |}]> options in
  let options := <[0x0102 :=
    {| genData := Some (fun _ => {| Incoming := OfMsg0102 Msg0102.zero;
                                    Outgoing := Some (OfMsg8001 Msg8001.zero) |});
       process := Some processMsg0102 |}]> options in
  let options := <[0x0200 :=
    {| genData := Some (fun _ => {| Incoming := OfMsg0200 Msg0200.zero;
                                    Outgoing := Some (OfMsg8001 Msg8001.zero) |});
       process := Some handleMsg0200 |}]> options in
  let options := <[0x8001 :=
    {| genData := Some (fun _ => {| Incoming := OfMsg8001 Msg8001.zero; Outgoing := None |});
       process := None |}]> options in
  let options := <[0x8100 :=
    {| genData := Some (fun _ => {| Incoming := OfMsg8100 Msg8100.zero;
                                    Outgoing := Some (OfMsg0102 Msg0102.zero) |});
       process := Some processMsg8100 |}]> options in
  options.

(** The debug-level logging blocks of [Process]: each asserts the session
    out of the context; the first one also serialises the message and
    yields the error of [json.Marshal]. *)
Definition log_incoming (ctx : Context) (m : JT808Msg) : Go (option lib_error) :=
  if DebugLevel then _ ← deref ctx; Done (jsonMarshal m) else Done None.

Definition log_outgoing (ctx : Context) : Go unit :=
  if DebugLevel then _ ← deref ctx; Done tt else Done tt.

Section Process.
Context `{GBK}.

(** [Process] on the processor whose table is [options]; the result is the
    returned pair and the singletons after the call. *)
Definition Process (options : gmap Z action) (ctx : Context) (pkt : PacketData) (w : World)
  : Go (option ProcessData * option error * World) :=
  let msgID := MsgID (model.Header pkt) in
  (* mp.options[msgID] is a nil pointer for an absent key; .genData dereferences it *)
  act ← deref (options !! msgID);
  match genData act with
  | None => Done (None, Some ErrMsgIDNotSupportted, w)
  | Some genDataFn =>
      let data := genDataFn tt in
      '(in_, pkt, err) ← Decode (Incoming data) pkt;
      let data := with_Incoming data in_ in
      match err with
      | Some e => Done (None, Some (Wrap e "Fail to decode packet to jtmsg"), w)
      | None =>
          jsonErr ← log_incoming ctx in_;
          match jsonErr with
          | Some e =>
              Done (None, Some (Wrap (Lib e) "Fail to serialize incoming msg to json"), w)
          | None =>
              match Outgoing data with
              | None => Done (None, None, w)
              | Some out =>
                  '(out, err) ← GenOutgoing out in_;
                  let data := with_Outgoing data out in
                  match err with
                  | Some e => Done (Some data, Some (Wrap e "Fail to generate outgoing msg"), w)
                  | None =>
                      processFunc ← deref (process act);
                      '(err, data, w) ← processFunc ctx data w;
                      _ ← log_outgoing ctx;
                      match err with
                      | Some e => Done (Some data, Some (Wrap e "Fail to process data"), w)
                      | None => Done (Some data, None, w)
                      end
                  end
              end
          end
      end
  end.

(** [NewJT808MsgProcessor().Process] *)
Definition JT808MsgProcessor_Process : Context -> PacketData -> World ->
    Go (option ProcessData * option error * World) :=
  Process initProcessOption.

End Process.
End handlers.
End protocol.

(** ** A concrete environment

    Instances of the parameters, used to run the model on examples: GBK on
    its single-byte range (where it is ASCII), the 32-bit FNV-1a hash, the
    result codes of the scenarios in section 8 of the specification, and
    decoders that read the simplest layout of each body. *)

Module Sample.

Definition gbk : GBK :=
  {| gbk_encode := list_byte_of_string; gbk_decode := string_of_list_byte |}.

Definition fnv1a32 (s : string) : Z :=
  fold_left (fun h b => (Z.lxor h (Z_of_byte b) * 16777619) mod 2 ^ 32)
            (list_byte_of_string s) 2166136261.

Definition env : protocol.Env :=
  {| protocol.FNV32 := fnv1a32;
     protocol.ResCarAlreadyRegister := 2;
     protocol.ResDeviceAlreadyRegister := 3;
     protocol.ResultFail := 1;
     protocol.DebugLevel := false;
     protocol.jsonMarshal := fun _ => None |}.

Definition status_word (body : list byte) : Z :=
  match body with
  | b3 :: b2 :: b1 :: b0 :: _ =>
      ((Z_of_byte b3 * 256 + Z_of_byte b2) * 256 + Z_of_byte b1) * 256 + Z_of_byte b0
  | _ => 0
  end.

Definition methods : Methods :=
  {| Decode0001 := fun _ pkt => Done ({| Msg0001.Header := Some (Header pkt) |}, None);
     Decode0002 := fun _ pkt => Done ({| Msg0002.Header := Some (Header pkt) |}, None);
     Decode0003 := fun _ pkt => Done ({| Msg0003.Header := Some (Header pkt) |}, None);
     Decode0102 := fun m pkt =>
       Done ({| Msg0102.Header := Some (Header pkt);
                Msg0102.AuthCode := string_of_list_byte (Body pkt);
                Msg0102.IMEI := Msg0102.IMEI m;
                Msg0102.SoftwareVersion := Msg0102.SoftwareVersion m |}, None);
     Decode0200 := fun _ pkt =>
       Done ({| Msg0200.Header := Some (Header pkt);
                Msg0200.StatusSign := status_word (Body pkt) |}, None);
     Decode8001 := fun m pkt =>
       Done ({| Msg8001.Header := Some (Header pkt); Msg8001.Result := Msg8001.Result m |}, None);
     Decode8100 := fun m pkt =>
       Done ({| Msg8100.Header := Some (Header pkt); Msg8100.Result := Msg8100.Result m;
                Msg8100.AuthCode := string_of_list_byte (Body pkt) |}, None);
     GenOutgoing0001 := fun m _ => Done (m, None);
     GenOutgoing0002 := fun m _ => Done (m, None);
     GenOutgoing0003 := fun m _ => Done (m, None);
     GenOutgoing0102 := fun m inc =>
       Done ({| Msg0102.Header := GetHeader inc; Msg0102.AuthCode := Msg0102.AuthCode m;
                Msg0102.IMEI := Msg0102.IMEI m;
                Msg0102.SoftwareVersion := Msg0102.SoftwareVersion m |}, None);
     GenOutgoing0200 := fun m _ => Done (m, None);
     GenOutgoing8001 := fun m inc =>
       Done ({| Msg8001.Header := GetHeader inc; Msg8001.Result := 0 |}, None);
     GenOutgoing8100 := fun m inc =>
       Done ({| Msg8100.Header := GetHeader inc; Msg8100.Result := 0;
                Msg8100.AuthCode := Msg8100.AuthCode m |}, None) |}.

Definition header (id : Z) (ver : VersionType) (len : Z) (phone : string) : MsgHeader :=
  {| MsgID := id; Attr := {| BodyLength := len; VersionDesc := ver |};
     PhoneNumber := phone |}.

Definition session : Session.t :=
  {| Session.ID := "s1"; Session.TransProto := TCP; Session.Conn := 7 |}.

(** The processor in this environment. *)
Definition Process : protocol.Context -> PacketData -> protocol.World ->
    Go (option ProcessData * option error * protocol.World) :=
  @protocol.JT808MsgProcessor_Process env methods gbk.

(** Registration messages of scenario 1 in section 8, with an ASCII plate,
    in the 2013 and the 2011 layout. *)
Definition registration (ver : VersionType) (len : Z) (mode plate : string) : Msg0100.t :=
  {| Msg0100.Header := Some (header 0x0100 ver len "013800138000");
     Msg0100.ProvinceID := 0x002C; Msg0100.CityID := 0x0101;
     Msg0100.ManufacturerID := "ABCDE"; Msg0100.DeviceMode := mode;
     Msg0100.DeviceID := "DEV0001"; Msg0100.PlateColor := x01;
     Msg0100.PlateNumber := plate |}.

Definition reg2013 : Msg0100.t := registration Version2013 45 "MODEL-2013-VER-A" "A1234567".

(** The same 2013 registration for a vehicle without a plate yet. *)
Definition reg2013_no_plate : Msg0100.t := registration Version2013 37 "MODEL-2013-VER-A" "".
Definition reg2011 : Msg0100.t := registration Version2011 33 "MODEL-11" "A1234567".

Definition body_of (x : Msg0100.t) : list byte :=
  match @Msg0100.EncodeBody gbk x with
  | Done (Some b) => b
  | _ => []
  end.

(** The 2011-layout body under a header whose version descriptor is 2013,
    33 bytes long: 29 remain after the province and city words. *)
Definition short_2013_packet : PacketData :=
  {| Header := header 0x0100 Version2013 33 "013800138000"; Body := body_of reg2011 |}.

Definition phone : string := "013800138000".

(** Scenario 6: a frame with the unsupported id 0x0700. *)
Definition packet_0700 : PacketData :=
  {| Header := header 0x0700 Version2013 0 phone; Body := [] |}.

(** A generic acknowledgement from the terminal (id 0x0001). *)
Definition packet_0001 : PacketData :=
  {| Header := header 0x0001 Version2013 0 phone; Body := [] |}.

(** The device that scenario 1 registers, and the singletons right after:
    the device is cached, its timer is registered, no fix is stored. *)
Definition device : Device.t :=
  {| Device.ID := "DEV0001"; Device.PlateNumber := "A1234567";
     Device.PhoneNumber := phone; Device.SessionID := "s1";
     Device.TransProto := TCP; Device.Conn := 7;
     Device.Keepalive := protocol.time_Minute * 1;
     Device.Status := DeviceStatusOffline;
     Device.IMEI := ""; Device.SoftwareVersion := "" |}.

Definition registered : protocol.World :=
  {| protocol.devices := storage.CacheDevice 0 storage.emptyDeviceCache device;
     protocol.timer := {[ phone ]};
     protocol.gis := ∅;
     protocol.now := 0 |}.

(** Process data of the registration (0x0100), of an authentication
    (0x0102) carrying [code], and of a location report (0x0200) carrying
    the status-sign word [sign], as [Process] hands them to the handlers. *)
Definition register_data : ProcessData :=
  {| Incoming := OfMsg0100 reg2013;
     Outgoing := Some (OfMsg8100 Msg8100.zero) |}.

Definition auth_msg (code : string) : Msg0102.t :=
  {| Msg0102.Header := Some (header 0x0102 Version2013 0 phone);
     Msg0102.AuthCode := code; Msg0102.IMEI := ""; Msg0102.SoftwareVersion := "" |}.

Definition auth_data (code : string) : ProcessData :=
  {| Incoming := OfMsg0102 (auth_msg code);
     Outgoing := Some (OfMsg8001 Msg8001.zero) |}.

Definition auth_packet (code : string) : PacketData :=
  {| Header := header 0x0102 Version2013 0 phone; Body := list_byte_of_string code |}.

Definition location_data (sign : Z) : ProcessData :=
  {| Incoming := OfMsg0200 {| Msg0200.Header := Some (header 0x0200 Version2013 0 phone);
                              Msg0200.StatusSign := sign |};
     Outgoing := Some (OfMsg8001 Msg8001.zero) |}.

(** A heartbeat (0x0002) from a phone number that never registered. *)
Definition stranger_heartbeat : ProcessData :=
  {| Incoming := OfMsg0002 {| Msg0002.Header := Some (header 0x0002 Version2013 0 "013800138999") |};
     Outgoing := Some (OfMsg8001 Msg8001.zero) |}.

End Sample.

(** ** Vocabulary of the statements *)

(** A string without NUL bytes. *)
Fixpoint nul_free (s : string) : bool :=
  match s with
  | EmptyString => true
  | String c r => negb (is_nul c) && nul_free r
  end.

(** [k] NUL bytes. *)
Fixpoint nuls (k : nat) : string :=
  match k with
  | O => EmptyString
  | S k => String Ascii.zero (nuls k)
  end.

(** The widths of the manufacturer, model and device-id fields in each
    protocol revision, as [Encode] selects them. *)
Definition field_widths (v : VersionType) : Z * Z * Z :=
  match v with
  | Version2019 => (11, 30, 30)
  | Version2013 => (5, 20, 7)
  | Version2011 => (5, 8, 7)
  end.

Definition manu_width (v : VersionType) : Z := (field_widths v).1.1.
Definition mode_width (v : VersionType) : Z := (field_widths v).1.2.
Definition id_width (v : VersionType) : Z := (field_widths v).2.

(** A NUL-free string that fits a field of [width] bytes. *)
Definition fits (s : string) (width : Z) : Prop :=
  nul_free s = true /\ Z.of_nat (String.length s) <= width.

(** Agreement of two registration messages on the body fields. *)
Definition same_fields (a b : Msg0100.t) : Prop :=
  Msg0100.ProvinceID a = Msg0100.ProvinceID b /\
  Msg0100.CityID a = Msg0100.CityID b /\
  Msg0100.ManufacturerID a = Msg0100.ManufacturerID b /\
  Msg0100.DeviceMode a = Msg0100.DeviceMode b /\
  Msg0100.DeviceID a = Msg0100.DeviceID b /\
  Msg0100.PlateColor a = Msg0100.PlateColor b /\
  Msg0100.PlateNumber a = Msg0100.PlateNumber b.

(** The layout of a registration body written with the widths of
    revision [v]. *)
Definition encoded `{GBK} (x : Msg0100.t) (v : VersionType) : list byte :=
  let '(manuLen, modeLen, idLen) := field_widths v in
  hex.WriteWord [] (Msg0100.ProvinceID x) ++
  hex.WriteWord [] (Msg0100.CityID x) ++
  Msg0100.pad (list_byte_of_string (Msg0100.ManufacturerID x)) manuLen ++
  Msg0100.pad (list_byte_of_string (Msg0100.DeviceMode x)) modeLen ++
  Msg0100.pad (list_byte_of_string (Msg0100.DeviceID x)) idLen ++
  [Msg0100.PlateColor x] ++ gbk_encode (Msg0100.PlateNumber x).

(** The zero-valued inbound payload that the descriptor of [id] constructs. *)
Definition new_inbound `{protocol.Env} `{Methods} (id : Z) : option JT808Msg :=
  act ← protocol.initProcessOption !! id;
  gen ← protocol.genData act;
  Some (Incoming (gen tt)).

(** The message id of the dynamic type of an interface value. *)
Definition msg_id_of (m : JT808Msg) : Z :=
  match m with
  | OfMsg0001 _ => 0x0001
  | OfMsg0002 _ => 0x0002
  | OfMsg0003 _ => 0x0003
  | OfMsg0100 _ => 0x0100
  | OfMsg0102 _ => 0x0102
  | OfMsg0200 _ => 0x0200
  | OfMsg8001 _ => 0x8001
  | OfMsg8100 _ => 0x8100
  end.


(** Every device is stored under its own phone number. *)
Definition keyed_by_phone (w : protocol.World) : Prop :=
  forall (phone : string) (d : Device.t),
    storage.cacheByPhone (protocol.devices w) !! phone = Some d ->
    Device.PhoneNumber d = phone.

(** The singletons reachable from the empty ones by completed invocations
    of handlers of the dispatch table, on any context and process data,
    with any amount of time passing between two invocations. *)
Inductive reachable `{protocol.Env} `{Methods} : protocol.World -> Prop :=
| reachable_empty : reachable protocol.emptyWorld
| reachable_handler (w w' : protocol.World) (id : Z) (act : protocol.action)
    (f : protocol.handler) (ctx : protocol.Context) (data data' : ProcessData)
    (err : option error) :
    reachable w ->
    protocol.initProcessOption !! id = Some act ->
    protocol.process act = Some f ->
    f ctx data w = Done (err, data', w') ->
    reachable w'
| reachable_later (w : protocol.World) (t : Z) :
    reachable w ->
    protocol.now w <= t ->
    reachable (protocol.with_now w t).

(** The two properties together, on a registry and a timer. *)
Definition consistent (cache : storage.DeviceCache) (t : gset string) : Prop :=
  (forall phone : string, phone ∈ t <-> is_Some (storage.cacheByPhone cache !! phone)) /\
  (forall (phone : string) (d : Device.t),
     storage.cacheByPhone cache !! phone = Some d -> Device.PhoneNumber d = phone).

(** ** Vocabulary of the further properties *)

(** The bytes that [Decode] reads before the plate number, for the header
    versions it accepts: the two words, the three fixed fields in their
    shortest layout, and the plate color. *)
Definition min_body_length (v : VersionType) : option Z :=
  match v with
  | Version2019 => Some (4 + 11 + 30 + 30 + 1)
  | Version2013 => Some (4 + 5 + 8 + 7 + 1)
  | Version2011 => None
  end.

(** A string whose last byte, if any, is not NUL. *)
Definition no_trailing_nul (s : string) : Prop :=
  forall t : string, s <> t +:+ String Ascii.zero EmptyString.

(** Module Sample, continued: further packets for the examples. *)
Module Sample2.

(** The 2013 registration of scenario 1 as it arrives in a frame: the body
    is followed by the checksum byte. *)
Definition reg2013_frame : PacketData :=
  {| Header := Sample.header 0x0100 Version2013 45 Sample.phone;
     Body := Sample.body_of Sample.reg2013 ++ ["z"%byte] |}.

Definition reg2013_packet : PacketData :=
  {| Header := Sample.header 0x0100 Version2013 45 Sample.phone;
     Body := Sample.body_of Sample.reg2013 |}.

(** The registration of scenario 1 with a manufacturer id of 8 bytes, three
    more than the field holds. *)
Definition reg2013_long_manu : Msg0100.t :=
  {| Msg0100.Header := Some (Sample.header 0x0100 Version2013 48 Sample.phone);
     Msg0100.ProvinceID := 0x002C; Msg0100.CityID := 0x0101;
     Msg0100.ManufacturerID := "ABCDEFGH"; Msg0100.DeviceMode := "MODEL-2013-VER-A";
     Msg0100.DeviceID := "DEV0001"; Msg0100.PlateColor := x01;
     Msg0100.PlateNumber := "A1234567" |}.

(** A heartbeat (0x0002) and a register acknowledgement (0x8100) from a
    phone number that never registered. *)
Definition stranger_heartbeat_packet : PacketData :=
  {| Header := Sample.header 0x0002 Version2013 0 "013800138999"; Body := [] |}.

Definition stranger_ack_packet : PacketData :=
  {| Header := Sample.header 0x8100 Version2013 0 "013800138999"; Body := [] |}.

(** Two devices whose id and plate differ but concatenate alike. *)
Definition device_a : Device.t :=
  {| Device.ID := "DEV_0001"; Device.PlateNumber := "A1";
     Device.PhoneNumber := Sample.phone; Device.SessionID := "s1";
     Device.TransProto := TCP; Device.Conn := 7;
     Device.Keepalive := protocol.time_Minute * 1;
     Device.Status := DeviceStatusOffline;
     Device.IMEI := ""; Device.SoftwareVersion := "" |}.

Definition device_b : Device.t :=
  {| Device.ID := "DEV"; Device.PlateNumber := "0001_A1";
     Device.PhoneNumber := Sample.phone; Device.SessionID := "s2";
     Device.TransProto := UDP; Device.Conn := 8;
     Device.Keepalive := protocol.time_Minute * 1;
     Device.Status := DeviceStatusOnline;
     Device.IMEI := ""; Device.SoftwareVersion := "" |}.

End Sample2.

(** A registration message whose fixed fields fit the layout of revision
    [v]: province and city within their type uint16, and NUL-free strings
    within the field widths.  Nothing is asked of the plate. *)
Definition fixed_fields_fit (x : Msg0100.t) (v : VersionType) : Prop :=
  0 <= Msg0100.ProvinceID x < 65536 /\
  0 <= Msg0100.CityID x < 65536 /\
  fits (Msg0100.ManufacturerID x) (manu_width v) /\
  fits (Msg0100.DeviceMode x) (mode_width v) /\
  fits (Msg0100.DeviceID x) (id_width v).

(** The message id of the reply that the dispatch table pairs with an
    inbound message id, if any. *)
Definition reply_id (id : Z) : option Z :=
  if decide (id = 0x0002 \/ id = 0x0003 \/ id = 0x0102 \/ id = 0x0200) then Some 0x8001
  else if decide (id = 0x0100) then Some 0x8100
  else if decide (id = 0x8100) then Some 0x0102
  else None.

(** The zero-valued outbound payload that the descriptor of [id]
    constructs, if it constructs one. *)
Definition new_outbound `{protocol.Env} `{Methods} (id : Z) : option JT808Msg :=
  act ← protocol.initProcessOption !! id;
  gen ← protocol.genData act;
  Outgoing (gen tt).

(** The plate index is the plate-to-phone view of the devices. *)
Definition plate_index_matches (cache : storage.DeviceCache) : Prop :=
  forall plate phone : string,
    storage.cacheByPlate cache !! plate = Some phone <->
    exists d, storage.cacheByPhone cache !! phone = Some d /\ Device.PlateNumber d = plate.

(** A registry whose devices sit under their own phone numbers and whose
    plate index matches them. *)
Definition indexed (cache : storage.DeviceCache) : Prop :=
  (forall (phone : string) (d : Device.t),
     storage.cacheByPhone cache !! phone = Some d -> Device.PhoneNumber d = phone) /\
  plate_index_matches cache.

(** The fields that the register handler fixes and no handler changes. *)
Definition as_registered (d : Device.t) : Prop :=
  Device.Keepalive d = 60 * protocol.time_Second /\
  Device.IMEI d = "" /\ Device.SoftwareVersion d = "".

(** A registry that is indexed and holds devices as registered. *)
Definition registry_ok (cache : storage.DeviceCache) : Prop :=
  indexed cache /\
  forall (phone : string) (d : Device.t),
    storage.cacheByPhone cache !! phone = Some d -> as_registered d.

(** Only a stored phone number has a lifetime. *)
Definition lifetimes_of_stored (cache : storage.DeviceCache) : Prop :=
  forall phone : string,
    storage.cacheByPhone cache !! phone = None -> storage.expiry cache !! phone = None.

(** Scenario 1, thirty seconds after the registration. *)
Definition registered_30s_later : protocol.World :=
  protocol.with_now Sample.registered (30 * protocol.time_Second).

(** The registration of scenario 1 for another vehicle: same phone number,
    another plate. *)
Definition reg2013_other_plate : Msg0100.t :=
  Sample.registration Version2013 45 "MODEL-2013-VER-A" "B7654321".

(** * Proofs *)

(** ** Bytes, slices and NUL padding *)

Lemma Z_of_byte_range b : 0 <= Z_of_byte b < 256.
Proof.
  unfold Z_of_byte. pose proof (Byte.to_N_bounded b). lia.
Qed.

Lemma Z_of_byte_of_Z z : Z_of_byte (byte_of_Z z) = z mod 256.
Proof.
  unfold Z_of_byte, byte_of_Z.
  assert (Hr : 0 <= z mod 256 < 256) by (apply Z.mod_pos_bound; lia).
  destruct (Byte.of_N (Z.to_N (z mod 256))) as [b|] eqn:E.
  - apply Byte.to_of_N in E. rewrite E. lia.
  - exfalso. pose proof (Byte.to_of_N_option_map (Z.to_N (z mod 256))) as P.
    rewrite E in P. simpl in P.
    destruct (N.leb_spec (Z.to_N (z mod 256)) 255); [discriminate | lia].
Qed.

Lemma word_bytes w : 0 <= w < 65536 ->
  256 * Z_of_byte (byte_of_Z (w / 256)) + Z_of_byte (byte_of_Z w) = w.
Proof.
  intros Hw. rewrite !Z_of_byte_of_Z.
  rewrite (Z.mod_small (w / 256)).
  - symmetry. apply Z.div_mod. lia.
  - split; [apply Z.div_pos; lia | apply Z.div_lt_upper_bound; lia].
Qed.

Lemma slice_app (pre mid post : list byte) (lo hi : Z) :
  lo = Z.of_nat (length pre) ->
  hi = lo + Z.of_nat (length mid) ->
  slice (pre ++ mid ++ post) lo hi = Done mid.
Proof.
  intros -> ->. unfold slice.
  rewrite !length_app.
  replace ((0 <=? Z.of_nat (length pre)) &&
           (Z.of_nat (length pre) <=? Z.of_nat (length pre) + Z.of_nat (length mid)) &&
           (Z.of_nat (length pre) + Z.of_nat (length mid) <=?
              Z.of_nat (length pre + (length mid + length post)))) with true
    by (symmetry; rewrite !andb_true_iff, !Z.leb_le; lia).
  f_equal.
  replace (Z.to_nat (Z.of_nat (length pre) + Z.of_nat (length mid) - Z.of_nat (length pre)))
    with (length mid) by lia.
  rewrite Nat2Z.id, drop_app_length, take_app_length. reflexivity.
Qed.

Lemma string_of_list_byte_app l1 l2 :
  string_of_list_byte (l1 ++ l2) = (string_of_list_byte l1 +:+ string_of_list_byte l2)%string.
Proof.
  induction l1 as [|b l1 IH]; simpl; [reflexivity|].
  unfold string_of_list_byte in *. simpl. rewrite IH. reflexivity.
Qed.

Lemma string_of_replicate_nul k : string_of_list_byte (replicate k x00) = nuls k.
Proof.
  induction k as [|k IH]; simpl; [reflexivity|].
  unfold string_of_list_byte in *. simpl. rewrite IH. reflexivity.
Qed.

Lemma length_list_byte_of_string s : length (list_byte_of_string s) = String.length s.
Proof.
  unfold list_byte_of_string. rewrite length_map.
  induction s; simpl; congruence.
Qed.

Lemma TrimRight_nul_nuls k : TrimRight_nul (nuls k) = EmptyString.
Proof. induction k as [|k IH]; simpl; [reflexivity|]. rewrite IH. reflexivity. Qed.

Lemma TrimRight_nul_padded s k :
  nul_free s = true -> TrimRight_nul (s +:+ nuls k) = s.
Proof.
  induction s as [|c s IH]; simpl.
  - intros _. apply TrimRight_nul_nuls.
  - intros [Hc Hs]%andb_true_iff. rewrite (IH Hs).
    destruct s; [|reflexivity].
    destruct (is_nul c); [discriminate | reflexivity].
Qed.

Lemma append_empty_r (s : string) : (s +:+ "")%string = s.
Proof.
  induction s as [|c s IH]; [reflexivity|].
  change (String c (s +:+ "") = String c s). f_equal; exact IH.
Qed.

Lemma TrimRight_nul_id s : nul_free s = true -> TrimRight_nul s = s.
Proof.
  intros Hs. pose proof (TrimRight_nul_padded s 0 Hs) as P.
  cbn [nuls] in P. rewrite append_empty_r in P. exact P.
Qed.

Lemma length_pad bs width :
  Z.of_nat (length bs) <= width -> Z.of_nat (length (Msg0100.pad bs width)) = width.
Proof.
  intros Hle. unfold Msg0100.pad. rewrite length_app, length_replicate. lia.
Qed.

Lemma ReadWord_at body pre w post idx :
  body = pre ++ hex.WriteWord [] w ++ post ->
  idx = Z.of_nat (length pre) -> 0 <= w < 65536 ->
  hex.ReadWord body idx = Done (w, idx + 2).
Proof.
  intros -> Hidx Hw. unfold hex.ReadWord, hex.WriteWord.
  rewrite (slice_app pre _ post idx (idx + 2) Hidx) by reflexivity.
  cbn. rewrite word_bytes by exact Hw. reflexivity.
Qed.

Lemma ReadString_at body pre s width post idx :
  body = pre ++ Msg0100.pad (list_byte_of_string s) width ++ post ->
  idx = Z.of_nat (length pre) -> fits s width ->
  hex.ReadString body idx width = Done (s, idx + width).
Proof.
  intros -> Hidx [Hnul Hlen]. unfold hex.ReadString.
  rewrite (slice_app pre _ post idx (idx + width) Hidx).
  - cbn. unfold Msg0100.pad.
    rewrite string_of_list_byte_app, string_of_list_byte_of_string,
      string_of_replicate_nul, TrimRight_nul_padded by exact Hnul.
    reflexivity.
  - rewrite length_pad; [reflexivity|]. rewrite length_list_byte_of_string. exact Hlen.
Qed.

Lemma ReadByte_at body pre b post idx :
  body = pre ++ [b] ++ post ->
  idx = Z.of_nat (length pre) ->
  hex.ReadByte body idx = Done (b, idx + 1).
Proof.
  intros -> Hidx. unfold hex.ReadByte.
  rewrite (slice_app pre [b] post idx (idx + 1) Hidx) by reflexivity.
  reflexivity.
Qed.

Lemma ReadGBK_at `{GBK} body pre bs idx n :
  body = pre ++ bs ->
  idx = Z.of_nat (length pre) -> n = Z.of_nat (length bs) ->
  hex.ReadGBK body idx n = Done (gbk_decode bs, idx + n).
Proof.
  intros -> Hidx Hn. unfold hex.ReadGBK.
  rewrite <- (app_nil_r bs) at 1.
  rewrite (slice_app pre bs [] idx (idx + n) Hidx) by (rewrite Hn; reflexivity).
  reflexivity.
Qed.

Section roundtrip.
Context `{GBK}.

Lemma EncodeBody_encoded x h :
  Msg0100.Header x = Some h ->
  Msg0100.EncodeBody x = Done (Some (encoded x (VersionDesc (Attr h)))).
Proof.
  intros Hh. unfold Msg0100.EncodeBody, encoded. rewrite Hh.
  destruct (VersionDesc (Attr h)); cbn [field_widths];
    repeat (case_decide; try congruence);
    unfold hex.WriteByte, hex.WriteGBK, hex.WriteWord;
    rewrite <- ?app_assoc; reflexivity.
Qed.

Lemma length_encoded x v :
  let '(manuLen, modeLen, idLen) := field_widths v in
  fits (Msg0100.ManufacturerID x) manuLen ->
  fits (Msg0100.DeviceMode x) modeLen ->
  fits (Msg0100.DeviceID x) idLen ->
  Z.of_nat (length (encoded x v)) =
    4 + manuLen + modeLen + idLen + 1 + Z.of_nat (length (gbk_encode (Msg0100.PlateNumber x))).
Proof.
  unfold encoded. destruct (field_widths v) as [[manuLen modeLen] idLen].
  intros [_ H1] [_ H2] [_ H3].
  rewrite <- !length_list_byte_of_string in *.
  rewrite !length_app, !Nat2Z.inj_add, !length_pad by assumption.
  cbn. lia.
Qed.

(** Decoding an encoded body, once the widths chosen by [Decode] are those
    the body was written with. *)
Lemma Decode_encoded (x m0 : Msg0100.t) (h : MsgHeader) (v : VersionType) (p : VersionPtr) :
  let '(manuLen, modeLen, idLen) := field_widths v in
  0 <= Msg0100.ProvinceID x < 65536 ->
  0 <= Msg0100.CityID x < 65536 ->
  fits (Msg0100.ManufacturerID x) manuLen ->
  fits (Msg0100.DeviceMode x) modeLen ->
  fits (Msg0100.DeviceID x) idLen ->
  BodyLength (Attr h) = Z.of_nat (length (encoded x v)) ->
  Msg0100.widths h 4 = Some (manuLen, modeLen, idLen, p) ->
  Msg0100.Decode m0 {| Header := h; Body := encoded x v |} =
  Done ({| Msg0100.Header := Some h;
           Msg0100.ProvinceID := Msg0100.ProvinceID x;
           Msg0100.CityID := Msg0100.CityID x;
           Msg0100.ManufacturerID := Msg0100.ManufacturerID x;
           Msg0100.DeviceMode := Msg0100.DeviceMode x;
           Msg0100.DeviceID := Msg0100.DeviceID x;
           Msg0100.PlateColor := Msg0100.PlateColor x;
           Msg0100.PlateNumber := gbk_decode (gbk_encode (Msg0100.PlateNumber x)) |},
        {| Header := h; Body := encoded x v |}, None).
Proof.
  pose proof (length_encoded x v) as Hlen. unfold encoded in *.
  destruct (field_widths v) as [[manuLen modeLen] idLen].
  intros Hp Hc Hmanu Hmode Hid Hbody Hw.
  specialize (Hlen Hmanu Hmode Hid).
  pose proof Hmanu as [Hmanu0 Hmanu1]. pose proof Hmode as [Hmode0 Hmode1].
  pose proof Hid as [Hid0 Hid1].
  rewrite <- length_list_byte_of_string in Hmanu1, Hmode1, Hid1.
  unfold Msg0100.Decode. cbn [Header Body].
  set (W1 := hex.WriteWord [] (Msg0100.ProvinceID x)) in *.
  set (W2 := hex.WriteWord [] (Msg0100.CityID x)) in *.
  set (M := Msg0100.pad (list_byte_of_string (Msg0100.ManufacturerID x)) manuLen) in *.
  set (D := Msg0100.pad (list_byte_of_string (Msg0100.DeviceMode x)) modeLen) in *.
  set (I := Msg0100.pad (list_byte_of_string (Msg0100.DeviceID x)) idLen) in *.
  set (G := gbk_encode (Msg0100.PlateNumber x)) in *.
  set (c := Msg0100.PlateColor x) in *.
  assert (HM : Z.of_nat (length M) = manuLen) by (apply length_pad; exact Hmanu1).
  assert (HD : Z.of_nat (length D) = modeLen) by (apply length_pad; exact Hmode1).
  assert (HI : Z.of_nat (length I) = idLen) by (apply length_pad; exact Hid1).
  assert (HW1 : Z.of_nat (length W1) = 2) by reflexivity.
  assert (HW2 : Z.of_nat (length W2) = 2) by reflexivity.
  remember (W1 ++ W2 ++ M ++ D ++ I ++ [c] ++ G) as B eqn:HB.
  rewrite (ReadWord_at B [] (Msg0100.ProvinceID x) (W2 ++ M ++ D ++ I ++ [c] ++ G) 0)
    by (first [exact HB | reflexivity | exact Hp]).
  cbn [mbind Go_bind].
  rewrite (ReadWord_at B W1 (Msg0100.CityID x) (M ++ D ++ I ++ [c] ++ G) (0 + 2))
    by (first [exact HB | reflexivity | exact Hc]).
  cbn [mbind Go_bind]. change (0 + 2 + 2) with 4. rewrite Hw.
  rewrite (ReadString_at B (W1 ++ W2) (Msg0100.ManufacturerID x) manuLen (D ++ I ++ [c] ++ G) 4);
    [| rewrite HB, <- !app_assoc; reflexivity | reflexivity | exact Hmanu].
  cbn [mbind Go_bind].
  rewrite (ReadString_at B (W1 ++ W2 ++ M) (Msg0100.DeviceMode x) modeLen (I ++ [c] ++ G) (4 + manuLen));
    [| rewrite HB, <- !app_assoc; reflexivity
     | rewrite !length_app, !Nat2Z.inj_add; lia | exact Hmode].
  cbn [mbind Go_bind].
  rewrite (ReadString_at B (W1 ++ W2 ++ M ++ D) (Msg0100.DeviceID x) idLen ([c] ++ G) (4 + manuLen + modeLen));
    [| rewrite HB, <- !app_assoc; reflexivity
     | rewrite !length_app, !Nat2Z.inj_add; lia | exact Hid].
  cbn [mbind Go_bind].
  rewrite (ReadByte_at B (W1 ++ W2 ++ M ++ D ++ I) c G (4 + manuLen + modeLen + idLen));
    [| rewrite HB, <- !app_assoc; reflexivity
     | rewrite !length_app, !Nat2Z.inj_add; lia].
  cbn [mbind Go_bind].
  rewrite (ReadGBK_at B (W1 ++ W2 ++ M ++ D ++ I ++ [c]) G (4 + manuLen + modeLen + idLen + 1));
    [| rewrite HB, <- !app_assoc; reflexivity
     | rewrite !length_app, !Nat2Z.inj_add; cbn [length]; lia
     | rewrite Hbody, Hlen; lia].
  cbn [mbind Go_bind].
  rewrite !TrimRight_nul_id by assumption.
  reflexivity.
Qed.

End roundtrip.

(** ** Msg0100: what [Decode] does to the packet and which widths it picks *)

Section Msg0100_facts.
Context `{GBK}.

(** [Decode] hands the packet back as it received it: the header that
    [packet.Header] points to is never written. *)
Lemma Decode_leaves_packet (m m' : Msg0100.t) (pkt pkt' : PacketData) (e : option error) :
  Msg0100.Decode m pkt = Done (m', pkt', e) -> pkt' = pkt.
Proof.
  unfold Msg0100.Decode. intros Hd.
  repeat match type of Hd with
         | (?c ≫= _) = _ => destruct c as [[? ?]|]; cbn [mbind Go_bind] in Hd; try discriminate
         | match ?c with _ => _ end = _ => destruct c as [[[[? ?] ?] ?]|]
         end;
  congruence.
Qed.

(** For a 2013 header the model field is read with 20 bytes when more
    than 33 bytes remain, with 8 bytes otherwise; only the local pointer is
    redirected to a 2011 value. *)
Lemma widths_2013 (h : MsgHeader) (idx : Z) :
  VersionDesc (Attr h) = Version2013 ->
  Msg0100.widths h idx =
    if 33 <? BodyLength (Attr h) - idx
    then Some (5, 20, 7, AtHeaderVersionDesc)
    else Some (5, 8, 7, AtFresh Version2011).
Proof.
  intros Hv. unfold Msg0100.widths, load. rewrite Hv.
  repeat (case_decide; try congruence); reflexivity.
Qed.

Lemma widths_2019 (h : MsgHeader) (idx : Z) :
  VersionDesc (Attr h) = Version2019 ->
  Msg0100.widths h idx = Some (11, 30, 30, AtHeaderVersionDesc).
Proof.
  intros Hv. unfold Msg0100.widths, load. rewrite Hv.
  repeat (case_decide; try congruence); reflexivity.
Qed.

Lemma widths_2011 (h : MsgHeader) (idx : Z) :
  VersionDesc (Attr h) = Version2011 -> Msg0100.widths h idx = None.
Proof.
  intros Hv. unfold Msg0100.widths, load. rewrite Hv.
  repeat (case_decide; try congruence); reflexivity.
Qed.

End Msg0100_facts.

(** C2: on a 0x0100 packet whose header says 2013 and whose body leaves 29
    bytes after the province and city words, [Decode] reads the model field
    with 8 bytes and succeeds, but the packet's header still carries the
    2013 version descriptor afterwards: the assignment in the else branch
    redirects the local pointer [ver] and stores nothing into the header. *)
Theorem C2_Decode_short_2013_body_keeps_version_2013 :
  exists m' : Msg0100.t,
    @Msg0100.Decode Sample.gbk Msg0100.zero Sample.short_2013_packet
      = Done (m', Sample.short_2013_packet, None) /\
    Msg0100.DeviceMode m' = "MODEL-11" /\
    Msg0100.DeviceID m' = "DEV0001" /\
    Msg0100.widths (Header Sample.short_2013_packet) 4
      = Some (5, 8, 7, AtFresh Version2011) /\
    option_map (fun h => VersionDesc (Attr h)) (Msg0100.Header m') = Some Version2013 /\
    VersionDesc (Attr (Header Sample.short_2013_packet)) = Version2013.
Proof.
  eexists. split; [vm_compute; reflexivity|].
  repeat split; reflexivity.
Qed.

(** C5 as stated fails for a 2011 header: the message below meets every
    condition of the claim, its encoded body is 33 bytes as its header
    says, and [Decode] of that body returns [ErrDecodeMsg] with the
    manufacturer, model, device id and plate never read. *)
Lemma C5_counterexample_version_2011 :
  let x := Sample.reg2011 in
  let h := Sample.header 0x0100 Version2011 33 "013800138000" in
  let pkt := {| Header := h; Body := Sample.body_of x |} in
  Msg0100.Header x = Some h /\
  fits (Msg0100.ManufacturerID x) 5 /\
  fits (Msg0100.DeviceMode x) 8 /\
  fits (Msg0100.DeviceID x) 7 /\
  @Msg0100.EncodeBody Sample.gbk x = Done (Some (Sample.body_of x)) /\
  BodyLength (Attr h) = Z.of_nat (length (Sample.body_of x)) /\
  (exists m', @Msg0100.Decode Sample.gbk Msg0100.zero pkt
                = Done (m', pkt, Some (Lib ErrDecodeMsg))) /\
  ~ (exists m' pkt' e,
       @Msg0100.Decode Sample.gbk Msg0100.zero pkt = Done (m', pkt', e) /\
       same_fields m' x).
Proof.
  cbv zeta. repeat split; try (vm_compute; (reflexivity || discriminate)).
  - eexists. vm_compute. reflexivity.
  - intros (m' & pkt' & e & Hd & Hs).
    vm_compute in Hd. injection Hd as <- _ _.
    destruct Hs as (_ & _ & Hm & _). vm_compute in Hm. discriminate.
Qed.

(** C5, amended: a well-formed registration message whose header says
    2019, or says 2013 and whose plate has a non-empty GBK encoding that
    transcodes back to the plate, is recovered field by field by [Decode]
    from the body that [Encode] writes, whatever the receiver held before;
    with a 2011 header [Decode] returns [ErrDecodeMsg]. *)
Theorem C5_Decode_EncodeBody_roundtrip `{GBK}
    (x m0 : Msg0100.t) (h : MsgHeader) (body : list byte) :
  Msg0100.Header x = Some h ->
  0 <= Msg0100.ProvinceID x < 65536 ->
  0 <= Msg0100.CityID x < 65536 ->
  fits (Msg0100.ManufacturerID x) (manu_width (VersionDesc (Attr h))) ->
  fits (Msg0100.DeviceMode x) (mode_width (VersionDesc (Attr h))) ->
  fits (Msg0100.DeviceID x) (id_width (VersionDesc (Attr h))) ->
  gbk_decode (gbk_encode (Msg0100.PlateNumber x)) = Msg0100.PlateNumber x ->
  Msg0100.EncodeBody x = Done (Some body) ->
  BodyLength (Attr h) = Z.of_nat (length body) ->
  (VersionDesc (Attr h) = Version2019 \/
   (VersionDesc (Attr h) = Version2013 /\ gbk_encode (Msg0100.PlateNumber x) <> []) ->
   exists m',
     Msg0100.Decode m0 {| Header := h; Body := body |}
       = Done (m', {| Header := h; Body := body |}, None) /\
     same_fields m' x) /\
  (VersionDesc (Attr h) = Version2011 ->
   exists m',
     Msg0100.Decode m0 {| Header := h; Body := body |}
       = Done (m', {| Header := h; Body := body |}, Some (Lib ErrDecodeMsg))).
Proof.
  intros Hh Hp Hc Hmanu Hmode Hid Hgbk Henc Hlen.
  rewrite (EncodeBody_encoded x h Hh) in Henc. injection Henc as <-.
  pose proof (length_encoded x (VersionDesc (Attr h))) as Hsz.
  pose proof (Decode_encoded x m0 h (VersionDesc (Attr h))) as Hdec.
  unfold manu_width, mode_width, id_width in *.
  destruct (field_widths (VersionDesc (Attr h))) as [[manuLen modeLen] idLen] eqn:Hfw.
  cbn [fst snd] in *. specialize (Hsz Hmanu Hmode Hid).
  split.
  - intros Hver.
    assert (Hw : exists p, Msg0100.widths h 4 = Some (manuLen, modeLen, idLen, p)).
    { destruct Hver as [Hv | [Hv Hne]].
      - rewrite (widths_2019 h 4 Hv). rewrite Hv in Hfw. injection Hfw as <- <- <-. eauto.
      - rewrite (widths_2013 h 4 Hv). rewrite Hv in Hfw. injection Hfw as <- <- <-.
        assert (0 < length (gbk_encode (Msg0100.PlateNumber x)))%nat
          by (destruct (gbk_encode (Msg0100.PlateNumber x)); [congruence | cbn; lia]).
        replace (33 <? BodyLength (Attr h) - 4) with true
          by (symmetry; apply Z.ltb_lt; lia).
        eauto. }
    destruct Hw as [p Hw].
    eexists. split; [apply (Hdec p); assumption|].
    unfold same_fields. cbn. rewrite Hgbk. repeat split; reflexivity.
  - intros Hv. rewrite Hv in *. clear Hdec.
    unfold Msg0100.Decode. cbn [Header Body].
    unfold encoded. rewrite Hfw. cbv beta iota.
    set (W1 := hex.WriteWord [] (Msg0100.ProvinceID x)).
    set (W2 := hex.WriteWord [] (Msg0100.CityID x)).
    match goal with
    | |- context [W1 ++ W2 ++ ?rest] =>
        set (R := rest); remember (W1 ++ W2 ++ R) as B eqn:HB
    end.
    rewrite (ReadWord_at B [] (Msg0100.ProvinceID x) (W2 ++ R) 0)
      by (first [exact HB | reflexivity | exact Hp]).
    cbn [mbind Go_bind].
    rewrite (ReadWord_at B W1 (Msg0100.CityID x) R (0 + 2))
      by (first [exact HB | reflexivity | exact Hc]).
    cbn [mbind Go_bind].
    rewrite (widths_2011 h _ Hv). eauto.
Qed.

(** C5 at the 2013 registration of scenario 1. *)
Lemma C5_roundtrip_witness :
  exists m',
    @Msg0100.Decode Sample.gbk Msg0100.zero
       {| Header := Sample.header 0x0100 Version2013 45 "013800138000";
          Body := Sample.body_of Sample.reg2013 |}
      = Done (m', {| Header := Sample.header 0x0100 Version2013 45 "013800138000";
                     Body := Sample.body_of Sample.reg2013 |}, None) /\
    same_fields m' Sample.reg2013.
Proof.
  refine (proj1 (@C5_Decode_EncodeBody_roundtrip Sample.gbk Sample.reg2013 Msg0100.zero
            (Sample.header 0x0100 Version2013 45 "013800138000")
            (Sample.body_of Sample.reg2013) _ _ _ _ _ _ _ _ _) _).
  - reflexivity.
  - cbn. lia.
  - cbn. lia.
  - split; [reflexivity | vm_compute; discriminate].
  - split; [reflexivity | vm_compute; discriminate].
  - split; [reflexivity | vm_compute; discriminate].
  - reflexivity.
  - reflexivity.
  - reflexivity.
  - right. split; [reflexivity | vm_compute; discriminate].
Defined.

(** At the threshold itself: a 2013 registration with an empty plate leaves
    exactly 33 bytes after the province and city words, is read with the
    2011 widths, and the model comes back cut to its first 8 bytes. *)
Lemma Decode_2013_empty_plate_read_as_2011 :
  @Msg0100.EncodeBody Sample.gbk Sample.reg2013_no_plate
    = Done (Some (Sample.body_of Sample.reg2013_no_plate)) /\
  length (Sample.body_of Sample.reg2013_no_plate) = 37%nat /\
  exists m',
    @Msg0100.Decode Sample.gbk Msg0100.zero
       {| Header := Sample.header 0x0100 Version2013 37 "013800138000";
          Body := Sample.body_of Sample.reg2013_no_plate |}
      = Done (m', {| Header := Sample.header 0x0100 Version2013 37 "013800138000";
                     Body := Sample.body_of Sample.reg2013_no_plate |}, None) /\
    Msg0100.DeviceMode m' = "MODEL-20" /\
    Msg0100.DeviceMode Sample.reg2013_no_plate = "MODEL-2013-VER-A".
Proof.
  split; [reflexivity|]. split; [reflexivity|].
  eexists. split; [vm_compute; reflexivity|]. split; reflexivity.
Qed.

(** A 2011-layout body under a header whose version descriptor is 2013, as
    the header codec reports every pre-2019 frame: [Decode] recovers the
    fields as long as the GBK plate takes at most 12 bytes, so that no more
    than 33 bytes remain after the province and city words. *)
Lemma Decode_2011_body_under_2013_header `{GBK}
    (x m0 : Msg0100.t) (h : MsgHeader) :
  VersionDesc (Attr h) = Version2013 ->
  0 <= Msg0100.ProvinceID x < 65536 ->
  0 <= Msg0100.CityID x < 65536 ->
  fits (Msg0100.ManufacturerID x) 5 ->
  fits (Msg0100.DeviceMode x) 8 ->
  fits (Msg0100.DeviceID x) 7 ->
  gbk_decode (gbk_encode (Msg0100.PlateNumber x)) = Msg0100.PlateNumber x ->
  (length (gbk_encode (Msg0100.PlateNumber x)) <= 12)%nat ->
  BodyLength (Attr h) = Z.of_nat (length (encoded x Version2011)) ->
  exists m',
    Msg0100.Decode m0 {| Header := h; Body := encoded x Version2011 |}
      = Done (m', {| Header := h; Body := encoded x Version2011 |}, None) /\
    same_fields m' x.
Proof.
  intros Hv Hp Hc Hmanu Hmode Hid Hgbk Hshort Hlen.
  pose proof (length_encoded x Version2011 Hmanu Hmode Hid) as Hsz.
  pose proof (Decode_encoded x m0 h Version2011 (AtFresh Version2011)
                Hp Hc Hmanu Hmode Hid Hlen) as Hdec.
  eexists. split.
  - apply Hdec. rewrite (widths_2013 h 4 Hv).
    replace (33 <? BodyLength (Attr h) - 4) with false
      by (symmetry; apply Z.ltb_ge; lia).
    reflexivity.
  - unfold same_fields. cbn. rewrite Hgbk. repeat split; reflexivity.
Qed.

(** ** The dispatcher *)

Import protocol.

(** Look a present key up in the dispatch table. *)
Ltac table_lookup :=
  unfold initProcessOption; cbv zeta;
  rewrite ?lookup_insert_ne by discriminate; apply lookup_insert_eq.

Section dispatcher_facts.
Context `{Env} `{Methods} `{GBK}.

(** The keys of the dispatch table. *)
Lemma initProcessOption_lookup (id : Z) (act : action) :
  initProcessOption !! id = Some act ->
  id = 0x0001 \/ id = 0x0002 \/ id = 0x0003 \/ id = 0x0100 \/
  id = 0x0102 \/ id = 0x0200 \/ id = 0x8001 \/ id = 0x8100.
Proof.
  unfold initProcessOption. cbv zeta.
  repeat (rewrite lookup_insert; case_decide; [lia|]).
  rewrite lookup_empty. discriminate.
Qed.

(** Every descriptor has a constructor, so the guard on [genDataFn] never
    fires for an id that is in the table. *)
Lemma initProcessOption_genData (id : Z) (act : action) :
  initProcessOption !! id = Some act -> is_Some (genData act).
Proof.
  unfold initProcessOption. cbv zeta.
  repeat (rewrite lookup_insert; case_decide;
          [intros [= <-]; cbn; eauto|]).
  rewrite lookup_empty. discriminate.
Qed.

(** An id outside the table makes [Process] panic on the nil descriptor. *)
Lemma Process_absent_id_panics (options : gmap Z action) ctx pkt w :
  options !! MsgID (Header pkt) = None -> Process options ctx pkt w = Panic.
Proof. intros Hnone. unfold Process. rewrite Hnone. reflexivity. Qed.

(** Whatever error [Process] returns is a wrapped one: the sentinel
    [ErrMsgIDNotSupportted] itself is never returned. *)
Lemma Process_error_is_wrapped ctx pkt w d e w' :
  JT808MsgProcessor_Process ctx pkt w = Done (d, Some e, w') ->
  exists cause msg, e = Wrap cause msg.
Proof.
  unfold JT808MsgProcessor_Process, Process.
  destruct (initProcessOption !! MsgID (Header pkt)) as [act|] eqn:Hact;
    cbn [deref mbind Go_bind]; [|discriminate].
  destruct (initProcessOption_genData _ _ Hact) as [gen ->].
  destruct (Decode _ pkt) as [[[in_ pkt'] [e0|]]|]; cbn [mbind Go_bind];
    [intros [= <- <- <-]; eauto | | discriminate].
  destruct (log_incoming ctx in_) as [[e1|]|]; cbn [mbind Go_bind];
    [intros [= <- <- <-]; eauto | | discriminate].
  cbn [Outgoing with_Incoming].
  destruct (Outgoing (gen ())) as [out|]; [|discriminate].
  destruct (GenOutgoing out in_) as [[out' [e2|]]|]; cbn [mbind Go_bind];
    [intros [= <- <- <-]; eauto | | discriminate].
  destruct (process act) as [f|]; cbn [deref mbind Go_bind]; [|discriminate].
  destruct (f ctx _ w) as [[[[e3|] d3] w3]|]; cbn [mbind Go_bind]; [| |discriminate];
    destruct (log_outgoing ctx); cbn [mbind Go_bind]; try discriminate;
    intros [= <- <- <-]; eauto.
Qed.

End dispatcher_facts.

(** C1: for a packet whose message id is 0x0700 (no key of the dispatch
    table) [Process] does not return [ErrMsgIDNotSupportted]: the map
    lookup yields a nil descriptor pointer and selecting its [genData]
    field panics before the guard that would return the error. *)
Theorem C1_Process_unsupported_id_panics `{Env} `{Methods} `{GBK}
    (ctx : Context) (attr : MsgBodyAttr) (phone : string) (body : list byte) (w : World) :
  JT808MsgProcessor_Process ctx
    {| Header := {| MsgID := 0x0700; Attr := attr; PhoneNumber := phone |};
       Body := body |} w = Panic.
Proof.
  apply Process_absent_id_panics. cbn [Header MsgID].
  destruct (initProcessOption !! 1792) as [act|] eqn:Hact; [|reflexivity].
  apply initProcessOption_lookup in Hact. lia.
Qed.

(** ** Messages without a reply *)

Section no_reply.
Context `{Env} `{Methods} `{GBK}.

(** The descriptors of 0x0001 and 0x8001 construct no outbound payload. *)
Lemma no_reply_descriptor (id : Z) :
  id = 0x0001 \/ id = 0x8001 ->
  exists act gen,
    initProcessOption !! id = Some act /\ genData act = Some gen /\
    Outgoing (gen tt) = None.
Proof.
  intros [-> | ->]; eexists _, _; (split; [|split]);
    try (unfold initProcessOption; cbv zeta;
         rewrite ?lookup_insert_ne by discriminate; apply lookup_insert_eq);
    reflexivity.
Qed.

(** For these ids [Process] never hands process data back. *)
Lemma Process_no_reply_never_returns_data ctx pkt w d e w' :
  MsgID (Header pkt) = 0x0001 \/ MsgID (Header pkt) = 0x8001 ->
  JT808MsgProcessor_Process ctx pkt w = Done (d, e, w') -> d = None.
Proof.
  intros Hid. destruct (no_reply_descriptor _ Hid) as (act & gen & Hact & Hgen & Hout).
  unfold JT808MsgProcessor_Process, Process.
  rewrite Hact. cbn [deref mbind Go_bind]. rewrite Hgen.
  destruct (Decode _ pkt) as [[[in_ pkt'] [e0|]]|]; cbn [mbind Go_bind];
    [congruence | | discriminate].
  destruct (log_incoming ctx in_) as [[e1|]|]; cbn [mbind Go_bind];
    [congruence | | discriminate].
  cbn [Outgoing with_Incoming]. rewrite Hout. congruence.
Qed.

End no_reply.

(** C4 as stated fails: on a generic acknowledgement (id 0x0001) that
    decodes without error, [Process] returns a nil process data with the
    nil error, not the process data. *)
Lemma C4_counterexample_0x0001_returns_nil_data :
  Sample.Process (Some Sample.session) Sample.packet_0001 emptyWorld
    = Done (None, None, emptyWorld) /\
  ~ (exists data w',
       Sample.Process (Some Sample.session) Sample.packet_0001 emptyWorld
         = Done (Some data, None, w')).
Proof.
  assert (Hrun : Sample.Process (Some Sample.session) Sample.packet_0001 emptyWorld
                 = Done (None, None, emptyWorld)) by (vm_compute; reflexivity).
  split; [exact Hrun|].
  intros (data & w' & Hd). rewrite Hrun in Hd. discriminate.
Qed.

(** C4, amended: for a packet with id 0x0001 or 0x8001 whose inbound
    payload decodes without error (and, at debug level, whose context holds
    a session and whose payload serialises), [Process] returns a nil
    process data together with a nil error, and the registry, the timer
    and the GIS rings are as before. *)
Theorem C4_Process_no_reply_returns_nil `{Env} `{Methods} `{GBK}
    (ctx : Context) (pkt pkt' : PacketData) (w : World) (m0 m : JT808Msg) :
  MsgID (Header pkt) = 0x0001 \/ MsgID (Header pkt) = 0x8001 ->
  new_inbound (MsgID (Header pkt)) = Some m0 ->
  Decode m0 pkt = Done (m, pkt', None) ->
  log_incoming ctx m = Done None ->
  JT808MsgProcessor_Process ctx pkt w = Done (None, None, w).
Proof.
  intros Hid Hnew Hdec Hlog.
  destruct (no_reply_descriptor _ Hid) as (act & gen & Hact & Hgen & Hout).
  unfold new_inbound in Hnew. rewrite Hact in Hnew. cbn in Hnew.
  rewrite Hgen in Hnew. cbn in Hnew. injection Hnew as <-.
  unfold JT808MsgProcessor_Process, Process.
  rewrite Hact. cbn [deref mbind Go_bind]. rewrite Hgen, Hdec.
  cbn [mbind Go_bind]. rewrite Hlog. cbn [mbind Go_bind Outgoing with_Incoming].
  rewrite Hout. reflexivity.
Qed.

(** C4 at the generic acknowledgement of the sample environment. *)
Lemma C4_no_reply_witness :
  Sample.Process (Some Sample.session) Sample.packet_0001 emptyWorld
    = Done (None, None, emptyWorld).
Proof.
  refine (@C4_Process_no_reply_returns_nil Sample.env Sample.methods Sample.gbk
            (Some Sample.session) Sample.packet_0001 Sample.packet_0001 emptyWorld
            (OfMsg0001 Msg0001.zero)
            (OfMsg0001 {| Msg0001.Header := Some (Header Sample.packet_0001) |})
            _ _ _ _).
  - left. reflexivity.
  - vm_compute. reflexivity.
  - reflexivity.
  - reflexivity.
Defined.

(** ** The registry *)

Lemma GetDeviceByPhone_Some (cache : storage.DeviceCache) (phone : string) (d : Device.t) :
  storage.cacheByPhone cache !! phone = Some d ->
  storage.GetDeviceByPhone cache phone = (Some d, None).
Proof. intros Hd. unfold storage.GetDeviceByPhone. rewrite Hd. reflexivity. Qed.

Lemma GetDeviceByPhone_None (cache : storage.DeviceCache) (phone : string) :
  storage.cacheByPhone cache !! phone = None ->
  storage.GetDeviceByPhone cache phone = (None, Some (Lib ErrDeviceNotFound)).
Proof. intros Hd. unfold storage.GetDeviceByPhone. rewrite Hd. reflexivity. Qed.


Lemma HasPhone_false (cache : storage.DeviceCache) (phone : string) :
  storage.HasPhone cache phone = false <-> storage.cacheByPhone cache !! phone = None.
Proof.
  unfold storage.HasPhone. rewrite bool_decide_eq_false, <- eq_None_not_Some. reflexivity.
Qed.

Lemma HasPlate_true (cache : storage.DeviceCache) (plate : string) :
  storage.HasPlate cache plate = true <-> is_Some (storage.cacheByPlate cache !! plate).
Proof. unfold storage.HasPlate. apply bool_decide_eq_true. Qed.

Lemma Is_DeviceNotFound_wrapped (msg : string) :
  errors_Is (Wrap (Lib ErrDeviceNotFound) msg) (Lib ErrDeviceNotFound) = true.
Proof. cbn. repeat case_decide; congruence. Qed.

(** ** The handlers of the dispatch table *)

Section table_handlers.
Context `{Env} `{Methods}.

(** The handler that the dispatch table holds for a message id. *)
Lemma initProcessOption_process (id : Z) (act : action) (f : handler) :
  initProcessOption !! id = Some act -> process act = Some f ->
  (id = 0x0002 /\ f = processMsg0002) \/ (id = 0x0003 /\ f = processMsg0003) \/
  (id = 0x0100 /\ f = processMsg0100) \/ (id = 0x0102 /\ f = processMsg0102) \/
  (id = 0x0200 /\ f = handleMsg0200) \/ (id = 0x8100 /\ f = processMsg8100).
Proof.
  unfold initProcessOption. cbv zeta.
  repeat (rewrite lookup_insert; case_decide;
          [intros [= <-]; cbn; intros [= <-]; subst id; tauto|]).
  rewrite lookup_empty. discriminate.
Qed.

End table_handlers.

(** C9: a heartbeat, logout, authentication or location report whose
    header phone number has no device in the registry makes its handler
    return an error that wraps [ErrDeviceNotFound]; the process data, the
    registry, the timer and the GIS rings come back unchanged. *)
Theorem C9_missing_device_returns_DeviceNotFound `{Env} `{Methods}
    (ctx : Context) (data : ProcessData) (h : MsgHeader) (w : World)
    (id : Z) (act : action) (f : handler) :
  id = 0x0002 \/ id = 0x0003 \/ id = 0x0102 \/ id = 0x0200 ->
  initProcessOption !! id = Some act ->
  process act = Some f ->
  msg_id_of (Incoming data) = id ->
  GetHeader (Incoming data) = Some h ->
  storage.cacheByPhone (devices w) !! PhoneNumber h = None ->
  exists e : error,
    f ctx data w = Done (Some e, data, w) /\
    errors_Is e (Lib ErrDeviceNotFound) = true.
Proof.
  intros Hid Hact Hproc Hkind Hh Hnone.
  exists (Wrap (Lib ErrDeviceNotFound) (not_found_msg (PhoneNumber h))).
  split; [|apply Is_DeviceNotFound_wrapped].
  destruct (initProcessOption_process _ _ _ Hact Hproc)
    as [[-> ->]|[[-> ->]|[[-> ->]|[[-> ->]|[[-> ->]|[-> ->]]]]]];
    try lia; destruct data as [inc out]; cbn [Incoming] in *;
    destruct inc; try discriminate Hkind; cbn [GetHeader] in Hh.
  - unfold processMsg0002. cbn [Incoming GetHeader]. rewrite Hh.
    cbn [deref mbind Go_bind]. rewrite (GetDeviceByPhone_None _ _ Hnone).
    unfold Is. cbn [errors_Is]. case_decide; [reflexivity | congruence].
  - unfold processMsg0003. cbn [Incoming GetHeader]. rewrite Hh.
    cbn [deref mbind Go_bind]. rewrite (GetDeviceByPhone_None _ _ Hnone).
    unfold Is. cbn [errors_Is]. case_decide; [reflexivity | congruence].
  - unfold processMsg0102. cbn [Incoming]. rewrite Hh.
    cbn [deref mbind Go_bind]. rewrite (GetDeviceByPhone_None _ _ Hnone).
    unfold Is. cbn [errors_Is]. case_decide; [reflexivity | congruence].
  - unfold handleMsg0200. cbn [Incoming]. rewrite Hh.
    cbn [deref mbind Go_bind]. rewrite (GetDeviceByPhone_None _ _ Hnone).
    unfold Is. cbn [errors_Is]. case_decide; [reflexivity | congruence].
Qed.

(** C9 at a heartbeat from a phone number that never registered. *)
Lemma C9_missing_device_witness :
  exists e : error,
    @processMsg0002 (Some Sample.session) Sample.stranger_heartbeat Sample.registered
      = Done (Some e, Sample.stranger_heartbeat, Sample.registered) /\
    errors_Is e (Lib ErrDeviceNotFound) = true.
Proof.
  refine (@C9_missing_device_returns_DeviceNotFound Sample.env Sample.methods
            (Some Sample.session) Sample.stranger_heartbeat
            (Sample.header 0x0002 Version2013 0 "013800138999") Sample.registered
            0x0002 _ processMsg0002 _ _ _ _ _ _).
  - left. reflexivity.
  - reflexivity.
  - reflexivity.
  - reflexivity.
  - reflexivity.
  - vm_compute. reflexivity.
Defined.

(** ** Registration (0x0100) *)

(** C6: the register handler checks the plate index first, then the phone
    index.  A registered plate gives [ResCarAlreadyRegister] (also when the
    phone is registered too), otherwise a registered phone gives
    [ResDeviceAlreadyRegister], both without touching the singletons;
    otherwise the handler builds an offline device with a keep-alive of 60
    seconds and the session's transport and connection, puts its auth code
    into the reply, caches the device and registers the timer for its
    phone number.  The reply is written out field by field: a rejection
    sets its result and keeps its auth code, a registration sets its auth
    code and keeps its result. *)
Theorem C6_processMsg0100_registration `{Env}
    (session : Session.t) (in_ : Msg0100.t) (out : Msg8100.t) (h : MsgHeader) (w : World) :
  Msg0100.Header in_ = Some h ->
  let data := {| Incoming := OfMsg0100 in_; Outgoing := Some (OfMsg8100 out) |} in
  let plate := Msg0100.PlateNumber in_ in
  let phone := PhoneNumber h in
  let device :=
    {| Device.ID := Msg0100.DeviceID in_; Device.PlateNumber := plate;
       Device.PhoneNumber := phone; Device.SessionID := Session.ID session;
       Device.TransProto := Session.TransProto session;
       Device.Conn := Session.Conn session;
       Device.Keepalive := 60 * time_Second;
       Device.Status := DeviceStatusOffline;
       Device.IMEI := ""; Device.SoftwareVersion := "" |} in
  let reply (result : Z) (code : string) : ProcessData :=
    {| Incoming := OfMsg0100 in_;
       Outgoing := Some (OfMsg8100 {| Msg8100.Header := Msg8100.Header out;
                                      Msg8100.Result := result;
                                      Msg8100.AuthCode := code |}) |} in
  (storage.HasPlate (devices w) plate = true ->
   processMsg0100 (Some session) data w
     = Done (None, reply ResCarAlreadyRegister (Msg8100.AuthCode out), w)) /\
  (storage.HasPlate (devices w) plate = false ->
   storage.HasPhone (devices w) phone = true ->
   processMsg0100 (Some session) data w
     = Done (None, reply ResDeviceAlreadyRegister (Msg8100.AuthCode out), w)) /\
  (storage.HasPlate (devices w) plate = false ->
   storage.HasPhone (devices w) phone = false ->
   exists w' : World,
     processMsg0100 (Some session) data w
       = Done (None, reply (Msg8100.Result out) (genAuthCode device), w') /\
     storage.GetDeviceByPhone (devices w') phone = (Some device, None) /\
     storage.HasPlate (devices w') plate = true /\
     phone ∈ timer w' /\
     (forall q : string, q <> phone ->
        (q ∈ timer w' <-> q ∈ timer w) /\
        storage.cacheByPhone (devices w') !! q = storage.cacheByPhone (devices w) !! q) /\
     gis w' = gis w).
Proof.
  intros Hh data plate phone device reply. unfold processMsg0100.
  cbn [Incoming Outgoing data]. fold plate. split; [|split].
  - intros ->. reflexivity.
  - intros -> Hphone. rewrite Hh. cbn [deref mbind Go_bind].
    fold phone. rewrite Hphone. reflexivity.
  - intros -> Hphone. rewrite Hh. cbn [deref mbind Go_bind].
    fold phone. rewrite Hphone. cbn [deref mbind Go_bind].
    change (time_Minute * 1) with (60 * time_Second). fold device.
    eexists. split; [reflexivity|].
    cbn [devices timer gis with_devices with_timer Device.PhoneNumber Device.PlateNumber device].
    split; [|split; [|split; [|split]]].
    + apply GetDeviceByPhone_Some. cbn. apply lookup_insert_eq.
    + apply HasPlate_true. cbn. rewrite lookup_insert_eq. eauto.
    + unfold KeepaliveTimer.Register. apply elem_of_union_l, elem_of_singleton. reflexivity.
    + intros q Hq. split.
      * unfold KeepaliveTimer.Register. rewrite elem_of_union, elem_of_singleton. tauto.
      * cbn. apply lookup_insert_ne. congruence.
    + reflexivity.
Qed.

(** C6 at the registration of scenario 1: on the empty registry it
    registers the device and the reply carries the auth code; repeated
    after that it is refused with result 2, the plate being registered;
    from the same phone number with another plate it is refused with
    result 3.  Both refusals leave the singletons alone. *)
Lemma C6_registration_witness :
  (exists w' : World,
     @processMsg0100 Sample.env (Some Sample.session) Sample.register_data emptyWorld
       = Done (None,
               {| Incoming := OfMsg0100 Sample.reg2013;
                  Outgoing := Some (OfMsg8100 {| Msg8100.Header := None; Msg8100.Result := 0;
                                                 Msg8100.AuthCode := "2911391442" |}) |},
               w') /\
     storage.GetDeviceByPhone (devices w') Sample.phone = (Some Sample.device, None) /\
     Sample.phone ∈ timer w') /\
  @processMsg0100 Sample.env (Some Sample.session) Sample.register_data Sample.registered
    = Done (None,
            {| Incoming := OfMsg0100 Sample.reg2013;
               Outgoing := Some (OfMsg8100 {| Msg8100.Header := None; Msg8100.Result := 2;
                                              Msg8100.AuthCode := "" |}) |},
            Sample.registered) /\
  @processMsg0100 Sample.env (Some Sample.session)
    {| Incoming := OfMsg0100 reg2013_other_plate;
       Outgoing := Some (OfMsg8100 Msg8100.zero) |} Sample.registered
    = Done (None,
            {| Incoming := OfMsg0100 reg2013_other_plate;
               Outgoing := Some (OfMsg8100 {| Msg8100.Header := None; Msg8100.Result := 3;
                                              Msg8100.AuthCode := "" |}) |},
            Sample.registered).
Proof.
  split; [|split].
  - destruct (@C6_processMsg0100_registration Sample.env
                Sample.session Sample.reg2013 Msg8100.zero
                (Sample.header 0x0100 Version2013 45 Sample.phone) emptyWorld eq_refl)
      as (_ & _ & Hnew).
    destruct (Hnew eq_refl eq_refl) as (w' & Hrun & Hget & _ & Htimer & _).
    exists w'. split; [exact Hrun | split; [exact Hget | exact Htimer]].
  - destruct (@C6_processMsg0100_registration Sample.env
                Sample.session Sample.reg2013 Msg8100.zero
                (Sample.header 0x0100 Version2013 45 Sample.phone) Sample.registered eq_refl)
      as (Hplate & _ & _).
    apply Hplate. vm_compute. reflexivity.
  - destruct (@C6_processMsg0100_registration Sample.env
                Sample.session reg2013_other_plate Msg8100.zero
                (Sample.header 0x0100 Version2013 45 Sample.phone) Sample.registered eq_refl)
      as (_ & Hphone & _).
    apply Hphone; vm_compute; reflexivity.
Defined.

(** ** Authentication (0x0102) *)

Section authentication.
Context `{Env}.

(** What [processMsg0102] does once the device of the header's phone
    number is found. *)
Lemma processMsg0102_found (ctx : Context) (in_ : Msg0102.t) (out : Msg8001.t)
    (h : MsgHeader) (d : Device.t) (w : World) :
  Msg0102.Header in_ = Some h ->
  storage.cacheByPhone (devices w) !! PhoneNumber h = Some d ->
  let data := {| Incoming := OfMsg0102 in_; Outgoing := Some (OfMsg8001 out) |} in
  processMsg0102 ctx data w =
    if decide (Msg0102.AuthCode in_ ≠ genAuthCode d) then
      Done (None, with_Outgoing data (OfMsg8001 (Msg8001.with_Result out ResultFail)),
            {| devices := storage.DelDeviceByPhone (devices w) (Device.PhoneNumber d);
               timer := KeepaliveTimer.Cancel (timer w) (Device.PhoneNumber d);
               gis := gis w; now := now w |})
    else
      Done (None, data,
            {| devices := storage.CacheDevice (now w) (devices w)
                            (Device.with_Status d DeviceStatusOnline);
               timer := timer w; gis := gis w; now := now w |}).
Proof.
  intros Hh Hd data. unfold processMsg0102. cbn [Incoming Outgoing data].
  rewrite Hh. cbn [deref mbind Go_bind]. rewrite (GetDeviceByPhone_Some _ _ _ Hd).
  cbn [Is deref mbind Go_bind]. case_decide; reflexivity.
Qed.

End authentication.



(** ** Errors of the handlers *)

Section handler_errors.
Context `{Env} `{Methods}.

Lemma Lib_is_not_ErrNotAuthorized (e : lib_error) (msg : string) :
  errors_Is (Wrap (Lib e) msg) ErrNotAuthorized = false.
Proof. cbn. repeat case_decide; congruence. Qed.

(** The error of a handler that looks the device up first: nil, or the
    wrapped [ErrDeviceNotFound]. *)
Lemma lookup_first_error (phone : string) (cache : storage.DeviceCache) (e : error) :
  Wrapf (storage.GetDeviceByPhone cache phone).2 (not_found_msg phone) = Some e ->
  errors_Is e ErrNotAuthorized = false.
Proof.
  unfold storage.GetDeviceByPhone.
  destruct (storage.cacheByPhone cache !! phone); cbn; [discriminate|].
  intros [= <-]. apply Lib_is_not_ErrNotAuthorized.
Qed.

(** No handler of the dispatch table returns [ErrNotAuthorized], bare or
    wrapped. *)
Lemma handlers_never_return_ErrNotAuthorized (id : Z) (act : action) (f : handler)
    (ctx : Context) (data data' : ProcessData) (w w' : World) (e : error) :
  initProcessOption !! id = Some act ->
  process act = Some f ->
  f ctx data w = Done (Some e, data', w') ->
  errors_Is e ErrNotAuthorized = false.
Proof.
  intros Hact Hproc.
  destruct (initProcessOption_process _ _ _ Hact Hproc)
    as [[-> ->]|[[-> ->]|[[-> ->]|[[-> ->]|[[-> ->]|[-> ->]]]]]].
  - unfold processMsg0002.
    destruct (GetHeader (Incoming data)) as [h|]; cbn [deref mbind Go_bind]; [|discriminate].
    pose proof (lookup_first_error (PhoneNumber h) (devices w) e) as Herr.
    destruct (storage.GetDeviceByPhone (devices w) (PhoneNumber h)) as [dev err].
    destruct (Is err (Lib ErrDeviceNotFound)); [intros [= He _ _]; auto|].
    destruct dev; cbn [deref mbind Go_bind]; discriminate.
  - unfold processMsg0003.
    destruct (GetHeader (Incoming data)) as [h|]; cbn [deref mbind Go_bind]; [|discriminate].
    pose proof (lookup_first_error (PhoneNumber h) (devices w) e) as Herr.
    destruct (storage.GetDeviceByPhone (devices w) (PhoneNumber h)) as [dev err].
    destruct (Is err (Lib ErrDeviceNotFound)); [intros [= He _ _]; auto|].
    destruct dev; cbn [deref mbind Go_bind]; discriminate.
  - unfold processMsg0100.
    destruct (Incoming data); try discriminate.
    destruct (Outgoing data) as [[]|]; try discriminate.
    destruct (storage.HasPlate _ _); [discriminate|].
    destruct (Msg0100.Header m) as [h|]; cbn [deref mbind Go_bind]; [|discriminate].
    destruct (storage.HasPhone _ _); [discriminate|].
    destruct ctx; cbn [deref mbind Go_bind]; discriminate.
  - unfold processMsg0102.
    destruct (Incoming data); try discriminate.
    destruct (Msg0102.Header m) as [h|]; cbn [deref mbind Go_bind]; [|discriminate].
    pose proof (lookup_first_error (PhoneNumber h) (devices w) e) as Herr.
    destruct (storage.GetDeviceByPhone (devices w) (PhoneNumber h)) as [dev err].
    destruct (Is err (Lib ErrDeviceNotFound)); [intros [= He _ _]; auto|].
    destruct (Outgoing data) as [[]|]; try discriminate.
    destruct dev; cbn [deref mbind Go_bind]; [|discriminate].
    case_decide; discriminate.
  - unfold handleMsg0200.
    destruct (Incoming data); try discriminate.
    destruct (Msg0200.Header m) as [h|]; cbn [deref mbind Go_bind]; [|discriminate].
    pose proof (lookup_first_error (PhoneNumber h) (devices w) e) as Herr.
    destruct (storage.GetDeviceByPhone (devices w) (PhoneNumber h)) as [dev err].
    destruct (Is err (Lib ErrDeviceNotFound)); [intros [= He _ _]; auto|].
    destruct dev; cbn [deref mbind Go_bind]; [|discriminate].
    destruct (GISMeta.ACCStatus _ =? 0); discriminate.
  - unfold processMsg8100.
    destruct (Incoming data); try discriminate.
    destruct (Outgoing data) as [[]|]; try discriminate.
    destruct (Msg8100.Header m) as [h|]; cbn [deref mbind Go_bind]; [|discriminate].
    destruct (storage.GetDeviceByPhone (devices w) (PhoneNumber h)) as [dev err].
    destruct (Is err (Lib ErrDeviceNotFound)); [intros [= <- _ _]; reflexivity|].
    destruct dev; cbn [deref mbind Go_bind]; [|discriminate].
    unfold GenOutgoing, via.
    destruct (GenOutgoing0102 _ _) as [[out' [e'|]]|]; cbn [mbind Go_bind option_map];
      [|discriminate..].
    intros [= <- _ _]. apply Lib_is_not_ErrNotAuthorized.
Qed.

(** When the debug logging of the inbound payload went through, so does
    the deferred logging of the outbound one. *)
Lemma log_outgoing_after_incoming (ctx : Context) (m : JT808Msg) (r : option lib_error) :
  log_incoming ctx m = Done r -> log_outgoing ctx = Done tt.
Proof.
  unfold log_incoming, log_outgoing.
  destruct DebugLevel; [|reflexivity].
  destruct ctx; cbn [deref mbind Go_bind]; [reflexivity | discriminate].
Qed.

End handler_errors.

(** C10: when a 0x0102 packet decodes, its reply is generated and its
    device is in the registry, the handler returns the nil error whether
    or not the auth code matches, and so [Process] returns the process
    data with the nil error in both cases; a mismatch shows only as
    [ResultFail] in the reply.  No handler of the dispatch table ever
    returns [ErrNotAuthorized]. *)
Theorem C10_auth_mismatch_returns_nil_error `{Env} `{Methods} `{GBK}
    (ctx : Context) (pkt : PacketData) (w : World)
    (in_ : Msg0102.t) (out : Msg8001.t) (h : MsgHeader) (d : Device.t) :
  MsgID (Header pkt) = 0x0102 ->
  Decode0102 Msg0102.zero pkt = Done (in_, None) ->
  log_incoming ctx (OfMsg0102 in_) = Done None ->
  GenOutgoing8001 Msg8001.zero (OfMsg0102 in_) = Done (out, None) ->
  Msg0102.Header in_ = Some h ->
  storage.cacheByPhone (devices w) !! PhoneNumber h = Some d ->
  (exists (data' : ProcessData) (w' : World),
     processMsg0102 ctx {| Incoming := OfMsg0102 in_; Outgoing := Some (OfMsg8001 out) |} w
       = Done (None, data', w') /\
     JT808MsgProcessor_Process ctx pkt w = Done (Some data', None, w') /\
     (Msg0102.AuthCode in_ <> genAuthCode d ->
      Outgoing data' = Some (OfMsg8001 (Msg8001.with_Result out ResultFail))) /\
     (Msg0102.AuthCode in_ = genAuthCode d ->
      Outgoing data' = Some (OfMsg8001 out))) /\
  (forall (id : Z) (act : action) (f : handler) (ctx0 : Context)
          (data0 data1 : ProcessData) (w0 w1 : World) (e : error),
     initProcessOption !! id = Some act ->
     process act = Some f ->
     f ctx0 data0 w0 = Done (Some e, data1, w1) ->
     errors_Is e ErrNotAuthorized = false).
Proof.
  intros Hid Hdec Hlog Hgen Hh Hd.
  split; [|intros; eapply handlers_never_return_ErrNotAuthorized; eassumption].
  pose proof (processMsg0102_found ctx in_ out h d w Hh Hd) as Hrun. cbv zeta in Hrun.
  assert (Hproc : forall data' w',
            processMsg0102 ctx {| Incoming := OfMsg0102 in_; Outgoing := Some (OfMsg8001 out) |} w
              = Done (None, data', w') ->
            JT808MsgProcessor_Process ctx pkt w = Done (Some data', None, w')).
  { intros data' w' Hhandler.
    unfold JT808MsgProcessor_Process, Process. rewrite Hid.
    assert (Hact : initProcessOption !! 258 =
              Some {| genData := Some (fun _ => {| Incoming := OfMsg0102 Msg0102.zero;
                                                   Outgoing := Some (OfMsg8001 Msg8001.zero) |});
                      process := Some processMsg0102 |}).
    { unfold initProcessOption. cbv zeta.
      rewrite !lookup_insert_ne by discriminate. apply lookup_insert_eq. }
    rewrite Hact. cbn [deref mbind Go_bind genData process Incoming Outgoing].
    unfold Decode, via. rewrite Hdec. cbn [mbind Go_bind option_map with_Incoming Outgoing].
    rewrite Hlog. cbn [mbind Go_bind].
    unfold GenOutgoing, via. rewrite Hgen.
    cbn [mbind Go_bind option_map with_Outgoing Incoming deref].
    unfold with_Outgoing, with_Incoming. cbn [Incoming Outgoing].
    rewrite Hhandler. cbn [mbind Go_bind].
    rewrite (log_outgoing_after_incoming _ _ _ Hlog). reflexivity. }
  destruct (decide (Msg0102.AuthCode in_ ≠ genAuthCode d)) as [Hne|Heq].
  - eexists _, _. split; [exact Hrun|]. split; [apply Hproc; exact Hrun|].
    split; [reflexivity | congruence].
  - eexists _, _. split; [exact Hrun|]. split; [apply Hproc; exact Hrun|].
    split; [intros Hne; contradiction | reflexivity].
Qed.

(** C10 at scenario 3: the refused authentication comes back from
    [Process] with the nil error and result 1 in the reply. *)
Lemma C10_auth_mismatch_witness :
  exists (data' : ProcessData) (w' : World),
    Sample.Process (Some Sample.session) (Sample.auth_packet "0") Sample.registered
      = Done (Some data', None, w') /\
    Outgoing data'
      = Some (OfMsg8001 {| Msg8001.Header := Some (Sample.header 0x0102 Version2013 0 Sample.phone);
                           Msg8001.Result := 1 |}).
Proof.
  destruct (@C10_auth_mismatch_returns_nil_error Sample.env Sample.methods Sample.gbk
              (Some Sample.session) (Sample.auth_packet "0") Sample.registered
              (Sample.auth_msg "0")
              {| Msg8001.Header := Some (Sample.header 0x0102 Version2013 0 Sample.phone);
                 Msg8001.Result := 0 |}
              (Sample.header 0x0102 Version2013 0 Sample.phone) Sample.device
              eq_refl eq_refl eq_refl eq_refl eq_refl)
    as [(data' & w' & _ & Hrun & Hfail & _) _].
  - vm_compute. reflexivity.
  - exists data', w'. split; [exact Hrun|].
    apply Hfail. vm_compute. discriminate.
Defined.

(** ** Location reports (0x0200) *)

(** What [handleMsg0200] does once the device of the header's phone number
    is found: the fix goes to the ring that the GIS cache holds under the
    device id. *)
Lemma handleMsg0200_found (ctx : Context) (data : ProcessData) (in_ : Msg0200.t)
    (h : MsgHeader) (d : Device.t) (w : World) :
  Incoming data = OfMsg0200 in_ ->
  Msg0200.Header in_ = Some h ->
  storage.cacheByPhone (devices w) !! PhoneNumber h = Some d ->
  let fix_ := GISMeta.Decode GISMeta.New (Msg0200.StatusSign in_) in
  handleMsg0200 ctx data w =
    Done (None, data,
          {| devices :=
               if Z.land (Msg0200.StatusSign in_) 1 =? 0
               then storage.CacheDevice (now w) (devices w) (Device.with_Status d DeviceStatusSleeping)
               else devices w;
             timer := timer w;
             gis := <[Device.ID d :=
                        storage.ring_Write (storage.GetGisRingByPhone (gis w) (Device.ID d)) fix_]>
                      (gis w);
             now := now w |}).
Proof.
  intros Hin Hh Hd fix_. unfold handleMsg0200. rewrite Hin, Hh.
  cbn [deref mbind Go_bind]. rewrite (GetDeviceByPhone_Some _ _ _ Hd).
  cbn [Is deref mbind Go_bind GISMeta.Decode GISMeta.ACCStatus].
  destruct (Z.land (Msg0200.StatusSign in_) 1 =? 0); reflexivity.
Qed.

(** The ring under the phone number is not the one written, unless the
    device id happens to equal the phone number. *)
Lemma handleMsg0200_ring_of_phone_untouched (ctx : Context) (data data' : ProcessData)
    (in_ : Msg0200.t) (h : MsgHeader) (d : Device.t) (w w' : World) (err : option error) :
  Incoming data = OfMsg0200 in_ ->
  Msg0200.Header in_ = Some h ->
  storage.cacheByPhone (devices w) !! PhoneNumber h = Some d ->
  Device.ID d <> PhoneNumber h ->
  handleMsg0200 ctx data w = Done (err, data', w') ->
  storage.GetGisRingByPhone (gis w') (PhoneNumber h)
    = storage.GetGisRingByPhone (gis w) (PhoneNumber h).
Proof.
  intros Hin Hh Hd Hne. rewrite (handleMsg0200_found ctx data in_ h d w Hin Hh Hd).
  intros [= _ _ <-]. unfold storage.GetGisRingByPhone. cbn [gis].
  rewrite lookup_insert_ne by exact Hne. reflexivity.
Qed.

(** C3: after the registration of scenario 1, a location report with ACC
    off puts the device to sleep and caches it again, but the decoded fix is
    appended to the ring that the GIS cache holds under the device id
    "DEV0001"; the ring under the device's phone number stays empty. *)
Theorem C3_handleMsg0200_writes_ring_of_device_id :
  exists w' : World,
    handleMsg0200 (Some Sample.session) (Sample.location_data 0) Sample.registered
      = Done (None, Sample.location_data 0, w') /\
    storage.GetDeviceByPhone (devices w') Sample.phone
      = (Some (Device.with_Status Sample.device DeviceStatusSleeping), None) /\
    storage.GetGisRingByPhone (gis Sample.registered) Sample.phone = [] /\
    storage.GetGisRingByPhone (gis w') Sample.phone = [] /\
    storage.GetGisRingByPhone (gis w') (Device.ID Sample.device)
      = [GISMeta.Decode GISMeta.New 0].
Proof.
  eexists. split.
  - apply (handleMsg0200_found (Some Sample.session) (Sample.location_data 0)
             {| Msg0200.Header := Some (Sample.header 0x0200 Version2013 0 Sample.phone);
                Msg0200.StatusSign := 0 |}
             (Sample.header 0x0200 Version2013 0 Sample.phone) Sample.device);
      [reflexivity | reflexivity | vm_compute; reflexivity].
  - cbn [devices gis]. repeat split; vm_compute; reflexivity.
Qed.

(** ** The keep-alive timer follows the registry *)

Lemma consistent_empty : consistent storage.emptyDeviceCache ∅.
Proof.
  split.
  - intros phone. cbn. rewrite lookup_empty. split.
    + intros Hin. exfalso. exact (not_elem_of_empty phone Hin).
    + intros [d Hd]. discriminate.
  - intros phone d. cbn. rewrite lookup_empty. discriminate.
Qed.

(** Caching a device whose phone number is registered keeps both sets. *)
Lemma consistent_put_again {clock : Z} (cache : storage.DeviceCache) (t : gset string) (d : Device.t) :
  consistent cache t ->
  is_Some (storage.cacheByPhone cache !! Device.PhoneNumber d) ->
  consistent (storage.CacheDevice clock cache d) t.
Proof.
  intros [Hagree Hkey] Hsome. split.
  - intros phone. rewrite Hagree. cbn. rewrite lookup_insert. case_decide.
    + subst phone. split; [eauto | intros _; exact Hsome].
    + reflexivity.
  - intros phone d'. cbn. rewrite lookup_insert. case_decide.
    + intros [= <-]. assumption.
    + apply Hkey.
Qed.

(** Caching a device and registering its timer adds the phone to both. *)
Lemma consistent_put_register {clock : Z} (cache : storage.DeviceCache) (t : gset string) (d : Device.t) :
  consistent cache t ->
  consistent (storage.CacheDevice clock cache d) (KeepaliveTimer.Register t (Device.PhoneNumber d)).
Proof.
  intros [Hagree Hkey]. split.
  - intros phone. unfold KeepaliveTimer.Register.
    rewrite elem_of_union, elem_of_singleton, Hagree. cbn.
    rewrite lookup_insert. case_decide.
    + subst phone. split; [eauto | intros _; left; reflexivity].
    + split; [intros [?|?]; [congruence | assumption] | auto].
  - intros phone d'. cbn. rewrite lookup_insert. case_decide.
    + intros [= <-]. assumption.
    + apply Hkey.
Qed.

(** Cancelling the timer and deleting the device removes the phone from
    both. *)
Lemma consistent_cancel_delete (cache : storage.DeviceCache) (t : gset string) (phone : string) :
  consistent cache t ->
  consistent (storage.DelDeviceByPhone cache phone) (KeepaliveTimer.Cancel t phone).
Proof.
  intros [Hagree Hkey]. unfold storage.DelDeviceByPhone, KeepaliveTimer.Cancel.
  destruct (storage.cacheByPhone cache !! phone) as [d|] eqn:Hd; split.
  - intros q. rewrite elem_of_difference, elem_of_singleton, Hagree. cbn.
    rewrite lookup_delete. case_decide.
    + subst q. split; [intros [_ Hne]; congruence | intros [? ?]; discriminate].
    + split; [intros [? _]; assumption | intros ?; split; [assumption | congruence]].
  - intros q d'. cbn. rewrite lookup_delete. case_decide; [discriminate | apply Hkey].
  - intros q. rewrite elem_of_difference, elem_of_singleton, Hagree. split.
    + intros [? _]. assumption.
    + intros Hq. split; [assumption|]. intros ->. rewrite Hd in Hq.
      destruct Hq; discriminate.
  - exact Hkey.
Qed.

Section invariant.
Context `{Env} `{Methods}.

(** A device that a lookup found is stored under the key asked for. *)
Lemma found_device (cache : storage.DeviceCache) (phone : string)
    (dev : option Device.t) (err : option error) (d : Device.t) :
  storage.GetDeviceByPhone cache phone = (dev, err) ->
  dev = Some d -> storage.cacheByPhone cache !! phone = Some d.
Proof.
  unfold storage.GetDeviceByPhone.
  destruct (storage.cacheByPhone cache !! phone); intros [= <- <-]; congruence.
Qed.

(** Every handler of the dispatch table keeps the registry and the timer
    consistent. *)
Lemma handler_preserves_consistent (id : Z) (act : action) (f : handler)
    (ctx : Context) (data data' : ProcessData) (w w' : World) (err : option error) :
  initProcessOption !! id = Some act ->
  process act = Some f ->
  f ctx data w = Done (err, data', w') ->
  consistent (devices w) (timer w) ->
  consistent (devices w') (timer w').
Proof.
  intros Hact Hproc Hrun Hinv.
  destruct (initProcessOption_process _ _ _ Hact Hproc)
    as [[-> ->]|[[-> ->]|[[-> ->]|[[-> ->]|[[-> ->]|[-> ->]]]]]]; revert Hrun.
  - unfold processMsg0002.
    destruct (GetHeader (Incoming data)) as [h|]; cbn [deref mbind Go_bind]; [|discriminate].
    destruct (storage.GetDeviceByPhone (devices w) (PhoneNumber h)) as [dev e] eqn:Hget.
    destruct (Is e (Lib ErrDeviceNotFound)); [intros [= _ _ <-]; exact Hinv|].
    destruct dev as [d|] eqn:Hdev; cbn [deref mbind Go_bind]; [|discriminate].
    intros [= _ _ <-]. cbn [devices timer with_devices].
    pose proof (found_device _ _ _ _ d Hget eq_refl) as Hd.
    apply consistent_put_again; [exact Hinv|].
    rewrite (proj2 Hinv _ _ Hd), Hd. eauto.
  - unfold processMsg0003.
    destruct (GetHeader (Incoming data)) as [h|]; cbn [deref mbind Go_bind]; [|discriminate].
    destruct (storage.GetDeviceByPhone (devices w) (PhoneNumber h)) as [dev e] eqn:Hget.
    destruct (Is e (Lib ErrDeviceNotFound)); [intros [= _ _ <-]; exact Hinv|].
    destruct dev as [d|] eqn:Hdev; cbn [deref mbind Go_bind]; [|discriminate].
    intros [= _ _ <-]. cbn [devices timer with_devices with_timer].
    apply consistent_cancel_delete. exact Hinv.
  - unfold processMsg0100.
    destruct (Incoming data); try discriminate.
    destruct (Outgoing data) as [[]|]; try discriminate.
    destruct (storage.HasPlate _ _); [intros [= _ _ <-]; exact Hinv|].
    destruct (Msg0100.Header m) as [h|]; cbn [deref mbind Go_bind]; [|discriminate].
    destruct (storage.HasPhone _ _); [intros [= _ _ <-]; exact Hinv|].
    destruct ctx as [session|]; cbn [deref mbind Go_bind]; [|discriminate].
    intros [= _ _ <-]. cbn [devices timer with_devices with_timer].
    apply (consistent_put_register (devices w) (timer w)). exact Hinv.
  - unfold processMsg0102.
    destruct (Incoming data); try discriminate.
    destruct (Msg0102.Header m) as [h|]; cbn [deref mbind Go_bind]; [|discriminate].
    destruct (storage.GetDeviceByPhone (devices w) (PhoneNumber h)) as [dev e] eqn:Hget.
    destruct (Is e (Lib ErrDeviceNotFound)); [intros [= _ _ <-]; exact Hinv|].
    destruct (Outgoing data) as [[]|]; try discriminate.
    destruct dev as [d|] eqn:Hdev; cbn [deref mbind Go_bind]; [|discriminate].
    pose proof (found_device _ _ _ _ d Hget eq_refl) as Hd.
    case_decide; intros [= _ _ <-]; cbn [devices timer with_devices with_timer].
    + apply consistent_cancel_delete. exact Hinv.
    + apply consistent_put_again; [exact Hinv|]. cbn.
      rewrite (proj2 Hinv _ _ Hd), Hd. eauto.
  - unfold handleMsg0200.
    destruct (Incoming data); try discriminate.
    destruct (Msg0200.Header m) as [h|]; cbn [deref mbind Go_bind]; [|discriminate].
    destruct (storage.GetDeviceByPhone (devices w) (PhoneNumber h)) as [dev e] eqn:Hget.
    destruct (Is e (Lib ErrDeviceNotFound)); [intros [= _ _ <-]; exact Hinv|].
    destruct dev as [d|] eqn:Hdev; cbn [deref mbind Go_bind]; [|discriminate].
    pose proof (found_device _ _ _ _ d Hget eq_refl) as Hd.
    destruct (GISMeta.ACCStatus _ =? 0); intros [= _ _ <-];
      cbn [devices timer with_devices with_gis]; [|exact Hinv].
    apply consistent_put_again; [exact Hinv|]. cbn.
    rewrite (proj2 Hinv _ _ Hd), Hd. eauto.
  - unfold processMsg8100.
    destruct (Incoming data); try discriminate.
    destruct (Outgoing data) as [[]|]; try discriminate.
    destruct (Msg8100.Header m) as [h|]; cbn [deref mbind Go_bind]; [|discriminate].
    destruct (storage.GetDeviceByPhone (devices w) (PhoneNumber h)) as [dev e].
    destruct (Is e (Lib ErrDeviceNotFound)); [intros [= _ _ <-]; exact Hinv|].
    destruct dev; cbn [deref mbind Go_bind]; [|discriminate].
    destruct (GenOutgoing _ _) as [[out' [e'|]]|]; cbn [mbind Go_bind];
      [| |discriminate]; intros [= _ _ <-]; exact Hinv.
Qed.

Lemma reachable_consistent (w : World) :
  reachable w -> consistent (devices w) (timer w).
Proof.
  induction 1 as [|w w' id act f ctx data data' err _ IH Hact Hproc Hrun|w t _ IH _].
  - exact consistent_empty.
  - exact (handler_preserves_consistent _ _ _ _ _ _ _ _ _ Hact Hproc Hrun IH).
  - exact IH.
Qed.

(** In a reachable registry every device is stored under its own phone
    number. *)
Lemma reachable_keyed_by_phone (w : World) : reachable w -> keyed_by_phone w.
Proof. intros Hr. exact (proj2 (reachable_consistent w Hr)). Qed.

End invariant.


(** [Process] only changes the singletons through a handler of the table,
    so it keeps them reachable. *)
Lemma Process_reachable `{Env} `{Methods} `{GBK}
    (ctx : Context) (pkt : PacketData) (w w' : World)
    (d : option ProcessData) (e : option error) :
  reachable w -> JT808MsgProcessor_Process ctx pkt w = Done (d, e, w') -> reachable w'.
Proof.
  intros Hr. unfold JT808MsgProcessor_Process, Process.
  destruct (initProcessOption !! MsgID (Header pkt)) as [act|] eqn:Hact;
    cbn [deref mbind Go_bind]; [|discriminate].
  destruct (genData act) as [gen|]; [|intros [= _ _ <-]; exact Hr].
  destruct (Decode _ pkt) as [[[in_ pkt'] [e0|]]|]; cbn [mbind Go_bind];
    [intros [= _ _ <-]; exact Hr | | discriminate].
  destruct (log_incoming ctx in_) as [[e1|]|]; cbn [mbind Go_bind];
    [intros [= _ _ <-]; exact Hr | | discriminate].
  destruct (Outgoing _) as [out|]; [|intros [= _ _ <-]; exact Hr].
  destruct (GenOutgoing out in_) as [[out' [e2|]]|]; cbn [mbind Go_bind];
    [intros [= _ _ <-]; exact Hr | | discriminate].
  destruct (process act) as [f|] eqn:Hproc; cbn [deref mbind Go_bind]; [|discriminate].
  destruct (f ctx _ w) as [[[e3 d3] w3]|] eqn:Hrun; cbn [mbind Go_bind]; [|discriminate].
  destruct (log_outgoing ctx); cbn [mbind Go_bind]; [|discriminate].
  assert (Hr3 : reachable w3) by (eapply reachable_handler; eassumption).
  destruct e3; intros [= _ _ <-]; exact Hr3.
Qed.


(** * Further properties *)

(** ** Slices and readers, in general *)

Lemma slice_Done (pkt bs : list byte) (lo hi : Z) :
  slice pkt lo hi = Done bs <->
  0 <= lo /\ lo <= hi /\ hi <= Z.of_nat (length pkt) /\
  bs = take (Z.to_nat (hi - lo)) (drop (Z.to_nat lo) pkt).
Proof.
  unfold slice.
  destruct (0 <=? lo) eqn:E1; destruct (lo <=? hi) eqn:E2;
    destruct (hi <=? Z.of_nat (length pkt)) eqn:E3; cbn [andb];
    rewrite ?Z.leb_le, ?Z.leb_gt in *;
    (split; [intros [= <-] | intros (? & ? & ? & ->)]);
    first [lia | discriminate | reflexivity | tauto].
Qed.

Lemma slice_length (pkt bs : list byte) (lo hi : Z) :
  slice pkt lo hi = Done bs -> Z.of_nat (length bs) = hi - lo.
Proof.
  rewrite slice_Done. intros (H0 & H1 & H2 & ->).
  rewrite length_take, length_drop. lia.
Qed.

Lemma slice_in_range (pkt : list byte) (lo hi : Z) :
  0 <= lo -> lo <= hi -> hi <= Z.of_nat (length pkt) ->
  exists bs, slice pkt lo hi = Done bs.
Proof. intros. eexists. apply slice_Done. repeat split; assumption. Qed.

(** A slice that lies within a buffer is the same slice of any extension
    of the buffer. *)
Lemma slice_extend (pkt extra bs : list byte) (lo hi : Z) :
  slice pkt lo hi = Done bs -> slice (pkt ++ extra) lo hi = Done bs.
Proof.
  rewrite !slice_Done. intros (H0 & H1 & H2 & ->).
  rewrite length_app. repeat split; try lia.
  rewrite drop_app_le by lia.
  rewrite take_app_le by (rewrite length_drop; lia). reflexivity.
Qed.

Lemma TrimRight_nul_cons (c : ascii) (r : string) :
  TrimRight_nul (String c r) =
    match TrimRight_nul r with
    | EmptyString => if is_nul c then EmptyString else String c EmptyString
    | r' => String c r'
    end.
Proof. reflexivity. Qed.

(** Trimming twice is trimming once. *)
Lemma TrimRight_nul_idempotent (s : string) :
  TrimRight_nul (TrimRight_nul s) = TrimRight_nul s.
Proof.
  induction s as [|c s IH]; [reflexivity|].
  rewrite (TrimRight_nul_cons c s).
  destruct (TrimRight_nul s) as [|c' t] eqn:Ht.
  - destruct (is_nul c) eqn:Hc; [reflexivity|].
    rewrite TrimRight_nul_cons. cbn [TrimRight_nul]. rewrite Hc. reflexivity.
  - rewrite TrimRight_nul_cons, IH. reflexivity.
Qed.

(** When each reader returns: exactly when its bytes lie in the buffer. *)
Lemma ReadWord_Done (pkt : list byte) (idx : Z) :
  (exists w, hex.ReadWord pkt idx = Done (w, idx + 2)) <->
  0 <= idx /\ idx + 2 <= Z.of_nat (length pkt).
Proof.
  unfold hex.ReadWord. split.
  - intros [w Hw]. destruct (slice pkt idx (idx + 2)) as [bs|] eqn:Hs; [|discriminate].
    apply slice_Done in Hs. lia.
  - intros [H0 H1]. destruct (slice_in_range pkt idx (idx + 2)) as [bs Hs]; try lia.
    rewrite Hs. cbn [mbind Go_bind]. pose proof (slice_length _ _ _ _ Hs) as Hl.
    destruct bs as [|b1 [|b2 [|b3 bs]]]; cbn [length] in Hl; try lia. eauto.
Qed.

Lemma ReadWord_returns (pkt : list byte) (idx idx' w : Z) :
  hex.ReadWord pkt idx = Done (w, idx') ->
  idx' = idx + 2 /\ 0 <= idx /\ idx + 2 <= Z.of_nat (length pkt).
Proof.
  intros Hr. assert (Hi : idx' = idx + 2).
  { unfold hex.ReadWord in Hr. destruct (slice pkt idx (idx + 2)) as [bs|]; [|discriminate].
    cbn [mbind Go_bind] in Hr. destruct bs as [|b1 [|b2 [|b3 bs]]]; congruence. }
  subst idx'. split; [reflexivity|]. apply ReadWord_Done. eauto.
Qed.

Lemma ReadByte_Done (pkt : list byte) (idx : Z) :
  (exists b, hex.ReadByte pkt idx = Done (b, idx + 1)) <->
  0 <= idx /\ idx + 1 <= Z.of_nat (length pkt).
Proof.
  unfold hex.ReadByte. split.
  - intros [w Hw]. destruct (slice pkt idx (idx + 1)) as [bs|] eqn:Hs; [|discriminate].
    apply slice_Done in Hs. lia.
  - intros [H0 H1]. destruct (slice_in_range pkt idx (idx + 1)) as [bs Hs]; try lia.
    rewrite Hs. cbn [mbind Go_bind]. pose proof (slice_length _ _ _ _ Hs) as Hl.
    destruct bs as [|b1 [|b2 bs]]; cbn [length] in Hl; try lia. eauto.
Qed.

Lemma ReadByte_returns (pkt : list byte) (idx idx' : Z) (b : byte) :
  hex.ReadByte pkt idx = Done (b, idx') ->
  idx' = idx + 1 /\ 0 <= idx /\ idx + 1 <= Z.of_nat (length pkt).
Proof.
  intros Hr. assert (Hi : idx' = idx + 1).
  { unfold hex.ReadByte in Hr. destruct (slice pkt idx (idx + 1)) as [bs|]; [|discriminate].
    cbn [mbind Go_bind] in Hr. destruct bs as [|b1 [|b2 bs]]; congruence. }
  subst idx'. split; [reflexivity|]. apply ReadByte_Done. eauto.
Qed.

Lemma ReadString_Done (pkt : list byte) (idx n : Z) :
  (exists s, hex.ReadString pkt idx n = Done (s, idx + n)) <->
  0 <= idx /\ 0 <= n /\ idx + n <= Z.of_nat (length pkt).
Proof.
  unfold hex.ReadString. split.
  - intros [w Hw]. destruct (slice pkt idx (idx + n)) as [bs|] eqn:Hs; [|discriminate].
    apply slice_Done in Hs. lia.
  - intros (H0 & H1 & H2). destruct (slice_in_range pkt idx (idx + n)) as [bs Hs]; try lia.
    rewrite Hs. cbn [mbind Go_bind]. eauto.
Qed.

Lemma ReadString_returns (pkt : list byte) (idx idx' n : Z) (s : string) :
  hex.ReadString pkt idx n = Done (s, idx') ->
  idx' = idx + n /\ 0 <= idx /\ 0 <= n /\ idx + n <= Z.of_nat (length pkt) /\
  TrimRight_nul s = s.
Proof.
  intros Hr. unfold hex.ReadString in Hr.
  destruct (slice pkt idx (idx + n)) as [bs|] eqn:Hs; [|discriminate].
  cbn [mbind Go_bind] in Hr. injection Hr as <- <-.
  apply slice_Done in Hs. repeat split; try lia.
  apply TrimRight_nul_idempotent.
Qed.

Lemma ReadGBK_Done `{GBK} (pkt : list byte) (idx n : Z) :
  (exists s, hex.ReadGBK pkt idx n = Done (s, idx + n)) <->
  0 <= idx /\ 0 <= n /\ idx + n <= Z.of_nat (length pkt).
Proof.
  unfold hex.ReadGBK. split.
  - intros [w Hw]. destruct (slice pkt idx (idx + n)) as [bs|] eqn:Hs; [|discriminate].
    apply slice_Done in Hs. lia.
  - intros (H0 & H1 & H2). destruct (slice_in_range pkt idx (idx + n)) as [bs Hs]; try lia.
    rewrite Hs. cbn [mbind Go_bind]. eauto.
Qed.

Lemma ReadGBK_returns `{GBK} (pkt : list byte) (idx idx' n : Z) (s : string) :
  hex.ReadGBK pkt idx n = Done (s, idx') ->
  idx' = idx + n /\ 0 <= idx /\ 0 <= n /\ idx + n <= Z.of_nat (length pkt).
Proof.
  intros Hr. assert (Hi : idx' = idx + n).
  { unfold hex.ReadGBK in Hr. destruct (slice pkt idx (idx + n)) as [bs|]; [|discriminate].
    cbn [mbind Go_bind] in Hr. congruence. }
  subst idx'. split; [reflexivity|]. apply ReadGBK_Done. eauto.
Qed.

Lemma TrimRight_nul_length (s : string) :
  (String.length (TrimRight_nul s) <= String.length s)%nat.
Proof.
  induction s as [|c s IH]; [reflexivity|]. rewrite TrimRight_nul_cons.
  destruct (TrimRight_nul s); [destruct (is_nul c)|]; cbn [String.length] in *; lia.
Qed.

Lemma TrimRight_nul_snoc (t : string) :
  TrimRight_nul (t +:+ String Ascii.zero EmptyString) = TrimRight_nul t.
Proof.
  induction t as [|c t IH]; [reflexivity|].
  change (String c t +:+ String Ascii.zero EmptyString)
    with (String c (t +:+ String Ascii.zero EmptyString)).
  rewrite !TrimRight_nul_cons, IH. reflexivity.
Qed.

Lemma length_append (s t : string) :
  String.length (s +:+ t) = (String.length s + String.length t)%nat.
Proof.
  induction s as [|c s IH]; [reflexivity|].
  change (String c s +:+ t) with (String c (s +:+ t)). cbn [String.length]. lia.
Qed.

(** What trimming leaves does not end in a NUL byte. *)
Lemma trimmed_no_trailing_nul (s : string) :
  TrimRight_nul s = s -> no_trailing_nul s.
Proof.
  intros Hs t ->. rewrite TrimRight_nul_snoc in Hs.
  pose proof (TrimRight_nul_length t) as Hl. rewrite Hs, length_append in Hl.
  cbn [String.length] in Hl. lia.
Qed.

(** ** Msg0100.Decode on arbitrary bytes *)

Section Decode_bounds.
Context `{GBK}.

(** With the widths fixed, [Decode] returns without error exactly when the
    body length of the header covers the fixed part and lies within the
    buffer. *)
Lemma Decode_returns_iff (m : Msg0100.t) (pkt : PacketData) (a b c : Z) (p : VersionPtr) :
  Msg0100.widths (Header pkt) 4 = Some (a, b, c, p) ->
  0 <= a -> 0 <= b -> 0 <= c ->
  (exists m', Msg0100.Decode m pkt = Done (m', pkt, None)) <->
  4 + a + b + c + 1 <= BodyLength (Attr (Header pkt)) <= Z.of_nat (length (Body pkt)).
Proof.
  intros Hw Ha Hb Hc. unfold Msg0100.Decode. split.
  - intros [m' Hd].
    destruct (hex.ReadWord (Body pkt) 0) as [[w1 i1]|] eqn:R1; [|discriminate].
    apply ReadWord_returns in R1 as (-> & _ & _). cbn [mbind Go_bind] in Hd.
    destruct (hex.ReadWord (Body pkt) (0 + 2)) as [[w2 i2]|] eqn:R2; [|discriminate].
    apply ReadWord_returns in R2 as (-> & _ & _). cbn [mbind Go_bind] in Hd.
    change (0 + 2 + 2) with 4 in Hd. rewrite Hw in Hd.
    destruct (hex.ReadString (Body pkt) 4 a) as [[s1 i3]|] eqn:R3; [|discriminate].
    apply ReadString_returns in R3 as (-> & _). cbn [mbind Go_bind] in Hd.
    destruct (hex.ReadString (Body pkt) (4 + a) b) as [[s2 i4]|] eqn:R4; [|discriminate].
    apply ReadString_returns in R4 as (-> & _). cbn [mbind Go_bind] in Hd.
    destruct (hex.ReadString (Body pkt) (4 + a + b) c) as [[s3 i5]|] eqn:R5; [|discriminate].
    apply ReadString_returns in R5 as (-> & _). cbn [mbind Go_bind] in Hd.
    destruct (hex.ReadByte (Body pkt) (4 + a + b + c)) as [[col i6]|] eqn:R6; [|discriminate].
    apply ReadByte_returns in R6 as (-> & _). cbn [mbind Go_bind] in Hd.
    destruct (hex.ReadGBK (Body pkt) (4 + a + b + c + 1) _) as [[pl i7]|] eqn:R7; [|discriminate].
    apply ReadGBK_returns in R7 as (_ & _ & Hn & Hlen). lia.
  - intros [Hlo Hhi].
    destruct (proj2 (ReadWord_Done (Body pkt) 0)) as [w1 R1]; [lia|].
    rewrite R1. cbn [mbind Go_bind].
    destruct (proj2 (ReadWord_Done (Body pkt) (0 + 2))) as [w2 R2]; [lia|].
    rewrite R2. cbn [mbind Go_bind]. change (0 + 2 + 2) with 4. rewrite Hw.
    destruct (proj2 (ReadString_Done (Body pkt) 4 a)) as [s1 R3]; [lia|].
    rewrite R3. cbn [mbind Go_bind].
    destruct (proj2 (ReadString_Done (Body pkt) (4 + a) b)) as [s2 R4]; [lia|].
    rewrite R4. cbn [mbind Go_bind].
    destruct (proj2 (ReadString_Done (Body pkt) (4 + a + b) c)) as [s3 R5]; [lia|].
    rewrite R5. cbn [mbind Go_bind].
    destruct (proj2 (ReadByte_Done (Body pkt) (4 + a + b + c))) as [col R6]; [lia|].
    rewrite R6. cbn [mbind Go_bind].
    destruct (proj2 (ReadGBK_Done (Body pkt) (4 + a + b + c + 1)
                       (BodyLength (Attr (Header pkt)) - (4 + a + b + c + 1))))
      as [pl R7]; [lia|].
    rewrite R7. cbn [mbind Go_bind]. eauto.
Qed.

End Decode_bounds.

(** X1: whatever the bytes and whatever the receiver held, [Decode]
    returns without error exactly when the header version is 2019 or 2013
    and the header's body length covers the fixed part of the body (76
    bytes for 2019, 25 for 2013) and does not exceed the buffer. *)
Theorem X1_Decode_returns_without_error_iff `{GBK} (m : Msg0100.t) (pkt : PacketData) :
  (exists m', Msg0100.Decode m pkt = Done (m', pkt, None)) <->
  (exists n, min_body_length (VersionDesc (Attr (Header pkt))) = Some n /\
             n <= BodyLength (Attr (Header pkt)) <= Z.of_nat (length (Body pkt))).
Proof.
  destruct (VersionDesc (Attr (Header pkt))) eqn:Hv; cbn [min_body_length].
  - split.
    + intros [m' Hd]. exfalso. unfold Msg0100.Decode in Hd.
      destruct (hex.ReadWord (Body pkt) 0) as [[w1 i1]|] eqn:R1; [|discriminate].
      cbn [mbind Go_bind] in Hd.
      destruct (hex.ReadWord (Body pkt) i1) as [[w2 i2]|] eqn:R2; [|discriminate].
      cbn [mbind Go_bind] in Hd. rewrite (widths_2011 _ _ Hv) in Hd. discriminate.
    + intros (n & Hn & _). discriminate.
  - pose proof (widths_2013 (Header pkt) 4 Hv) as Hw.
    destruct (33 <? BodyLength (Attr (Header pkt)) - 4) eqn:Hlong.
    + rewrite (Decode_returns_iff m pkt 5 20 7 _ Hw) by lia.
      apply Z.ltb_lt in Hlong. split.
      * intros ?. exists 25. split; [reflexivity | lia].
      * intros (n & [= <-] & ?). lia.
    + rewrite (Decode_returns_iff m pkt 5 8 7 _ Hw) by lia.
      split.
      * intros ?. exists 25. split; [reflexivity | lia].
      * intros (n & [= <-] & ?). lia.
  - rewrite (Decode_returns_iff m pkt 11 30 30 _ (widths_2019 _ 4 Hv)) by lia.
    split.
    + intros ?. exists 76. split; [reflexivity | lia].
    + intros (n & [= <-] & ?). lia.
Qed.

(** X2: [Decode] returns an error exactly when the header version is
    neither 2019 nor 2013, the final else of its version test, and the
    buffer holds the province and city words.  The error is
    [ErrDecodeMsg], and by then the receiver's header, province and city
    have been overwritten while its other fields are as before. *)
Theorem X2_Decode_error_iff_version_not_accepted `{GBK} (m : Msg0100.t) (pkt : PacketData) :
  ((exists m' pkt' e, Msg0100.Decode m pkt = Done (m', pkt', Some e)) <->
   (VersionDesc (Attr (Header pkt)) <> Version2019 /\
    VersionDesc (Attr (Header pkt)) <> Version2013 /\
    4 <= Z.of_nat (length (Body pkt)))) /\
  (forall m' pkt' e,
     Msg0100.Decode m pkt = Done (m', pkt', Some e) ->
     e = Lib ErrDecodeMsg /\
     Msg0100.Header m' = Some (Header pkt) /\
     hex.ReadWord (Body pkt) 0 = Done (Msg0100.ProvinceID m', 2) /\
     hex.ReadWord (Body pkt) 2 = Done (Msg0100.CityID m', 4) /\
     Msg0100.ManufacturerID m' = Msg0100.ManufacturerID m /\
     Msg0100.DeviceMode m' = Msg0100.DeviceMode m /\
     Msg0100.DeviceID m' = Msg0100.DeviceID m /\
     Msg0100.PlateColor m' = Msg0100.PlateColor m /\
     Msg0100.PlateNumber m' = Msg0100.PlateNumber m).
Proof.
  assert (Hinv : forall m' pkt' e,
            Msg0100.Decode m pkt = Done (m', pkt', Some e) ->
            VersionDesc (Attr (Header pkt)) = Version2011 /\
            4 <= Z.of_nat (length (Body pkt)) /\
            e = Lib ErrDecodeMsg /\
            Msg0100.Header m' = Some (Header pkt) /\
            hex.ReadWord (Body pkt) 0 = Done (Msg0100.ProvinceID m', 2) /\
            hex.ReadWord (Body pkt) 2 = Done (Msg0100.CityID m', 4) /\
            Msg0100.ManufacturerID m' = Msg0100.ManufacturerID m /\
            Msg0100.DeviceMode m' = Msg0100.DeviceMode m /\
            Msg0100.DeviceID m' = Msg0100.DeviceID m /\
            Msg0100.PlateColor m' = Msg0100.PlateColor m /\
            Msg0100.PlateNumber m' = Msg0100.PlateNumber m).
  { intros m' pkt' e Hd. unfold Msg0100.Decode in Hd.
    destruct (hex.ReadWord (Body pkt) 0) as [[w1 i1]|] eqn:R1; [|discriminate].
    pose proof (ReadWord_returns _ _ _ _ R1) as (-> & _ & _). cbn [mbind Go_bind] in Hd.
    destruct (hex.ReadWord (Body pkt) (0 + 2)) as [[w2 i2]|] eqn:R2; [|discriminate].
    pose proof (ReadWord_returns _ _ _ _ R2) as (-> & _ & Hlen). cbn [mbind Go_bind] in Hd.
    destruct (Msg0100.widths (Header pkt) (0 + 2 + 2)) as [[[[a b] c] p]|] eqn:Hw.
    - exfalso.
      repeat match type of Hd with
             | (?c ≫= _) = _ => destruct c as [[? ?]|]; cbn [mbind Go_bind] in Hd;
                                 try discriminate
             end.
    - injection Hd as <- <- <-. cbn.
      destruct (VersionDesc (Attr (Header pkt))) eqn:Hv.
      + repeat split; first [exact R1 | exact R2 | lia].
      + rewrite (widths_2013 _ _ Hv) in Hw. destruct (33 <? _); discriminate.
      + rewrite (widths_2019 _ _ Hv) in Hw. discriminate. }
  split; [split|].
  - intros (m' & pkt' & e & Hd). destruct (Hinv _ _ _ Hd) as (Hv & ? & _).
    rewrite Hv. repeat split; [discriminate | discriminate | assumption].
  - intros (H19 & H13 & Hlen).
    assert (Hv : VersionDesc (Attr (Header pkt)) = Version2011)
      by (destruct (VersionDesc (Attr (Header pkt))); congruence).
    unfold Msg0100.Decode.
    destruct (proj2 (ReadWord_Done (Body pkt) 0)) as [w1 R1]; [lia|].
    rewrite R1. cbn [mbind Go_bind].
    destruct (proj2 (ReadWord_Done (Body pkt) (0 + 2))) as [w2 R2]; [lia|].
    rewrite R2. cbn [mbind Go_bind]. rewrite (widths_2011 _ _ Hv). eauto.
  - intros m' pkt' e Hd. destruct (Hinv _ _ _ Hd) as (_ & _ & Hrest). exact Hrest.
Qed.

(** X3: bytes that follow the body in the buffer (the checksum of the
    frame, for instance) do not change what [Decode] reads: the plate
    number is taken up to the header's body length, not to the end of the
    buffer. *)
Theorem X3_Decode_ignores_trailing_bytes `{GBK}
    (m m' : Msg0100.t) (h : MsgHeader) (body extra : list byte) (pkt' : PacketData)
    (e : option error) :
  Msg0100.Decode m {| Header := h; Body := body |} = Done (m', pkt', e) ->
  Msg0100.Decode m {| Header := h; Body := body ++ extra |}
    = Done (m', {| Header := h; Body := body ++ extra |}, e).
Proof.
  assert (Hw : forall i w i', hex.ReadWord body i = Done (w, i') ->
                 hex.ReadWord (body ++ extra) i = Done (w, i')).
  { intros i w i'. unfold hex.ReadWord.
    destruct (slice body i (i + 2)) as [bs|] eqn:Hs; [|discriminate].
    rewrite (slice_extend _ extra _ _ _ Hs). trivial. }
  assert (Hs : forall i n s i', hex.ReadString body i n = Done (s, i') ->
                 hex.ReadString (body ++ extra) i n = Done (s, i')).
  { intros i n s i'. unfold hex.ReadString.
    destruct (slice body i (i + n)) as [bs|] eqn:Hsl; [|discriminate].
    rewrite (slice_extend _ extra _ _ _ Hsl). trivial. }
  assert (Hb : forall i b i', hex.ReadByte body i = Done (b, i') ->
                 hex.ReadByte (body ++ extra) i = Done (b, i')).
  { intros i b i'. unfold hex.ReadByte.
    destruct (slice body i (i + 1)) as [bs|] eqn:Hsl; [|discriminate].
    rewrite (slice_extend _ extra _ _ _ Hsl). trivial. }
  assert (Hg : forall i n s i', hex.ReadGBK body i n = Done (s, i') ->
                 hex.ReadGBK (body ++ extra) i n = Done (s, i')).
  { intros i n s i'. unfold hex.ReadGBK.
    destruct (slice body i (i + n)) as [bs|] eqn:Hsl; [|discriminate].
    rewrite (slice_extend _ extra _ _ _ Hsl). trivial. }
  unfold Msg0100.Decode. cbn [Header Body]. intros Hd.
  destruct (hex.ReadWord body 0) as [[w1 i1]|] eqn:R1; [|discriminate].
  rewrite (Hw _ _ _ R1). cbn [mbind Go_bind] in Hd |- *.
  destruct (hex.ReadWord body i1) as [[w2 i2]|] eqn:R2; [|discriminate].
  rewrite (Hw _ _ _ R2). cbn [mbind Go_bind] in Hd |- *.
  destruct (Msg0100.widths h i2) as [[[[a b] c] p]|]; [|congruence].
  destruct (hex.ReadString body i2 a) as [[s1 i3]|] eqn:R3; [|discriminate].
  rewrite (Hs _ _ _ _ R3). cbn [mbind Go_bind] in Hd |- *.
  destruct (hex.ReadString body i3 b) as [[s2 i4]|] eqn:R4; [|discriminate].
  rewrite (Hs _ _ _ _ R4). cbn [mbind Go_bind] in Hd |- *.
  destruct (hex.ReadString body i4 c) as [[s3 i5]|] eqn:R5; [|discriminate].
  rewrite (Hs _ _ _ _ R5). cbn [mbind Go_bind] in Hd |- *.
  destruct (hex.ReadByte body i5) as [[col i6]|] eqn:R6; [|discriminate].
  rewrite (Hb _ _ _ R6). cbn [mbind Go_bind] in Hd |- *.
  destruct (hex.ReadGBK body i6 _) as [[pl i7]|] eqn:R7; [|discriminate].
  rewrite (Hg _ _ _ _ R7). cbn [mbind Go_bind] in Hd |- *.
  congruence.
Qed.

(** X3 at the registration of scenario 1 followed by a checksum byte. *)
Lemma X3_trailing_bytes_witness :
  exists m',
    @Msg0100.Decode Sample.gbk Msg0100.zero Sample2.reg2013_frame
      = Done (m', Sample2.reg2013_frame, None) /\
    Msg0100.PlateNumber m' = "A1234567".
Proof.
  eexists. split.
  - apply (@X3_Decode_ignores_trailing_bytes Sample.gbk Msg0100.zero _
             (Sample.header 0x0100 Version2013 45 Sample.phone)
             (Sample.body_of Sample.reg2013) ["z"%byte] Sample2.reg2013_packet None).
    vm_compute. reflexivity.
  - reflexivity.
Defined.

(** X4: when [Decode] returns without error the message carries the
    packet's header, and its manufacturer, model and device id do not end
    in a NUL byte, whatever bytes the fields held. *)
Theorem X4_Decode_fields_are_trimmed `{GBK}
    (m m' : Msg0100.t) (pkt pkt' : PacketData) :
  Msg0100.Decode m pkt = Done (m', pkt', None) ->
  Msg0100.Header m' = Some (Header pkt) /\
  no_trailing_nul (Msg0100.ManufacturerID m') /\
  no_trailing_nul (Msg0100.DeviceMode m') /\
  no_trailing_nul (Msg0100.DeviceID m').
Proof.
  unfold Msg0100.Decode. intros Hd.
  destruct (hex.ReadWord (Body pkt) 0) as [[w1 i1]|]; [|discriminate].
  cbn [mbind Go_bind] in Hd.
  destruct (hex.ReadWord (Body pkt) i1) as [[w2 i2]|]; [|discriminate].
  cbn [mbind Go_bind] in Hd.
  destruct (Msg0100.widths (Header pkt) i2) as [[[[a b] c] p]|]; [|discriminate].
  destruct (hex.ReadString (Body pkt) i2 a) as [[s1 i3]|]; [|discriminate].
  cbn [mbind Go_bind] in Hd.
  destruct (hex.ReadString (Body pkt) i3 b) as [[s2 i4]|]; [|discriminate].
  cbn [mbind Go_bind] in Hd.
  destruct (hex.ReadString (Body pkt) i4 c) as [[s3 i5]|]; [|discriminate].
  cbn [mbind Go_bind] in Hd.
  destruct (hex.ReadByte (Body pkt) i5) as [[col i6]|]; [|discriminate].
  cbn [mbind Go_bind] in Hd.
  destruct (hex.ReadGBK (Body pkt) i6 _) as [[pl i7]|]; [|discriminate].
  cbn [mbind Go_bind] in Hd. injection Hd as <- _. cbn.
  repeat split; apply trimmed_no_trailing_nul, TrimRight_nul_idempotent.
Qed.

(** X4 at a model field padded with NUL bytes. *)
Lemma X4_trimmed_witness :
  exists m',
    @Msg0100.Decode Sample.gbk Msg0100.zero Sample2.reg2013_packet
      = Done (m', Sample2.reg2013_packet, None) /\
    no_trailing_nul (Msg0100.DeviceMode m').
Proof.
  assert (Hd : exists m', @Msg0100.Decode Sample.gbk Msg0100.zero Sample2.reg2013_packet
                            = Done (m', Sample2.reg2013_packet, None))
    by (eexists; vm_compute; reflexivity).
  destruct Hd as [m' Hd]. exists m'. split; [exact Hd|].
  exact (proj1 (proj2 (proj2 (@X4_Decode_fields_are_trimmed Sample.gbk _ _ _ _ Hd)))).
Defined.

(** ** Msg0100.Encode on arbitrary messages *)

Lemma length_pad_max (bs : list byte) (width : Z) :
  Z.of_nat (length (Msg0100.pad bs width)) = Z.max width (Z.of_nat (length bs)).
Proof. unfold Msg0100.pad. rewrite length_app, length_replicate. lia. Qed.

(** X5: [Encode] pads a short field but never cuts a long one: each of the
    three fixed fields takes the larger of its width and the string's
    length, so the body of a message with a non-nil header is 4 + these +
    1 + the GBK plate bytes long. *)
Theorem X5_EncodeBody_never_truncates `{GBK} (x : Msg0100.t) (h : MsgHeader) :
  Msg0100.Header x = Some h ->
  exists body,
    Msg0100.EncodeBody x = Done (Some body) /\
    Z.of_nat (length body) =
      4 + Z.max (manu_width (VersionDesc (Attr h)))
                (Z.of_nat (String.length (Msg0100.ManufacturerID x)))
        + Z.max (mode_width (VersionDesc (Attr h)))
                (Z.of_nat (String.length (Msg0100.DeviceMode x)))
        + Z.max (id_width (VersionDesc (Attr h)))
                (Z.of_nat (String.length (Msg0100.DeviceID x)))
        + 1 + Z.of_nat (length (gbk_encode (Msg0100.PlateNumber x))).
Proof.
  intros Hh. eexists. split; [apply (EncodeBody_encoded x h Hh)|].
  unfold encoded, manu_width, mode_width, id_width.
  destruct (field_widths (VersionDesc (Attr h))) as [[a b] c]. cbn [fst snd].
  rewrite <- !length_list_byte_of_string.
  rewrite !length_app, !Nat2Z.inj_add, !length_pad_max. cbn. lia.
Qed.

(** X5 at a manufacturer id of 8 bytes in the 2013 layout: the body is 48
    bytes, three more than the layout. *)
Lemma X5_never_truncates_witness :
  exists body,
    @Msg0100.EncodeBody Sample.gbk Sample2.reg2013_long_manu = Done (Some body) /\
    Z.of_nat (length body) = 48.
Proof.
  destruct (@X5_EncodeBody_never_truncates Sample.gbk Sample2.reg2013_long_manu
              (Sample.header 0x0100 Version2013 48 Sample.phone) eq_refl)
    as (body & Henc & Hlen).
  exists body. split; [exact Henc | exact Hlen].
Defined.

Lemma WriteWord_inj (w1 w2 : Z) :
  0 <= w1 < 65536 -> 0 <= w2 < 65536 ->
  hex.WriteWord [] w1 = hex.WriteWord [] w2 -> w1 = w2.
Proof.
  intros H1 H2. unfold hex.WriteWord. cbn [app]. intros [= Hhi Hlo].
  rewrite <- (word_bytes w1 H1), <- (word_bytes w2 H2), Hhi, Hlo. reflexivity.
Qed.

Lemma trim_pad (s : string) (width : Z) :
  fits s width ->
  TrimRight_nul (string_of_list_byte (Msg0100.pad (list_byte_of_string s) width)) = s.
Proof.
  intros [Hnul _]. unfold Msg0100.pad.
  rewrite string_of_list_byte_app, string_of_list_byte_of_string,
    string_of_replicate_nul, TrimRight_nul_padded by exact Hnul.
  reflexivity.
Qed.

Lemma pad_inj (s1 s2 : string) (width : Z) :
  fits s1 width -> fits s2 width ->
  Msg0100.pad (list_byte_of_string s1) width = Msg0100.pad (list_byte_of_string s2) width ->
  s1 = s2.
Proof.
  intros H1 H2 Heq. rewrite <- (trim_pad s1 width H1), <- (trim_pad s2 width H2), Heq.
  reflexivity.
Qed.

Lemma length_pad_fits (s : string) (width : Z) :
  fits s width -> Z.of_nat (length (Msg0100.pad (list_byte_of_string s) width)) = width.
Proof.
  intros [_ Hlen]. apply length_pad. rewrite length_list_byte_of_string. exact Hlen.
Qed.

(** X6: the body that [Encode] builds determines the message.  Two
    messages of one protocol version whose fixed fields fit their widths
    and hold no NUL byte, with the same body, agree on province, city,
    manufacturer, model, device id and plate color, and their plate
    numbers have the same GBK bytes; the plate numbers themselves agree
    when GBK transcoding gives both of them back. *)
Theorem X6_EncodeBody_injective `{GBK}
    (x y : Msg0100.t) (hx hy : MsgHeader) (body : list byte) :
  Msg0100.Header x = Some hx ->
  Msg0100.Header y = Some hy ->
  VersionDesc (Attr hx) = VersionDesc (Attr hy) ->
  fixed_fields_fit x (VersionDesc (Attr hx)) ->
  fixed_fields_fit y (VersionDesc (Attr hy)) ->
  Msg0100.EncodeBody x = Done (Some body) ->
  Msg0100.EncodeBody y = Done (Some body) ->
  Msg0100.ProvinceID x = Msg0100.ProvinceID y /\
  Msg0100.CityID x = Msg0100.CityID y /\
  Msg0100.ManufacturerID x = Msg0100.ManufacturerID y /\
  Msg0100.DeviceMode x = Msg0100.DeviceMode y /\
  Msg0100.DeviceID x = Msg0100.DeviceID y /\
  Msg0100.PlateColor x = Msg0100.PlateColor y /\
  gbk_encode (Msg0100.PlateNumber x) = gbk_encode (Msg0100.PlateNumber y) /\
  (gbk_decode (gbk_encode (Msg0100.PlateNumber x)) = Msg0100.PlateNumber x ->
   gbk_decode (gbk_encode (Msg0100.PlateNumber y)) = Msg0100.PlateNumber y ->
   same_fields x y).
Proof.
  intros Hx Hy Hv (Hxp & Hxc & Hxm & Hxd & Hxi) (Hyp & Hyc & Hym & Hyd & Hyi).
  rewrite (EncodeBody_encoded x hx Hx), (EncodeBody_encoded y hy Hy), <- Hv.
  intros [= <-] [= Heq]. rewrite <- Hv in *.
  unfold encoded, manu_width, mode_width, id_width in *.
  destruct (field_widths (VersionDesc (Attr hx))) as [[a b] c]. cbn [fst snd] in *.
  apply app_inj_1 in Heq as [Hp Heq]; [|reflexivity].
  apply app_inj_1 in Heq as [Hc Heq]; [|reflexivity].
  apply app_inj_1 in Heq as [Hm Heq];
    [|apply Nat2Z.inj; rewrite !length_pad_fits by assumption; reflexivity].
  apply app_inj_1 in Heq as [Hd Heq];
    [|apply Nat2Z.inj; rewrite !length_pad_fits by assumption; reflexivity].
  apply app_inj_1 in Heq as [Hi Heq];
    [|apply Nat2Z.inj; rewrite !length_pad_fits by assumption; reflexivity].
  injection Heq as Hcol Hg.
  assert (Ep : Msg0100.ProvinceID x = Msg0100.ProvinceID y)
    by (symmetry; apply WriteWord_inj; assumption).
  assert (Ec : Msg0100.CityID x = Msg0100.CityID y)
    by (symmetry; apply WriteWord_inj; assumption).
  assert (Em : Msg0100.ManufacturerID x = Msg0100.ManufacturerID y)
    by (symmetry; eapply pad_inj; eassumption).
  assert (Ed : Msg0100.DeviceMode x = Msg0100.DeviceMode y)
    by (symmetry; eapply pad_inj; eassumption).
  assert (Ei : Msg0100.DeviceID x = Msg0100.DeviceID y)
    by (symmetry; eapply pad_inj; eassumption).
  assert (Ecol : Msg0100.PlateColor x = Msg0100.PlateColor y) by congruence.
  assert (Eg : gbk_encode (Msg0100.PlateNumber x) = gbk_encode (Msg0100.PlateNumber y))
    by congruence.
  do 7 (split; [assumption|]).
  intros Hxg Hyg. unfold same_fields. do 6 (split; [assumption|]).
  rewrite <- Hxg, <- Hyg, Eg. reflexivity.
Qed.

(** X6 at the registration of scenario 1 under two different headers. *)
Lemma X6_injective_witness :
  same_fields Sample.reg2013
    (Sample.registration Version2013 0 "MODEL-2013-VER-A" "A1234567").
Proof.
  apply (@X6_EncodeBody_injective Sample.gbk Sample.reg2013
           (Sample.registration Version2013 0 "MODEL-2013-VER-A" "A1234567")
           (Sample.header 0x0100 Version2013 45 "013800138000")
           (Sample.header 0x0100 Version2013 0 "013800138000")
           (Sample.body_of Sample.reg2013)).
  - reflexivity.
  - reflexivity.
  - reflexivity.
  - repeat split; try reflexivity; vm_compute; discriminate.
  - repeat split; try reflexivity; vm_compute; discriminate.
  - reflexivity.
  - reflexivity.
  - reflexivity.
  - reflexivity.
Defined.

(** ** genAuthCode *)

Lemma string_app_assoc (s t u : string) : ((s +:+ t) +:+ u) = (s +:+ (t +:+ u)).
Proof.
  induction s as [|c s IH]; [reflexivity|].
  change (String c ((s +:+ t) +:+ u) = String c (s +:+ (t +:+ u))). f_equal. exact IH.
Qed.

(** X7: the auth code does not tell the device id from the plate number
    when one of them contains the separator: a device with id a_b and
    plate c gets the code of a device with id a and plate b_c on the same
    phone number, whatever the hash function. *)
Theorem X7_genAuthCode_separator_collision `{Env}
    (d1 d2 : Device.t) (a b c : string) :
  Device.ID d1 = a +:+ "_" +:+ b ->
  Device.PlateNumber d1 = c ->
  Device.ID d2 = a ->
  Device.PlateNumber d2 = b +:+ "_" +:+ c ->
  Device.PhoneNumber d1 = Device.PhoneNumber d2 ->
  genAuthCode d1 = genAuthCode d2.
Proof.
  intros H1 H2 H3 H4 H5. unfold genAuthCode.
  rewrite H1, H2, H3, H4, H5, !string_app_assoc. reflexivity.
Qed.

(** X7 at the ids DEV_0001 and DEV with the plates A1 and 0001_A1. *)
Lemma X7_collision_witness :
  @genAuthCode Sample.env Sample2.device_a = @genAuthCode Sample.env Sample2.device_b.
Proof.
  apply (@X7_genAuthCode_separator_collision Sample.env
           Sample2.device_a Sample2.device_b "DEV" "0001" "A1");
    reflexivity.
Defined.

(** ** The dispatcher, in general *)

Section dispatcher_general.
Context `{Env} `{Methods} `{GBK}.

(** The descriptors: the inbound payload has the type of the key, the
    outbound payload the type of the reply, and a handler is present
    exactly when an outbound payload is. *)
Lemma initProcessOption_descriptor (id : Z) (act : action) :
  initProcessOption !! id = Some act ->
  exists gen,
    genData act = Some gen /\
    msg_id_of (Incoming (gen tt)) = id /\
    option_map msg_id_of (Outgoing (gen tt)) = reply_id id /\
    (is_Some (process act) <-> is_Some (Outgoing (gen tt))).
Proof.
  unfold initProcessOption. cbv zeta.
  repeat (rewrite lookup_insert; case_decide;
          [intros [= <-]; subst id; eexists; split; [reflexivity|]; cbn;
           split; [reflexivity|]; split; [reflexivity|];
           split; intros [? ?]; first [discriminate | eauto] |]).
  rewrite lookup_empty. discriminate.
Qed.

(** The interface methods keep the dynamic type of their receiver. *)
Lemma Decode_keeps_type (m m' : JT808Msg) (pkt pkt' : PacketData) (e : option error) :
  Decode m pkt = Done (m', pkt', e) -> msg_id_of m' = msg_id_of m.
Proof.
  unfold Decode, via. destruct m; cbn [msg_id_of];
    match goal with
    | |- ((?c ≫= _) ≫= _) = _ -> _ => destruct c as [[? ?]|]
    | |- (?c ≫= _) = _ -> _ => destruct c as [[[? ?] ?]|]
    end; cbn [mbind Go_bind]; try discriminate;
    intros [= <- _ _]; reflexivity.
Qed.

Lemma GenOutgoing_keeps_type (out out' inc : JT808Msg) (e : option error) :
  GenOutgoing out inc = Done (out', e) -> msg_id_of out' = msg_id_of out.
Proof.
  unfold GenOutgoing, via. destruct out; cbn [msg_id_of];
    repeat match goal with
           | |- (?c ≫= _) = _ -> _ =>
               destruct c as [[? ?]|]; cbn [mbind Go_bind]; try discriminate
           end;
    intros [= <- _]; reflexivity.
Qed.

End dispatcher_general.

Lemma wrapped_lib_is_no_sentinel (l : lib_error) (msg : string) (target : error) :
  target = ErrMsgIDNotSupportted \/ target = ErrNotAuthorized \/ target = ErrActiveClose ->
  errors_Is (Wrap (Lib l) msg) target = false.
Proof. intros [-> | [-> | ->]]; cbn; repeat case_decide; congruence. Qed.

Lemma wrapped_is (e : error) (msg : string) (target : error) :
  target = ErrMsgIDNotSupportted \/ target = ErrNotAuthorized \/ target = ErrActiveClose ->
  errors_Is (Wrap e msg) target = errors_Is e target.
Proof.
  intros Ht. cbn [errors_Is]. case_decide; [|reflexivity].
  destruct Ht as [-> | [-> | ->]]; discriminate.
Qed.

Lemma not_found_error (cache : storage.DeviceCache) (phone msg : string) (e : error) :
  Wrapf (storage.GetDeviceByPhone cache phone).2 msg = Some e ->
  e = Wrap (Lib ErrDeviceNotFound) msg.
Proof.
  unfold storage.GetDeviceByPhone.
  destruct (storage.cacheByPhone cache !! phone); cbn; congruence.
Qed.

(** The four facts of [handler_effects] for a handler that returns the
    nil error. *)
Ltac handler_ok :=
  split; [reflexivity|]; split; [reflexivity|];
  split; [intros [? ?]; discriminate | intros ? ?; discriminate].

Section handler_effects.
Context `{Env} `{Methods}.

(** What every handler of the dispatch table leaves alone: the inbound
    payload, the type of the outbound payload and, when it returns an
    error, the singletons.  Its error is never one of the sentinels, except
    [ErrActiveClose] from the 0x8100 handler. *)
Lemma handler_effects (id : Z) (act : action) (f : handler)
    (ctx : Context) (data data' : ProcessData) (w w' : World) (err : option error) :
  initProcessOption !! id = Some act ->
  process act = Some f ->
  f ctx data w = Done (err, data', w') ->
  Incoming data' = Incoming data /\
  option_map msg_id_of (Outgoing data') = option_map msg_id_of (Outgoing data) /\
  (is_Some err -> w' = w) /\
  (forall e, err = Some e ->
     errors_Is e ErrMsgIDNotSupportted = false /\
     errors_Is e ErrNotAuthorized = false /\
     (errors_Is e ErrActiveClose = true -> id = 0x8100)).
Proof.
  intros Hact Hproc.
  assert (Hnf : forall phone e,
            Wrapf (storage.GetDeviceByPhone (devices w) phone).2 (not_found_msg phone) = Some e ->
            errors_Is e ErrMsgIDNotSupportted = false /\
            errors_Is e ErrNotAuthorized = false /\
            (errors_Is e ErrActiveClose = true -> id = 33024)).
  { intros phone e He. apply not_found_error in He. subst e.
    rewrite !wrapped_lib_is_no_sentinel by tauto. repeat split. discriminate. }
  destruct (initProcessOption_process _ _ _ Hact Hproc)
    as [[-> ->]|[[-> ->]|[[-> ->]|[[-> ->]|[[-> ->]|[-> ->]]]]]].
  - unfold processMsg0002.
    destruct (GetHeader (Incoming data)) as [h|]; cbn [deref mbind Go_bind]; [|discriminate].
    specialize (Hnf (PhoneNumber h)).
    destruct (storage.GetDeviceByPhone (devices w) (PhoneNumber h)) as [dev e0].
    destruct (Is e0 (Lib ErrDeviceNotFound)).
    + intros [= <- <- <-]. split; [reflexivity|]. split; [reflexivity|].
      split; [reflexivity | exact Hnf].
    + destruct dev; cbn [deref mbind Go_bind]; [|discriminate].
      intros [= <- <- <-]. handler_ok.
  - unfold processMsg0003.
    destruct (GetHeader (Incoming data)) as [h|]; cbn [deref mbind Go_bind]; [|discriminate].
    specialize (Hnf (PhoneNumber h)).
    destruct (storage.GetDeviceByPhone (devices w) (PhoneNumber h)) as [dev e0].
    destruct (Is e0 (Lib ErrDeviceNotFound)).
    + intros [= <- <- <-]. split; [reflexivity|]. split; [reflexivity|].
      split; [reflexivity | exact Hnf].
    + destruct dev; cbn [deref mbind Go_bind]; [|discriminate].
      intros [= <- <- <-]. handler_ok.
  - unfold processMsg0100.
    destruct (Incoming data) eqn:Hin; try discriminate.
    destruct (Outgoing data) as [[]|] eqn:Hout; try discriminate.
    destruct (storage.HasPlate _ _); [intros [= <- <- <-]; cbn; rewrite Hin; handler_ok|].
    destruct (Msg0100.Header m) as [h|]; cbn [deref mbind Go_bind]; [|discriminate].
    destruct (storage.HasPhone _ _); [intros [= <- <- <-]; cbn; rewrite Hin; handler_ok|].
    destruct ctx; cbn [deref mbind Go_bind]; [|discriminate].
    intros [= <- <- <-]. cbn. rewrite Hin. handler_ok.
  - unfold processMsg0102.
    destruct (Incoming data) eqn:Hin; try discriminate.
    destruct (Msg0102.Header m) as [h|]; cbn [deref mbind Go_bind]; [|discriminate].
    specialize (Hnf (PhoneNumber h)).
    destruct (storage.GetDeviceByPhone (devices w) (PhoneNumber h)) as [dev e0].
    destruct (Is e0 (Lib ErrDeviceNotFound)).
    { intros [= <- <- <-]. rewrite Hin. split; [reflexivity|]. split; [reflexivity|].
      split; [reflexivity | exact Hnf]. }
    destruct (Outgoing data) as [[]|] eqn:Hout; try discriminate.
    destruct dev; cbn [deref mbind Go_bind]; [|discriminate].
    case_decide; intros [= <- <- <-]; cbn; rewrite ?Hin, ?Hout; handler_ok.
  - unfold handleMsg0200.
    destruct (Incoming data) eqn:Hin; try discriminate.
    destruct (Msg0200.Header m) as [h|]; cbn [deref mbind Go_bind]; [|discriminate].
    specialize (Hnf (PhoneNumber h)).
    destruct (storage.GetDeviceByPhone (devices w) (PhoneNumber h)) as [dev e0].
    destruct (Is e0 (Lib ErrDeviceNotFound)).
    { intros [= <- <- <-]. rewrite Hin. split; [reflexivity|]. split; [reflexivity|].
      split; [reflexivity | exact Hnf]. }
    destruct dev; cbn [deref mbind Go_bind]; [|discriminate].
    destruct (GISMeta.ACCStatus _ =? 0); intros [= <- <- <-]; rewrite ?Hin; handler_ok.
  - clear Hnf. unfold processMsg8100.
    destruct (Incoming data) eqn:Hin; try discriminate.
    destruct (Outgoing data) as [[]|] eqn:Hout; try discriminate.
    destruct (Msg8100.Header m) as [h|]; cbn [deref mbind Go_bind]; [|discriminate].
    destruct (storage.GetDeviceByPhone (devices w) (PhoneNumber h)) as [dev e0].
    destruct (Is e0 (Lib ErrDeviceNotFound)).
    { intros [= <- <- <-]. rewrite Hin, Hout.
      split; [reflexivity|]. split; [reflexivity|]. split; [reflexivity|].
      intros e1 [= <-]. repeat split; reflexivity. }
    destruct dev; cbn [deref mbind Go_bind]; [|discriminate].
    destruct (GenOutgoing _ _) as [[out' e']|] eqn:Hgen; cbn [mbind Go_bind]; [|discriminate].
    pose proof (GenOutgoing_keeps_type _ _ _ _ Hgen) as Hty. cbn [msg_id_of] in Hty.
    assert (He' : forall e1, e' = Some e1 -> exists l, e1 = Lib l).
    { revert Hgen. unfold GenOutgoing, via.
      destruct (GenOutgoing0102 _ _) as [[? [l|]]|]; cbn [mbind Go_bind option_map];
        try discriminate; intros [= _ <-] e1 [= <-]. eauto. }
    destruct e' as [e1|]; intros [= <- <- <-]; cbn; rewrite ?Hin, ?Hty.
    + split; [reflexivity|]. split; [reflexivity|]. split; [reflexivity|].
      intros e2 [= <-]. destruct (He' e1 eq_refl) as [l ->].
      rewrite !wrapped_lib_is_no_sentinel by tauto. repeat split.
    + handler_ok.
Qed.

End handler_effects.

Lemma Msg0100_Decode_error `{GBK} (m m' : Msg0100.t) (pkt pkt' : PacketData) (e : error) :
  Msg0100.Decode m pkt = Done (m', pkt', Some e) -> e = Lib ErrDecodeMsg.
Proof.
  unfold Msg0100.Decode. intros Hd.
  destruct (hex.ReadWord (Body pkt) 0) as [[w1 i1]|]; [|discriminate].
  cbn [mbind Go_bind] in Hd.
  destruct (hex.ReadWord (Body pkt) i1) as [[w2 i2]|]; [|discriminate].
  cbn [mbind Go_bind] in Hd.
  destruct (Msg0100.widths (Header pkt) i2) as [[[[a b] c] p]|]; [|congruence].
  repeat match type of Hd with
         | (?c ≫= _) = _ => destruct c as [[? ?]|]; cbn [mbind Go_bind] in Hd;
                             try discriminate
         end.
Qed.

Section Process_general.
Context `{Env} `{Methods} `{GBK}.

(** The errors of the interface methods come from the imported packages. *)
Lemma Decode_error_is_lib (m m' : JT808Msg) (pkt pkt' : PacketData) (e : error) :
  Decode m pkt = Done (m', pkt', Some e) -> exists l, e = Lib l.
Proof.
  unfold Decode, via. destruct m;
    match goal with
    | |- ((?c ≫= _) ≫= _) = _ -> _ => destruct c as [[? [l|]]|]
    | |- (?c ≫= _) = _ -> _ => destruct c as [[[? ?] ?]|] eqn:Hd
    end; cbn [mbind Go_bind option_map]; try discriminate;
    try (intros [= _ _ <-]; eauto; fail).
  intros [= _ _ ->]. rewrite (Msg0100_Decode_error _ _ _ _ _ Hd). eauto.
Qed.

Lemma GenOutgoing_error_is_lib (out out' inc : JT808Msg) (e : error) :
  GenOutgoing out inc = Done (out', Some e) -> exists l, e = Lib l.
Proof.
  unfold GenOutgoing, via, Msg0100.GenOutgoing. destruct out;
    try match goal with
        | |- (?c ≫= _) = _ -> _ => destruct c as [[? [l|]]|]
        end; cbn [mbind Go_bind option_map]; try discriminate;
    intros [= _ <-]; eauto.
Qed.

(** The ways in which [Process] returns. *)
Lemma Process_returns (ctx : Context) (pkt : PacketData) (w w' : World)
    (d : option ProcessData) (e : option error) :
  JT808MsgProcessor_Process ctx pkt w = Done (d, e, w') ->
  exists act gen in_ pkt' derr,
    initProcessOption !! MsgID (Header pkt) = Some act /\
    genData act = Some gen /\
    Decode (Incoming (gen tt)) pkt = Done (in_, pkt', derr) /\
    ((exists l msg, d = None /\ e = Some (Wrap (Lib l) msg) /\ w' = w) \/
     (derr = None /\ Outgoing (gen tt) = None /\ d = None /\ e = None /\ w' = w) \/
     (exists out0 out1 l msg,
        derr = None /\ Outgoing (gen tt) = Some out0 /\
        GenOutgoing out0 in_ = Done (out1, Some (Lib l)) /\
        d = Some {| Incoming := in_; Outgoing := Some out1 |} /\
        e = Some (Wrap (Lib l) msg) /\ w' = w) \/
     (exists out0 out1 f herr data',
        derr = None /\ Outgoing (gen tt) = Some out0 /\
        GenOutgoing out0 in_ = Done (out1, None) /\
        process act = Some f /\
        f ctx {| Incoming := in_; Outgoing := Some out1 |} w = Done (herr, data', w') /\
        d = Some data' /\
        e = option_map (fun e0 => Wrap e0 "Fail to process data") herr)).
Proof.
  unfold JT808MsgProcessor_Process, Process.
  destruct (initProcessOption !! MsgID (Header pkt)) as [act|] eqn:Hact;
    cbn [deref mbind Go_bind]; [|discriminate].
  destruct (initProcessOption_genData _ _ Hact) as [gen Hgen]. rewrite Hgen.
  destruct (Decode _ pkt) as [[[in_ pkt'] derr]|] eqn:Hdec; cbn [mbind Go_bind];
    [|discriminate].
  intros Hrun. exists act, gen, in_, pkt', derr.
  split; [reflexivity|]. split; [exact Hgen|]. split; [exact Hdec|].
  destruct derr as [e0|].
  { destruct (Decode_error_is_lib _ _ _ _ _ Hdec) as [l ->].
    injection Hrun as <- <- <-. left. eauto. }
  destruct (log_incoming ctx in_) as [[l|]|]; cbn [mbind Go_bind] in Hrun;
    [injection Hrun as <- <- <-; left; eauto | | discriminate].
  cbn [Outgoing with_Incoming] in Hrun.
  destruct (Outgoing (gen ())) as [out0|] eqn:Hout.
  2:{ injection Hrun as <- <- <-. right. left. tauto. }
  destruct (GenOutgoing out0 in_) as [[out1 gerr]|] eqn:Hgo; cbn [mbind Go_bind] in Hrun;
    [|discriminate].
  unfold with_Outgoing in Hrun. cbn [Incoming] in Hrun.
  destruct gerr as [ge|].
  { destruct (GenOutgoing_error_is_lib _ _ _ _ Hgo) as [l ->].
    injection Hrun as <- <- <-. right. right. left.
    exists out0, out1, l, "Fail to generate outgoing msg". tauto. }
  destruct (process act) as [f|] eqn:Hproc; cbn [deref mbind Go_bind] in Hrun; [|discriminate].
  destruct (f ctx _ w) as [[[herr data'] w3]|] eqn:Hf; cbn [mbind Go_bind] in Hrun;
    [|discriminate].
  destruct (log_outgoing ctx); cbn [mbind Go_bind] in Hrun; [|discriminate].
  right. right. right. exists out0, out1, f, herr, data'.
  destruct herr; injection Hrun as <- <- <-; repeat split; assumption.
Qed.

End Process_general.

(** X8: an error that [Process] returns never is, nor wraps,
    [ErrMsgIDNotSupportted] or [ErrNotAuthorized], and it wraps
    [ErrActiveClose] only for a 0x8100 packet. *)
Theorem X8_Process_error_sentinels `{Env} `{Methods} `{GBK}
    (ctx : Context) (pkt : PacketData) (w w' : World)
    (d : option ProcessData) (e : error) :
  JT808MsgProcessor_Process ctx pkt w = Done (d, Some e, w') ->
  errors_Is e ErrMsgIDNotSupportted = false /\
  errors_Is e ErrNotAuthorized = false /\
  (errors_Is e ErrActiveClose = true -> MsgID (Header pkt) = 0x8100).
Proof.
  intros Hrun.
  destruct (Process_returns _ _ _ _ _ _ Hrun)
    as (act & gen & in_ & pkt' & derr & Hact & Hgen & Hdec & Hcase).
  destruct Hcase as [(l & msg & _ & [= ->] & _)
                    |[(_ & _ & _ & He & _)
                    |[(out0 & out1 & l & msg & _ & _ & _ & _ & [= ->] & _)
                    | (out0 & out1 & f & herr & data' & _ & _ & _ & Hproc & Hf & _ & He)]]].
  - rewrite !wrapped_lib_is_no_sentinel by tauto. repeat split. discriminate.
  - discriminate.
  - rewrite !wrapped_lib_is_no_sentinel by tauto. repeat split. discriminate.
  - destruct herr as [e0|]; [|discriminate]. injection He as ->.
    destruct (handler_effects _ _ _ _ _ _ _ _ _ Hact Hproc Hf) as (_ & _ & _ & Herr).
    destruct (Herr e0 eq_refl) as (H1' & H2' & H3').
    rewrite !wrapped_is by tauto. repeat split; assumption.
Qed.

(** X8 at a register acknowledgement from an unknown phone number: the
    error wraps [ErrActiveClose] and neither of the other sentinels. *)
Lemma X8_error_sentinels_witness :
  exists d e w',
    Sample.Process (Some Sample.session) Sample2.stranger_ack_packet Sample.registered
      = Done (d, Some e, w') /\
    errors_Is e ErrActiveClose = true /\
    errors_Is e ErrMsgIDNotSupportted = false /\
    errors_Is e ErrNotAuthorized = false.
Proof.
  assert (Hrun : exists d e w',
            Sample.Process (Some Sample.session) Sample2.stranger_ack_packet Sample.registered
              = Done (d, Some e, w') /\ errors_Is e ErrActiveClose = true).
  { eexists _, _, _. split; vm_compute; reflexivity. }
  destruct Hrun as (d & e & w' & Hrun & Hclose).
  exists d, e, w'. split; [exact Hrun|]. split; [exact Hclose|].
  destruct (@X8_Process_error_sentinels Sample.env Sample.methods Sample.gbk _ _ _ _ _ _ Hrun)
    as (H1 & H2 & _).
  split; assumption.
Defined.

(** X9: when [Process] returns process data, its inbound payload has the
    type of the packet's message id and its outbound payload is present
    and has the type of the reply that the table pairs with that id:
    0x8001 for 0x0002, 0x0003, 0x0102 and 0x0200, 0x8100 for 0x0100, 0x0102
    for 0x8100. *)
Theorem X9_Process_data_has_reply `{Env} `{Methods} `{GBK}
    (ctx : Context) (pkt : PacketData) (w w' : World)
    (data : ProcessData) (e : option error) :
  JT808MsgProcessor_Process ctx pkt w = Done (Some data, e, w') ->
  msg_id_of (Incoming data) = MsgID (Header pkt) /\
  exists out,
    Outgoing data = Some out /\
    reply_id (MsgID (Header pkt)) = Some (msg_id_of out).
Proof.
  intros Hrun.
  destruct (Process_returns _ _ _ _ _ _ Hrun)
    as (act & gen & in_ & pkt' & derr & Hact & Hgen & Hdec & Hcase).
  destruct (initProcessOption_descriptor _ _ Hact) as (gen' & Hgen' & Hin & Hout & _).
  rewrite Hgen in Hgen'. injection Hgen' as <-.
  pose proof (Decode_keeps_type _ _ _ _ _ Hdec) as Hty. rewrite Hin in Hty.
  destruct Hcase as [(l & msg & [=] & _)
                    |[(_ & _ & [=] & _)
                    |[(out0 & out1 & l & msg & _ & Hout0 & Hgo & [= ->] & _)
                    | (out0 & out1 & f & herr & data' & _ & Hout0 & Hgo & Hproc & Hf
                       & [= <-] & _)]]].
  - cbn. split; [exact Hty|]. exists out1. split; [reflexivity|].
    rewrite <- Hout, Hout0. cbn. rewrite (GenOutgoing_keeps_type _ _ _ _ Hgo). reflexivity.
  - destruct (handler_effects _ _ _ _ _ _ _ _ _ Hact Hproc Hf) as (Hi & Ho & _).
    cbn [Incoming Outgoing option_map] in Hi, Ho. rewrite Hi. split; [exact Hty|].
    destruct (Outgoing data) as [out|]; [|discriminate].
    exists out. split; [reflexivity|]. injection Ho as Ho.
    rewrite <- Hout, Hout0. cbn. rewrite Ho, (GenOutgoing_keeps_type _ _ _ _ Hgo).
    reflexivity.
Qed.

(** X9 at the registration of scenario 1: the reply is a 0x8100. *)
Lemma X9_data_has_reply_witness :
  exists data e w' out,
    Sample.Process (Some Sample.session) Sample2.reg2013_packet emptyWorld
      = Done (Some data, e, w') /\
    Outgoing data = Some out /\ msg_id_of out = 0x8100.
Proof.
  assert (Hrun : exists data e w',
            Sample.Process (Some Sample.session) Sample2.reg2013_packet emptyWorld
              = Done (Some data, e, w')).
  { eexists _, _, _. vm_compute. reflexivity. }
  destruct Hrun as (data & e & w' & Hrun).
  destruct (@X9_Process_data_has_reply Sample.env Sample.methods Sample.gbk _ _ _ _ _ _ Hrun)
    as (_ & out & Hout & Hid).
  exists data, e, w', out. split; [exact Hrun|]. split; [exact Hout|].
  injection Hid as <-. reflexivity.
Defined.

(** X10: [Process] changes the registry, the timer or the GIS rings only
    when it returns process data together with the nil error: with an
    error, or with nil process data, the singletons are as before. *)
Theorem X10_Process_error_leaves_singletons `{Env} `{Methods} `{GBK}
    (ctx : Context) (pkt : PacketData) (w w' : World)
    (d : option ProcessData) (e : option error) :
  JT808MsgProcessor_Process ctx pkt w = Done (d, e, w') ->
  d = None \/ is_Some e ->
  w' = w.
Proof.
  intros Hrun Hcond.
  destruct (Process_returns _ _ _ _ _ _ Hrun)
    as (act & gen & in_ & pkt' & derr & Hact & Hgen & Hdec & Hcase).
  destruct Hcase as [(l & msg & _ & _ & ->)
                    |[(_ & _ & _ & _ & ->)
                    |[(out0 & out1 & l & msg & _ & _ & _ & _ & _ & ->)
                    | (out0 & out1 & f & herr & data' & _ & _ & _ & Hproc & Hf & -> & ->)]]];
    try reflexivity.
  destruct (handler_effects _ _ _ _ _ _ _ _ _ Hact Hproc Hf) as (_ & _ & Hw & _).
  destruct Hcond as [[=] | [e0 He0]].
  destruct herr as [e1|]; [|discriminate]. apply Hw. eauto.
Qed.

(** X10 at a heartbeat from an unknown phone number. *)
Lemma X10_error_leaves_singletons_witness :
  exists d e,
    Sample.Process (Some Sample.session) Sample2.stranger_heartbeat_packet Sample.registered
      = Done (d, Some e, Sample.registered).
Proof.
  assert (Hrun : exists d e w',
            Sample.Process (Some Sample.session) Sample2.stranger_heartbeat_packet
              Sample.registered = Done (d, Some e, w')).
  { eexists _, _, _. vm_compute. reflexivity. }
  destruct Hrun as (d & e & w' & Hrun).
  exists d, e.
  rewrite <- (@X10_Process_error_leaves_singletons Sample.env Sample.methods Sample.gbk
                _ _ _ _ _ _ Hrun (or_intror (ex_intro _ e eq_refl))) at 2.
  exact Hrun.
Defined.

(** ** Handlers never panic on what the dispatcher hands them *)

Section handler_returns.
Context `{Env} `{Methods}.

Lemma missing_is_not_found (cache : storage.DeviceCache) (phone : string) :
  storage.cacheByPhone cache !! phone = None ->
  Is (storage.GetDeviceByPhone cache phone).2 (Lib ErrDeviceNotFound) = true.
Proof.
  intros Hnone. rewrite (GetDeviceByPhone_None _ _ Hnone). cbn.
  case_decide; congruence.
Qed.

(** With a session in the context, payloads of the types of the table and
    a non-nil header, each handler returns, provided the methods outside
    the sources do. *)
Lemma handler_returns (id : Z) (act : action) (f : handler) (session : Session.t)
    (data : ProcessData) (out : JT808Msg) (h : MsgHeader) (w : World) :
  initProcessOption !! id = Some act ->
  process act = Some f ->
  msg_id_of (Incoming data) = id ->
  Outgoing data = Some out ->
  reply_id id = Some (msg_id_of out) ->
  GetHeader (Incoming data) = Some h ->
  (forall o inc, exists r, GenOutgoing o inc = Done r) ->
  exists r, f (Some session) data w = Done r.
Proof.
  intros Hact Hproc Hin Hout Hreply Hh Hgen.
  destruct data as [inc outg]. cbn [Incoming Outgoing] in *. subst outg.
  destruct (storage.cacheByPhone (devices w) !! PhoneNumber h) as [d|] eqn:Hd.
  - pose proof (GetDeviceByPhone_Some _ _ _ Hd) as Hget.
    destruct (initProcessOption_process _ _ _ Hact Hproc)
      as [[-> ->]|[[-> ->]|[[-> ->]|[[-> ->]|[[-> ->]|[-> ->]]]]]];
      destruct inc; try discriminate Hin; cbn [GetHeader] in Hh;
      unfold Msg0100.GetHeader in Hh; destruct out; try discriminate Hreply.
    + unfold processMsg0002. cbn [Incoming GetHeader]. rewrite Hh.
      cbn [deref mbind Go_bind]. rewrite Hget. cbn [Is deref mbind Go_bind]. eauto.
    + unfold processMsg0003. cbn [Incoming GetHeader]. rewrite Hh.
      cbn [deref mbind Go_bind]. rewrite Hget. cbn [Is deref mbind Go_bind]. eauto.
    + unfold processMsg0100. cbn [Incoming Outgoing].
      destruct (storage.HasPlate _ _); [eauto|]. rewrite Hh. cbn [deref mbind Go_bind].
      destruct (storage.HasPhone _ _); eauto.
    + unfold processMsg0102. cbn [Incoming Outgoing]. rewrite Hh.
      cbn [deref mbind Go_bind]. rewrite Hget. cbn [Is deref mbind Go_bind].
      case_decide; eauto.
    + unfold handleMsg0200. cbn [Incoming]. rewrite Hh.
      cbn [deref mbind Go_bind]. rewrite Hget. cbn [Is deref mbind Go_bind].
      destruct (GISMeta.ACCStatus _ =? 0); eauto.
    + unfold processMsg8100. cbn [Incoming Outgoing]. rewrite Hh.
      cbn [deref mbind Go_bind]. rewrite Hget. cbn [Is deref mbind Go_bind].
      match goal with
      | |- context [GenOutgoing ?o ?i] => destruct (Hgen o i) as [[o' e'] ->]
      end.
      cbn [mbind Go_bind]. destruct e'; eauto.
  - pose proof (missing_is_not_found _ _ Hd) as His.
    destruct (storage.GetDeviceByPhone (devices w) (PhoneNumber h)) as [dev e0] eqn:Hget.
    cbn [snd] in His.
    destruct (initProcessOption_process _ _ _ Hact Hproc)
      as [[-> ->]|[[-> ->]|[[-> ->]|[[-> ->]|[[-> ->]|[-> ->]]]]]];
      destruct inc; try discriminate Hin; cbn [GetHeader] in Hh;
      unfold Msg0100.GetHeader in Hh; destruct out; try discriminate Hreply.
    + unfold processMsg0002. cbn [Incoming GetHeader]. rewrite Hh.
      cbn [deref mbind Go_bind]. rewrite Hget, His. eauto.
    + unfold processMsg0003. cbn [Incoming GetHeader]. rewrite Hh.
      cbn [deref mbind Go_bind]. rewrite Hget, His. eauto.
    + unfold processMsg0100. cbn [Incoming Outgoing].
      destruct (storage.HasPlate _ _); [eauto|]. rewrite Hh. cbn [deref mbind Go_bind].
      destruct (storage.HasPhone _ _); eauto.
    + unfold processMsg0102. cbn [Incoming Outgoing]. rewrite Hh.
      cbn [deref mbind Go_bind]. rewrite Hget, His. eauto.
    + unfold handleMsg0200. cbn [Incoming]. rewrite Hh.
      cbn [deref mbind Go_bind]. rewrite Hget, His. eauto.
    + unfold processMsg8100. cbn [Incoming Outgoing]. rewrite Hh.
      cbn [deref mbind Go_bind]. rewrite Hget, His. eauto.
Qed.

End handler_returns.

(** X11: on a packet with a supported message id [Process] returns (it
    does not panic) whenever the context holds a session, the payload's
    [Decode] returns and leaves a non-nil header when it succeeds, and the
    [GenOutgoing] methods return: no handler is nil where one is called, no
    type assertion fails and no nil device is dereferenced. *)
Theorem X11_Process_returns_on_supported_id `{Env} `{Methods} `{GBK}
    (session : Session.t) (pkt pkt' : PacketData) (w : World)
    (m0 m : JT808Msg) (derr : option error) :
  new_inbound (MsgID (Header pkt)) = Some m0 ->
  Decode m0 pkt = Done (m, pkt', derr) ->
  (derr = None -> is_Some (GetHeader m)) ->
  (forall o inc, exists r, GenOutgoing o inc = Done r) ->
  exists d e w', JT808MsgProcessor_Process (Some session) pkt w = Done (d, e, w').
Proof.
  intros Hnew Hdec Hhdr Hgen. unfold new_inbound in Hnew.
  destruct (initProcessOption !! MsgID (Header pkt)) as [act|] eqn:Hact; [|discriminate].
  cbn in Hnew.
  destruct (initProcessOption_descriptor _ _ Hact) as (gen & Hgd & Hin & Hout & Hproc).
  rewrite Hgd in Hnew. cbn in Hnew. injection Hnew as <-.
  unfold JT808MsgProcessor_Process, Process. rewrite Hact. cbn [deref mbind Go_bind].
  rewrite Hgd, Hdec. cbn [mbind Go_bind].
  destruct derr as [e0|]; [eauto|].
  assert (Hlog : exists r, log_incoming (Some session) m = Done r)
    by (unfold log_incoming; destruct DebugLevel; cbn [deref mbind Go_bind]; eauto).
  destruct Hlog as [[l|] ->]; cbn [mbind Go_bind]; [eauto|].
  cbn [with_Incoming Outgoing].
  destruct (Outgoing (gen ())) as [out0|] eqn:Hout0; [|eauto].
  destruct (Hgen out0 m) as [[out1 gerr] Hgo]. rewrite Hgo. cbn [mbind Go_bind].
  destruct gerr as [ge|]; [eauto|].
  destruct (proj2 Hproc) as [f Hf]; [eauto|]. rewrite Hf. cbn [deref mbind Go_bind].
  destruct (Hhdr eq_refl) as [h Hh].
  destruct (handler_returns _ _ f session
              {| Incoming := m; Outgoing := Some out1 |} out1 h w Hact Hf)
    as [[[herr data'] w'] Hrun]; try assumption; try reflexivity.
  - cbn. rewrite (Decode_keeps_type _ _ _ _ _ Hdec). exact Hin.
  - rewrite <- Hout. cbn. rewrite (GenOutgoing_keeps_type _ _ _ _ Hgo). reflexivity.
  - unfold with_Outgoing, with_Incoming. cbn [Incoming Outgoing].
    rewrite Hrun. cbn [mbind Go_bind].
    assert (Hlo : log_outgoing (Some session) = Done tt)
      by (unfold log_outgoing; destruct DebugLevel; reflexivity).
    rewrite Hlo. cbn [mbind Go_bind]. destruct herr; eauto.
Qed.

(** X11 at the registration of scenario 1. *)
Lemma X11_Process_returns_witness :
  exists d e w',
    Sample.Process (Some Sample.session) Sample2.reg2013_packet emptyWorld = Done (d, e, w').
Proof.
  eapply (@X11_Process_returns_on_supported_id Sample.env Sample.methods Sample.gbk
            Sample.session Sample2.reg2013_packet Sample2.reg2013_packet emptyWorld
            (OfMsg0100 Msg0100.zero)).
  - reflexivity.
  - vm_compute. reflexivity.
  - intros _. cbn. eauto.
  - intros o inc. destruct o; eexists; reflexivity.
Defined.

(** ** A phone number that is not registered, seen from the dispatcher *)

Section unknown_phone.
Context `{Env} `{Methods}.

Lemma handler_unknown_phone (id : Z) (act : action) (f : handler) (ctx : Context)
    (data : ProcessData) (out : JT808Msg) (h : MsgHeader) (w : World) :
  initProcessOption !! id = Some act ->
  process act = Some f ->
  id <> 0x0100 ->
  msg_id_of (Incoming data) = id ->
  Outgoing data = Some out ->
  reply_id id = Some (msg_id_of out) ->
  GetHeader (Incoming data) = Some h ->
  storage.cacheByPhone (devices w) !! PhoneNumber h = None ->
  f ctx data w =
    Done (Some (if decide (id = 0x8100) then ErrActiveClose
                else Wrap (Lib ErrDeviceNotFound) (not_found_msg (PhoneNumber h))),
          data, w).
Proof.
  intros Hact Hproc Hne Hin Hout Hreply Hh Hd.
  destruct data as [inc outg]. cbn [Incoming Outgoing] in *. subst outg.
  pose proof (missing_is_not_found _ _ Hd) as His.
  pose proof (GetDeviceByPhone_None _ _ Hd) as Hget. rewrite Hget in His. cbn [snd] in His.
  destruct (initProcessOption_process _ _ _ Hact Hproc)
    as [[-> ->]|[[-> ->]|[[-> ->]|[[-> ->]|[[-> ->]|[-> ->]]]]]];
    try congruence;
    destruct inc; try discriminate Hin; cbn [GetHeader] in Hh;
    destruct out; try discriminate Hreply.
  - unfold processMsg0002. cbn [Incoming GetHeader]. rewrite Hh.
    cbn [deref mbind Go_bind]. rewrite Hget, His. reflexivity.
  - unfold processMsg0003. cbn [Incoming GetHeader]. rewrite Hh.
    cbn [deref mbind Go_bind]. rewrite Hget, His. reflexivity.
  - unfold processMsg0102. cbn [Incoming Outgoing]. rewrite Hh.
    cbn [deref mbind Go_bind]. rewrite Hget, His. reflexivity.
  - unfold handleMsg0200. cbn [Incoming]. rewrite Hh.
    cbn [deref mbind Go_bind]. rewrite Hget, His. reflexivity.
  - unfold processMsg8100. cbn [Incoming Outgoing]. rewrite Hh.
    cbn [deref mbind Go_bind]. rewrite Hget, His. reflexivity.
Qed.

End unknown_phone.

(** X12: for a heartbeat, logout, authentication, location report or
    register acknowledgement that decodes and whose reply is generated,
    from a phone number without a device, [Process] returns both the
    process data (with the generated reply) and an error; the error wraps
    [ErrDeviceNotFound], or [ErrActiveClose] for 0x8100, and the singletons
    are unchanged. *)
Theorem X12_Process_unknown_phone `{Env} `{Methods} `{GBK}
    (ctx : Context) (pkt pkt' : PacketData) (w : World)
    (m0 m out0 out1 : JT808Msg) (h : MsgHeader) :
  MsgID (Header pkt) = 0x0002 \/ MsgID (Header pkt) = 0x0003 \/
  MsgID (Header pkt) = 0x0102 \/ MsgID (Header pkt) = 0x0200 \/
  MsgID (Header pkt) = 0x8100 ->
  new_inbound (MsgID (Header pkt)) = Some m0 ->
  new_outbound (MsgID (Header pkt)) = Some out0 ->
  Decode m0 pkt = Done (m, pkt', None) ->
  log_incoming ctx m = Done None ->
  GenOutgoing out0 m = Done (out1, None) ->
  GetHeader m = Some h ->
  storage.cacheByPhone (devices w) !! PhoneNumber h = None ->
  exists e,
    JT808MsgProcessor_Process ctx pkt w
      = Done (Some {| Incoming := m; Outgoing := Some out1 |}, Some e, w) /\
    errors_Is e (if decide (MsgID (Header pkt) = 0x8100)
                 then ErrActiveClose else Lib ErrDeviceNotFound) = true.
Proof.
  intros Hid Hnew Hnewo Hdec Hlog Hgo Hh Hd.
  unfold new_inbound in Hnew. unfold new_outbound in Hnewo.
  destruct (initProcessOption !! MsgID (Header pkt)) as [act|] eqn:Hact; [|discriminate].
  cbn in Hnew, Hnewo.
  destruct (initProcessOption_descriptor _ _ Hact) as (gen & Hgd & Hin & Hout & Hproc).
  rewrite Hgd in Hnew, Hnewo. cbn in Hnew, Hnewo. injection Hnew as <-.
  destruct (proj2 Hproc) as [f Hf]; [eauto|].
  eexists. split.
  - unfold JT808MsgProcessor_Process, Process. rewrite Hact. cbn [deref mbind Go_bind].
    rewrite Hgd, Hdec. cbn [mbind Go_bind]. rewrite Hlog. cbn [mbind Go_bind].
    cbn [with_Incoming Outgoing]. rewrite Hnewo, Hgo. cbn [mbind Go_bind].
    rewrite Hf. cbn [deref mbind Go_bind].
    unfold with_Outgoing, with_Incoming. cbn [Incoming Outgoing].
    rewrite (handler_unknown_phone _ _ f ctx
               {| Incoming := m; Outgoing := Some out1 |} out1 h w Hact Hf);
      try assumption; try reflexivity.
    + cbn [mbind Go_bind]. rewrite (log_outgoing_after_incoming _ _ _ Hlog).
      cbn [mbind Go_bind]. reflexivity.
    + lia.
    + cbn. rewrite (Decode_keeps_type _ _ _ _ _ Hdec). exact Hin.
    + rewrite <- Hout, Hnewo. cbn. rewrite (GenOutgoing_keeps_type _ _ _ _ Hgo).
      reflexivity.
  - case_decide; cbn; repeat case_decide; congruence.
Qed.

(** X12 at a heartbeat from an unknown phone number. *)
Lemma X12_unknown_phone_witness :
  exists e,
    Sample.Process (Some Sample.session) Sample2.stranger_heartbeat_packet Sample.registered
      = Done (Some {| Incoming := OfMsg0002 {| Msg0002.Header :=
                                   Some (Header Sample2.stranger_heartbeat_packet) |};
                      Outgoing := Some (OfMsg8001
                        {| Msg8001.Header := Some (Header Sample2.stranger_heartbeat_packet);
                           Msg8001.Result := 0 |}) |},
              Some e, Sample.registered) /\
    errors_Is e (Lib ErrDeviceNotFound) = true.
Proof.
  refine (@X12_Process_unknown_phone Sample.env Sample.methods Sample.gbk
            (Some Sample.session) Sample2.stranger_heartbeat_packet
            Sample2.stranger_heartbeat_packet Sample.registered
            (OfMsg0002 Msg0002.zero) _ (OfMsg8001 Msg8001.zero) _
            (Header Sample2.stranger_heartbeat_packet) _ _ _ _ _ _ _ _).
  - left. reflexivity.
  - reflexivity.
  - reflexivity.
  - reflexivity.
  - reflexivity.
  - reflexivity.
  - reflexivity.
  - vm_compute. reflexivity.
Defined.

(** ** The two indexes of the registry *)

Lemma indexed_empty : indexed storage.emptyDeviceCache.
Proof.
  split.
  - intros phone d. cbn. rewrite lookup_empty. discriminate.
  - intros plate phone. cbn. rewrite !lookup_empty. split; [discriminate|].
    intros (d & Hd & _). discriminate.
Qed.

(** Caching a device whose phone number and plate are both free. *)
Lemma indexed_put_new {clock : Z} (cache : storage.DeviceCache) (d : Device.t) :
  indexed cache ->
  storage.cacheByPlate cache !! Device.PlateNumber d = None ->
  storage.cacheByPhone cache !! Device.PhoneNumber d = None ->
  indexed (storage.CacheDevice clock cache d).
Proof.
  intros [Hkey Hplate] Hfree_plate Hfree_phone. split.
  - intros phone d'. cbn. rewrite lookup_insert. case_decide.
    + intros [= <-]. assumption.
    + apply Hkey.
  - intros plate phone. cbn. rewrite !lookup_insert. split.
    + case_decide as Hp.
      * intros [= <-]. exists d. rewrite decide_True by reflexivity. auto.
      * intros Hold. apply Hplate in Hold as (d0 & Hd0 & Hpl). exists d0.
        case_decide as Hq; [|auto]. subst phone. congruence.
    + intros (d0 & Hd0 & Hpl). case_decide as Hq.
      * injection Hd0 as <-. rewrite decide_True by exact Hpl.
        subst phone. reflexivity.
      * assert (Hold : storage.cacheByPlate cache !! plate = Some phone)
          by (apply Hplate; eauto).
        case_decide as Hp; [|exact Hold]. subst plate. congruence.
Qed.

(** Caching again a device that keeps the phone number and the plate of
    the one stored. *)
Lemma indexed_put_again {clock : Z} (cache : storage.DeviceCache) (d d' : Device.t) :
  indexed cache ->
  storage.cacheByPhone cache !! Device.PhoneNumber d = Some d ->
  Device.PhoneNumber d' = Device.PhoneNumber d ->
  Device.PlateNumber d' = Device.PlateNumber d ->
  indexed (storage.CacheDevice clock cache d').
Proof.
  intros [Hkey Hplate] Hd Hphone Hpl. unfold plate_index_matches in Hplate.
  assert (Hidx : storage.cacheByPlate cache !! Device.PlateNumber d = Some (Device.PhoneNumber d))
    by (apply Hplate; eauto).
  split.
  - intros phone d0. cbn. rewrite lookup_insert. case_decide.
    + intros [= <-]. congruence.
    + apply Hkey.
  - intros plate phone. cbn. rewrite Hphone, Hpl, (insert_id _ _ _ Hidx).
    rewrite lookup_insert. rewrite Hplate. split.
    + intros (d0 & Hd0 & Hp0). case_decide as Hq.
      * subst phone. exists d'. rewrite Hd in Hd0. injection Hd0 as <-.
        split; [reflexivity | congruence].
      * eauto.
    + intros (d0 & Hd0 & Hp0). case_decide as Hq.
      * subst phone. injection Hd0 as <-. exists d. split; [exact Hd | congruence].
      * eauto.
Qed.

(** Deleting the device of a phone number. *)
Lemma indexed_delete (cache : storage.DeviceCache) (phone : string) :
  indexed cache -> indexed (storage.DelDeviceByPhone cache phone).
Proof.
  intros [Hkey Hplate]. unfold storage.DelDeviceByPhone.
  destruct (storage.cacheByPhone cache !! phone) as [d|] eqn:Hd; [|split; assumption].
  assert (Hidx : storage.cacheByPlate cache !! Device.PlateNumber d = Some phone)
    by (apply Hplate; eauto).
  split.
  - intros q d0. cbn. rewrite lookup_delete. case_decide; [discriminate | apply Hkey].
  - intros plate q. cbn. rewrite !lookup_delete. split.
    + case_decide as Hp; [discriminate|]. intros Hold.
      apply Hplate in Hold as (d0 & Hd0 & Hpl). exists d0.
      case_decide as Hq; [|auto]. subst q. congruence.
    + intros (d0 & Hd0 & Hpl). case_decide as Hq; [discriminate|].
      assert (Hold : storage.cacheByPlate cache !! plate = Some q)
        by (apply Hplate; eauto).
      case_decide as Hp; [|exact Hold]. subst plate. congruence.
Qed.

Lemma registry_ok_put_new {clock : Z} (cache : storage.DeviceCache) (d : Device.t) :
  registry_ok cache -> as_registered d ->
  storage.cacheByPlate cache !! Device.PlateNumber d = None ->
  storage.cacheByPhone cache !! Device.PhoneNumber d = None ->
  registry_ok (storage.CacheDevice clock cache d).
Proof.
  intros [Hidx Hreg] Hd Hplate Hphone. split; [apply indexed_put_new; assumption|].
  intros phone d'. cbn. rewrite lookup_insert. case_decide.
  - intros [= <-]. exact Hd.
  - apply Hreg.
Qed.

Lemma registry_ok_put_status {clock : Z} (cache : storage.DeviceCache) (phone : string)
    (d : Device.t) (s : DeviceStatus) :
  registry_ok cache ->
  storage.cacheByPhone cache !! phone = Some d ->
  registry_ok (storage.CacheDevice clock cache (Device.with_Status d s)).
Proof.
  intros [Hidx Hreg] Hd.
  pose proof (proj1 Hidx _ _ Hd) as Hkey. subst phone. split.
  - apply (indexed_put_again cache d); [assumption | assumption | reflexivity | reflexivity].
  - intros q d'. cbn. rewrite lookup_insert. case_decide.
    + intros [= <-]. exact (Hreg _ _ Hd).
    + apply Hreg.
Qed.

Lemma registry_ok_put_same {clock : Z} (cache : storage.DeviceCache) (phone : string) (d : Device.t) :
  registry_ok cache ->
  storage.cacheByPhone cache !! phone = Some d ->
  registry_ok (storage.CacheDevice clock cache d).
Proof.
  intros [Hidx Hreg] Hd.
  pose proof (proj1 Hidx _ _ Hd) as Hkey. subst phone. split.
  - apply (indexed_put_again cache d); [assumption | assumption | reflexivity | reflexivity].
  - intros q d'. cbn. rewrite lookup_insert. case_decide.
    + intros [= <-]. exact (Hreg _ _ Hd).
    + apply Hreg.
Qed.

Lemma registry_ok_delete (cache : storage.DeviceCache) (phone : string) :
  registry_ok cache -> registry_ok (storage.DelDeviceByPhone cache phone).
Proof.
  intros [Hidx Hreg]. split; [apply indexed_delete; assumption|].
  unfold storage.DelDeviceByPhone.
  destruct (storage.cacheByPhone cache !! phone) as [d|]; [|exact Hreg].
  intros q d'. cbn. rewrite lookup_delete. case_decide; [discriminate | apply Hreg].
Qed.

Section registry_invariant.
Context `{Env} `{Methods}.

(** Every handler of the dispatch table keeps the registry indexed and its
    devices as registered. *)
Lemma handler_preserves_registry_ok (id : Z) (act : action) (f : handler)
    (ctx : Context) (data data' : ProcessData) (w w' : World) (err : option error) :
  initProcessOption !! id = Some act ->
  process act = Some f ->
  f ctx data w = Done (err, data', w') ->
  registry_ok (devices w) ->
  registry_ok (devices w').
Proof.
  intros Hact Hproc Hrun Hinv.
  destruct (initProcessOption_process _ _ _ Hact Hproc)
    as [[-> ->]|[[-> ->]|[[-> ->]|[[-> ->]|[[-> ->]|[-> ->]]]]]]; revert Hrun.
  - unfold processMsg0002.
    destruct (GetHeader (Incoming data)) as [h|]; cbn [deref mbind Go_bind]; [|discriminate].
    destruct (storage.GetDeviceByPhone (devices w) (PhoneNumber h)) as [dev e] eqn:Hget.
    destruct (Is e (Lib ErrDeviceNotFound)); [intros [= _ _ <-]; exact Hinv|].
    destruct dev as [d|] eqn:Hdev; cbn [deref mbind Go_bind]; [|discriminate].
    intros [= _ _ <-]. cbn [devices with_devices].
    exact (registry_ok_put_same _ _ _ Hinv (found_device _ _ _ _ d Hget eq_refl)).
  - unfold processMsg0003.
    destruct (GetHeader (Incoming data)) as [h|]; cbn [deref mbind Go_bind]; [|discriminate].
    destruct (storage.GetDeviceByPhone (devices w) (PhoneNumber h)) as [dev e] eqn:Hget.
    destruct (Is e (Lib ErrDeviceNotFound)); [intros [= _ _ <-]; exact Hinv|].
    destruct dev as [d|] eqn:Hdev; cbn [deref mbind Go_bind]; [|discriminate].
    intros [= _ _ <-]. cbn [devices with_devices with_timer].
    apply registry_ok_delete. exact Hinv.
  - unfold processMsg0100.
    destruct (Incoming data); try discriminate.
    destruct (Outgoing data) as [[]|]; try discriminate.
    destruct (storage.HasPlate _ _) eqn:Hplate; [intros [= _ _ <-]; exact Hinv|].
    destruct (Msg0100.Header m) as [h|]; cbn [deref mbind Go_bind]; [|discriminate].
    destruct (storage.HasPhone _ _) eqn:Hphone; [intros [= _ _ <-]; exact Hinv|].
    destruct ctx as [session|]; cbn [deref mbind Go_bind]; [|discriminate].
    intros [= _ _ <-]. cbn [devices with_devices with_timer].
    apply registry_ok_put_new; [exact Hinv | repeat split | |].
    + cbn. unfold storage.HasPlate in Hplate.
      apply bool_decide_eq_false in Hplate. apply eq_None_not_Some. exact Hplate.
    + cbn. apply HasPhone_false. exact Hphone.
  - unfold processMsg0102.
    destruct (Incoming data); try discriminate.
    destruct (Msg0102.Header m) as [h|]; cbn [deref mbind Go_bind]; [|discriminate].
    destruct (storage.GetDeviceByPhone (devices w) (PhoneNumber h)) as [dev e] eqn:Hget.
    destruct (Is e (Lib ErrDeviceNotFound)); [intros [= _ _ <-]; exact Hinv|].
    destruct (Outgoing data) as [[]|]; try discriminate.
    destruct dev as [d|] eqn:Hdev; cbn [deref mbind Go_bind]; [|discriminate].
    pose proof (found_device _ _ _ _ d Hget eq_refl) as Hd.
    case_decide; intros [= _ _ <-]; cbn [devices with_devices with_timer].
    + apply registry_ok_delete. exact Hinv.
    + exact (registry_ok_put_status _ _ _ _ Hinv Hd).
  - unfold handleMsg0200.
    destruct (Incoming data); try discriminate.
    destruct (Msg0200.Header m) as [h|]; cbn [deref mbind Go_bind]; [|discriminate].
    destruct (storage.GetDeviceByPhone (devices w) (PhoneNumber h)) as [dev e] eqn:Hget.
    destruct (Is e (Lib ErrDeviceNotFound)); [intros [= _ _ <-]; exact Hinv|].
    destruct dev as [d|] eqn:Hdev; cbn [deref mbind Go_bind]; [|discriminate].
    pose proof (found_device _ _ _ _ d Hget eq_refl) as Hd.
    destruct (GISMeta.ACCStatus _ =? 0); intros [= _ _ <-];
      cbn [devices with_devices with_gis]; [|exact Hinv].
    exact (registry_ok_put_status _ _ _ _ Hinv Hd).
  - unfold processMsg8100.
    destruct (Incoming data); try discriminate.
    destruct (Outgoing data) as [[]|]; try discriminate.
    destruct (Msg8100.Header m) as [h|]; cbn [deref mbind Go_bind]; [|discriminate].
    destruct (storage.GetDeviceByPhone (devices w) (PhoneNumber h)) as [dev e].
    destruct (Is e (Lib ErrDeviceNotFound)); [intros [= _ _ <-]; exact Hinv|].
    destruct dev; cbn [deref mbind Go_bind]; [|discriminate].
    destruct (GenOutgoing _ _) as [[out' [e'|]]|]; cbn [mbind Go_bind];
      [| |discriminate]; intros [= _ _ <-]; exact Hinv.
Qed.

Lemma reachable_registry_ok (w : World) : reachable w -> registry_ok (devices w).
Proof.
  induction 1 as [|w w' id act f ctx data data' err _ IH Hact Hproc Hrun|w t _ IH _].
  - split; [exact indexed_empty|]. intros phone d. cbn. rewrite lookup_empty. discriminate.
  - exact (handler_preserves_registry_ok _ _ _ _ _ _ _ _ _ Hact Hproc Hrun IH).
  - exact IH.
Qed.

(** A handler of the table leaves the clock alone, and the registry too
    unless it puts one device or deletes one phone number. *)
Lemma handler_devices (id : Z) (act : action) (f : handler)
    (ctx : Context) (data data' : ProcessData) (w w' : World) (err : option error) :
  initProcessOption !! id = Some act ->
  process act = Some f ->
  f ctx data w = Done (err, data', w') ->
  now w' = now w /\
  (devices w' = devices w \/
   (exists d, devices w' = storage.CacheDevice (now w) (devices w) d) \/
   (exists p, devices w' = storage.DelDeviceByPhone (devices w) p)).
Proof.
  intros Hact Hproc.
  destruct (initProcessOption_process _ _ _ Hact Hproc)
    as [[-> ->]|[[-> ->]|[[-> ->]|[[-> ->]|[[-> ->]|[-> ->]]]]]].
  - unfold processMsg0002.
    destruct (GetHeader (Incoming data)) as [h|]; cbn [deref mbind Go_bind]; [|discriminate].
    destruct (storage.GetDeviceByPhone (devices w) (PhoneNumber h)) as [dev e].
    destruct (Is e (Lib ErrDeviceNotFound)); [intros [= _ _ <-]; auto|].
    destruct dev; cbn [deref mbind Go_bind]; [|discriminate].
    intros [= _ _ <-]. cbn. eauto.
  - unfold processMsg0003.
    destruct (GetHeader (Incoming data)) as [h|]; cbn [deref mbind Go_bind]; [|discriminate].
    destruct (storage.GetDeviceByPhone (devices w) (PhoneNumber h)) as [dev e].
    destruct (Is e (Lib ErrDeviceNotFound)); [intros [= _ _ <-]; auto|].
    destruct dev; cbn [deref mbind Go_bind]; [|discriminate].
    intros [= _ _ <-]. cbn. eauto.
  - unfold processMsg0100.
    destruct (Incoming data); try discriminate.
    destruct (Outgoing data) as [[]|]; try discriminate.
    destruct (storage.HasPlate _ _); [intros [= _ _ <-]; auto|].
    destruct (Msg0100.Header m) as [h|]; cbn [deref mbind Go_bind]; [|discriminate].
    destruct (storage.HasPhone _ _); [intros [= _ _ <-]; auto|].
    destruct ctx; cbn [deref mbind Go_bind]; [|discriminate].
    intros [= _ _ <-]. cbn. eauto.
  - unfold processMsg0102.
    destruct (Incoming data); try discriminate.
    destruct (Msg0102.Header m) as [h|]; cbn [deref mbind Go_bind]; [|discriminate].
    destruct (storage.GetDeviceByPhone (devices w) (PhoneNumber h)) as [dev e].
    destruct (Is e (Lib ErrDeviceNotFound)); [intros [= _ _ <-]; auto|].
    destruct (Outgoing data) as [[]|]; try discriminate.
    destruct dev; cbn [deref mbind Go_bind]; [|discriminate].
    case_decide; intros [= _ _ <-]; cbn; eauto.
  - unfold handleMsg0200.
    destruct (Incoming data); try discriminate.
    destruct (Msg0200.Header m) as [h|]; cbn [deref mbind Go_bind]; [|discriminate].
    destruct (storage.GetDeviceByPhone (devices w) (PhoneNumber h)) as [dev e].
    destruct (Is e (Lib ErrDeviceNotFound)); [intros [= _ _ <-]; auto|].
    destruct dev; cbn [deref mbind Go_bind]; [|discriminate].
    destruct (GISMeta.ACCStatus _ =? 0); intros [= _ _ <-]; cbn; eauto.
  - unfold processMsg8100.
    destruct (Incoming data); try discriminate.
    destruct (Outgoing data) as [[]|]; try discriminate.
    destruct (Msg8100.Header m) as [h|]; cbn [deref mbind Go_bind]; [|discriminate].
    destruct (storage.GetDeviceByPhone (devices w) (PhoneNumber h)) as [dev e].
    destruct (Is e (Lib ErrDeviceNotFound)); [intros [= _ _ <-]; auto|].
    destruct dev; cbn [deref mbind Go_bind]; [|discriminate].
    destruct (GenOutgoing _ _) as [[out' [e'|]]|]; cbn [mbind Go_bind];
      [| |discriminate]; intros [= _ _ <-]; auto.
Qed.

(** In a reached registry only the stored phone numbers have a lifetime. *)
Lemma reachable_lifetimes (w : World) : reachable w -> lifetimes_of_stored (devices w).
Proof.
  induction 1 as [|w w' id act f ctx data data' err _ IH Hact Hproc Hrun|w t _ IH _].
  - intros phone _. cbn. apply lookup_empty.
  - destruct (handler_devices _ _ _ _ _ _ _ _ _ Hact Hproc Hrun)
      as [_ [-> | [[d ->] | [p ->]]]]; [exact IH | |].
    + intros phone. cbn. rewrite !lookup_insert. case_decide; [discriminate | apply IH].
    + intros phone. unfold storage.DelDeviceByPhone.
      destruct (storage.cacheByPhone (devices w) !! p) eqn:Hp; [|apply IH].
      cbn. rewrite !lookup_delete. case_decide; [reflexivity | apply IH].
  - exact IH.
Qed.

End registry_invariant.

(** X13: in every registry reached by handler invocations the plate index
    holds exactly the plates of the devices, each pointing at the phone
    number its device is stored under; hence no two registered devices
    share a plate number. *)
Theorem X13_plate_index_matches_devices `{Env} `{Methods} (w : World) :
  reachable w ->
  plate_index_matches (devices w) /\
  (forall (p1 p2 : string) (d1 d2 : Device.t),
     storage.cacheByPhone (devices w) !! p1 = Some d1 ->
     storage.cacheByPhone (devices w) !! p2 = Some d2 ->
     Device.PlateNumber d1 = Device.PlateNumber d2 ->
     p1 = p2).
Proof.
  intros Hr. destruct (reachable_registry_ok w Hr) as [[Hkey Hplate] _].
  split; [exact Hplate|].
  intros p1 p2 d1 d2 H1 H2 Hsame.
  assert (Hi1 : storage.cacheByPlate (devices w) !! Device.PlateNumber d1 = Some p1)
    by (apply Hplate; eauto).
  assert (Hi2 : storage.cacheByPlate (devices w) !! Device.PlateNumber d2 = Some p2)
    by (apply Hplate; eauto).
  congruence.
Qed.

(** X14: every device in a reached registry has the keep-alive of 60
    seconds and the empty IMEI and software version that the register
    handler gave it: no handler of the table writes these fields. *)
Theorem X14_devices_stay_as_registered `{Env} `{Methods}
    (w : World) (phone : string) (d : Device.t) :
  reachable w ->
  storage.cacheByPhone (devices w) !! phone = Some d ->
  Device.PhoneNumber d = phone /\ as_registered d.
Proof.
  intros Hr Hd. destruct (reachable_registry_ok w Hr) as [[Hkey _] Hreg].
  split; [exact (Hkey _ _ Hd) | exact (Hreg _ _ Hd)].
Qed.

(** The registry of scenario 1 is reached by one run of the register
    handler. *)
Lemma registered_is_reachable : @reachable Sample.env Sample.methods Sample.registered.
Proof.
  eapply (@reachable_handler Sample.env Sample.methods emptyWorld Sample.registered 0x0100
            _ (@processMsg0100 Sample.env) (Some Sample.session) Sample.register_data
            (with_Outgoing Sample.register_data
               (OfMsg8100 (Msg8100.with_AuthCode Msg8100.zero "2911391442")))
            None).
  - apply reachable_empty.
  - reflexivity.
  - reflexivity.
  - vm_compute. reflexivity.
Defined.

(** X13 at the registry of scenario 1. *)
Lemma X13_plate_index_witness :
  plate_index_matches (devices Sample.registered) /\
  storage.cacheByPlate (devices Sample.registered) !! "A1234567" = Some Sample.phone.
Proof.
  destruct (@X13_plate_index_matches_devices Sample.env Sample.methods Sample.registered
              registered_is_reachable) as [Hplate _].
  split; [exact Hplate|].
  apply Hplate. exists Sample.device. split; [vm_compute|]; reflexivity.
Defined.

(** X14 at the device of scenario 1. *)
Lemma X14_as_registered_witness :
  Device.PhoneNumber Sample.device = Sample.phone /\ as_registered Sample.device.
Proof.
  apply (@X14_devices_stay_as_registered Sample.env Sample.methods Sample.registered
           Sample.phone Sample.device registered_is_reachable).
  vm_compute. reflexivity.
Defined.

(** ** Heartbeat and logout on a registered phone number *)

(** A second put of a stored device changes nothing but the lifetime of
    its entry. *)
Lemma CacheDevice_again (clock : Z) (cache : storage.DeviceCache) (phone : string)
    (d : Device.t) :
  indexed cache ->
  storage.cacheByPhone cache !! phone = Some d ->
  storage.CacheDevice clock cache d
    = {| storage.cacheByPhone := storage.cacheByPhone cache;
         storage.cacheByPlate := storage.cacheByPlate cache;
         storage.expiry := <[phone := clock + Device.Keepalive d]> (storage.expiry cache) |}.
Proof.
  intros [Hkey Hplate] Hd. pose proof (Hkey _ _ Hd) as Hp. subst phone.
  assert (Hidx : storage.cacheByPlate cache !! Device.PlateNumber d = Some (Device.PhoneNumber d))
    by (apply Hplate; eauto).
  unfold storage.CacheDevice. rewrite (insert_id _ _ _ Hd), (insert_id _ _ _ Hidx).
  reflexivity.
Qed.

(** [put] is idempotent: at one reading of the clock a second put of the
    same device leaves what the first one left. *)
Lemma CacheDevice_idempotent (clock : Z) (cache : storage.DeviceCache) (d : Device.t) :
  storage.CacheDevice clock (storage.CacheDevice clock cache d) d
    = storage.CacheDevice clock cache d.
Proof. unfold storage.CacheDevice. cbn. rewrite !insert_insert_eq. reflexivity. Qed.

(** The state of scenario 1 is still reached thirty seconds later. *)
Lemma registered_30s_later_is_reachable :
  @reachable Sample.env Sample.methods registered_30s_later.
Proof.
  apply (@reachable_later Sample.env Sample.methods Sample.registered
           (30 * time_Second) registered_is_reachable).
  vm_compute. discriminate.
Defined.

(** X15: in a reached state a heartbeat from a registered phone number
    returns the nil error and leaves the devices, the plate index, the
    timer, the GIS rings and the clock as they were.  Its re-put renews the
    lifetime of the entry of that phone number, which from then on ends 60
    seconds after the instant of the call, and no other lifetime. *)
Theorem X15_processMsg0002_renews_lifetime `{Env} `{Methods}
    (ctx : Context) (data : ProcessData) (h : MsgHeader) (d : Device.t) (w : World) :
  reachable w ->
  GetHeader (Incoming data) = Some h ->
  storage.cacheByPhone (devices w) !! PhoneNumber h = Some d ->
  exists w' : World,
    processMsg0002 ctx data w = Done (None, data, w') /\
    storage.cacheByPhone (devices w') = storage.cacheByPhone (devices w) /\
    storage.cacheByPlate (devices w') = storage.cacheByPlate (devices w) /\
    timer w' = timer w /\
    gis w' = gis w /\
    now w' = now w /\
    storage.expiry (devices w') !! PhoneNumber h = Some (now w + 60 * time_Second) /\
    (forall q : string, q <> PhoneNumber h ->
       storage.expiry (devices w') !! q = storage.expiry (devices w) !! q).
Proof.
  intros Hr Hh Hd. destruct (reachable_registry_ok w Hr) as [Hidx Hreg].
  destruct (Hreg _ _ Hd) as (Hkeep & _).
  unfold processMsg0002. rewrite Hh. cbn [deref mbind Go_bind].
  rewrite (GetDeviceByPhone_Some _ _ _ Hd). cbn [Is deref mbind Go_bind].
  rewrite (CacheDevice_again _ _ _ _ Hidx Hd), Hkeep.
  eexists. split; [reflexivity|]. cbn.
  repeat (split; [reflexivity|]). split.
  - apply lookup_insert_eq.
  - intros q Hq. apply lookup_insert_ne. congruence.
Qed.

(** X15 at a heartbeat of the device of scenario 1 thirty seconds after
    its registration: the lifetime that ended at second 60 ends at second
    90. *)
Lemma X15_heartbeat_witness :
  storage.expiry (devices registered_30s_later) !! Sample.phone = Some 60000000000 /\
  exists w' : World,
    processMsg0002 (Some Sample.session)
      {| Incoming := OfMsg0002 {| Msg0002.Header := Some (Sample.header 0x0002 Version2013 0 Sample.phone) |};
         Outgoing := Some (OfMsg8001 Msg8001.zero) |} registered_30s_later
    = Done (None,
            {| Incoming := OfMsg0002 {| Msg0002.Header := Some (Sample.header 0x0002 Version2013 0 Sample.phone) |};
               Outgoing := Some (OfMsg8001 Msg8001.zero) |},
            w') /\
    storage.cacheByPhone (devices w') = storage.cacheByPhone (devices registered_30s_later) /\
    storage.expiry (devices w') !! Sample.phone = Some 90000000000.
Proof.
  split; [vm_compute; reflexivity|].
  destruct (@X15_processMsg0002_renews_lifetime Sample.env Sample.methods (Some Sample.session)
              {| Incoming := OfMsg0002 {| Msg0002.Header :=
                                            Some (Sample.header 0x0002 Version2013 0 Sample.phone) |};
                 Outgoing := Some (OfMsg8001 Msg8001.zero) |}
              (Sample.header 0x0002 Version2013 0 Sample.phone) Sample.device
              registered_30s_later registered_30s_later_is_reachable eq_refl)
    as (w' & Hrun & Hdev & _ & _ & _ & _ & Hexp & _).
  - vm_compute. reflexivity.
  - exists w'. split; [exact Hrun | split; [exact Hdev | exact Hexp]].
Defined.

(** What [processMsg0100] does when plate and phone number are free. *)
Lemma processMsg0100_new `{Env} (session : Session.t) (in_ : Msg0100.t) (out : Msg8100.t)
    (h : MsgHeader) (w : World) :
  Msg0100.Header in_ = Some h ->
  storage.HasPlate (devices w) (Msg0100.PlateNumber in_) = false ->
  storage.HasPhone (devices w) (PhoneNumber h) = false ->
  let data := {| Incoming := OfMsg0100 in_; Outgoing := Some (OfMsg8100 out) |} in
  let device :=
    {| Device.ID := Msg0100.DeviceID in_; Device.PlateNumber := Msg0100.PlateNumber in_;
       Device.PhoneNumber := PhoneNumber h; Device.SessionID := Session.ID session;
       Device.TransProto := Session.TransProto session;
       Device.Conn := Session.Conn session;
       Device.Keepalive := time_Minute * 1;
       Device.Status := DeviceStatusOffline;
       Device.IMEI := ""; Device.SoftwareVersion := "" |} in
  processMsg0100 (Some session) data w =
    Done (None,
          with_Outgoing data (OfMsg8100 (Msg8100.with_AuthCode out (genAuthCode device))),
          {| devices := storage.CacheDevice (now w) (devices w) device;
             timer := KeepaliveTimer.Register (timer w) (PhoneNumber h);
             gis := gis w; now := now w |}).
Proof.
  intros Hh Hplate Hphone data device. unfold processMsg0100.
  cbn [Incoming Outgoing data]. rewrite Hplate, Hh. cbn [deref mbind Go_bind].
  rewrite Hphone. reflexivity.
Qed.

(** X16: in a reached state, a registration on a free plate and phone
    number followed by a logout from that phone number gives back the
    registry, the plate index, the timer and the GIS rings as they were
    before the registration. *)
Theorem X16_register_then_logout_restores `{Env} `{Methods}
    (session : Session.t) (in_ : Msg0100.t) (out : Msg8100.t) (h : MsgHeader)
    (ctx : Context) (data2 : ProcessData) (h2 : MsgHeader) (w : World) :
  reachable w ->
  Msg0100.Header in_ = Some h ->
  storage.HasPlate (devices w) (Msg0100.PlateNumber in_) = false ->
  storage.HasPhone (devices w) (PhoneNumber h) = false ->
  GetHeader (Incoming data2) = Some h2 ->
  PhoneNumber h2 = PhoneNumber h ->
  exists data1 w1,
    processMsg0100 (Some session)
      {| Incoming := OfMsg0100 in_; Outgoing := Some (OfMsg8100 out) |} w
      = Done (None, data1, w1) /\
    processMsg0003 ctx data2 w1 = Done (None, data2, w).
Proof.
  intros Hr Hh Hplate Hphone Hh2 Hsame.
  eexists _, _. split; [apply (processMsg0100_new session in_ out h w Hh Hplate Hphone)|].
  unfold processMsg0003. rewrite Hh2. cbn [deref mbind Go_bind devices]. rewrite Hsame.
  set (device := {| Device.ID := Msg0100.DeviceID in_ |}).
  assert (Hd : storage.cacheByPhone (storage.CacheDevice (now w) (devices w) device) !! PhoneNumber h
               = Some device) by (cbn; apply lookup_insert_eq).
  rewrite (GetDeviceByPhone_Some _ _ _ Hd). cbn [Is deref mbind Go_bind].
  cbn [with_timer with_devices devices timer gis Device.PhoneNumber device].
  apply HasPhone_false in Hphone.
  unfold storage.HasPlate in Hplate. apply bool_decide_eq_false in Hplate.
  apply eq_None_not_Some in Hplate.
  assert (Hcache : storage.DelDeviceByPhone (storage.CacheDevice (now w) (devices w) device)
                     (PhoneNumber h) = devices w).
  { pose proof (reachable_lifetimes w Hr _ Hphone) as Hlife.
    unfold storage.DelDeviceByPhone. rewrite Hd. cbn.
    rewrite (delete_insert_id _ _ _ Hphone), (delete_insert_id _ _ _ Hplate),
      (delete_insert_id _ _ _ Hlife).
    destruct (devices w); reflexivity. }
  assert (Htimer : KeepaliveTimer.Cancel (KeepaliveTimer.Register (timer w) (PhoneNumber h))
                     (PhoneNumber h) = timer w).
  { pose proof (proj1 (reachable_consistent w Hr) (PhoneNumber h)) as Hin.
    rewrite Hphone in Hin.
    assert (Hnot : PhoneNumber h ∉ timer w)
      by (intros Hel; apply Hin in Hel; destruct Hel; discriminate).
    unfold KeepaliveTimer.Cancel, KeepaliveTimer.Register. apply set_eq. intros q.
    rewrite elem_of_difference, elem_of_union, elem_of_singleton. split.
    - intros [[-> | Hq] Hne]; [congruence | exact Hq].
    - intros Hq. split; [right; exact Hq | intros ->; exact (Hnot Hq)]. }
  rewrite Hcache, Htimer. destruct w; reflexivity.
Qed.

(** X16 at scenario 1 followed by a logout. *)
Lemma X16_register_logout_witness :
  exists data1 w1,
    @processMsg0100 Sample.env (Some Sample.session) Sample.register_data emptyWorld
      = Done (None, data1, w1) /\
    processMsg0003 None
      {| Incoming := OfMsg0003 {| Msg0003.Header := Some (Sample.header 0x0003 Version2013 0 Sample.phone) |};
         Outgoing := Some (OfMsg8001 Msg8001.zero) |} w1
    = Done (None,
            {| Incoming := OfMsg0003 {| Msg0003.Header := Some (Sample.header 0x0003 Version2013 0 Sample.phone) |};
               Outgoing := Some (OfMsg8001 Msg8001.zero) |},
            emptyWorld).
Proof.
  apply (@X16_register_then_logout_restores Sample.env Sample.methods
           Sample.session Sample.reg2013 Msg8100.zero
           (Sample.header 0x0100 Version2013 45 Sample.phone) None _
           (Sample.header 0x0003 Version2013 0 Sample.phone) emptyWorld).
  - apply reachable_empty.
  - reflexivity.
  - reflexivity.
  - reflexivity.
  - reflexivity.
  - reflexivity.
Defined.

(** X17: the auth code that the register handler puts into its reply is
    the one the authenticate handler accepts: after a registration on a
    free plate and phone number, an authentication from that phone number
    carrying the issued code returns the nil error and leaves the device
    online, with its timer entry still there. *)
Theorem X17_issued_auth_code_authenticates `{Env}
    (session : Session.t) (in_ : Msg0100.t) (out : Msg8100.t) (h : MsgHeader)
    (ctx : Context) (in2 : Msg0102.t) (out2 : Msg8001.t) (h2 : MsgHeader) (w : World) :
  Msg0100.Header in_ = Some h ->
  storage.HasPlate (devices w) (Msg0100.PlateNumber in_) = false ->
  storage.HasPhone (devices w) (PhoneNumber h) = false ->
  Msg0102.Header in2 = Some h2 ->
  PhoneNumber h2 = PhoneNumber h ->
  exists code w1,
    processMsg0100 (Some session)
      {| Incoming := OfMsg0100 in_; Outgoing := Some (OfMsg8100 out) |} w
      = Done (None,
              {| Incoming := OfMsg0100 in_;
                 Outgoing := Some (OfMsg8100 {| Msg8100.Header := Msg8100.Header out;
                                                Msg8100.Result := Msg8100.Result out;
                                                Msg8100.AuthCode := code |}) |}, w1) /\
    (Msg0102.AuthCode in2 = code ->
     exists w2 d2,
       processMsg0102 ctx
         {| Incoming := OfMsg0102 in2; Outgoing := Some (OfMsg8001 out2) |} w1
         = Done (None, {| Incoming := OfMsg0102 in2; Outgoing := Some (OfMsg8001 out2) |}, w2) /\
       storage.cacheByPhone (devices w2) !! PhoneNumber h = Some d2 /\
       Device.Status d2 = DeviceStatusOnline /\
       Device.ID d2 = Msg0100.DeviceID in_ /\
       PhoneNumber h ∈ timer w2).
Proof.
  intros Hh Hplate Hphone Hh2 Hsame.
  eexists _, _. split; [apply (processMsg0100_new session in_ out h w Hh Hplate Hphone)|].
  set (device := {| Device.ID := Msg0100.DeviceID in_ |}).
  intros Hcode.
  assert (Hd : storage.cacheByPhone (storage.CacheDevice (now w) (devices w) device) !! PhoneNumber h2
               = Some device) by (rewrite Hsame; cbn; apply lookup_insert_eq).
  pose proof (processMsg0102_found ctx in2 out2 h2 device
                {| devices := storage.CacheDevice (now w) (devices w) device;
                   timer := KeepaliveTimer.Register (timer w) (PhoneNumber h);
                   gis := gis w; now := now w |} Hh2 Hd) as Hrun.
  cbv zeta in Hrun. rewrite decide_False in Hrun by (intros Hne; exact (Hne Hcode)).
  eexists _, _. split; [exact Hrun|]. cbn [devices timer]. split; [|split; [|split]].
  - cbn. apply lookup_insert_eq.
  - reflexivity.
  - reflexivity.
  - unfold KeepaliveTimer.Register. apply elem_of_union_l, elem_of_singleton. reflexivity.
Qed.

(** X17 at scenario 1 followed by an authentication with the issued code. *)
Lemma X17_issued_code_witness :
  exists w2 d2,
    @processMsg0102 Sample.env None (Sample.auth_data "2911391442") Sample.registered
      = Done (None, Sample.auth_data "2911391442", w2) /\
    storage.cacheByPhone (devices w2) !! Sample.phone = Some d2 /\
    Device.Status d2 = DeviceStatusOnline.
Proof.
  destruct (@X17_issued_auth_code_authenticates Sample.env
              Sample.session Sample.reg2013 Msg8100.zero
              (Sample.header 0x0100 Version2013 45 Sample.phone)
              None (Sample.auth_msg "2911391442") Msg8001.zero
              (Sample.header 0x0102 Version2013 0 Sample.phone) emptyWorld
              eq_refl eq_refl eq_refl eq_refl eq_refl)
    as (code & w1 & Hreg & Hauth).
  assert (Hcode : code = "2911391442" /\ w1 = Sample.registered).
  { revert Hreg. vm_compute. intros [= <- <-]. split; reflexivity. }
  destruct Hcode as [-> ->].
  destruct (Hauth eq_refl) as (w2 & d2 & Hrun & Hd2 & Hon & _).
  exists w2, d2. split; [exact Hrun | split; [exact Hd2 | exact Hon]].
Defined.

(** ** Location reports and the GIS rings *)

Lemma length_ring_Write (rb : list GISMeta.t) (fix_ : GISMeta.t) :
  length (storage.ring_Write rb fix_) =
    if (length rb <? storage.gis_ring_capacity)%nat then S (length rb) else length rb.
Proof.
  unfold storage.ring_Write.
  destruct (length rb <? storage.gis_ring_capacity)%nat eqn:Hlt;
    rewrite length_app; cbn [length].
  - lia.
  - apply Nat.ltb_ge in Hlt. rewrite length_drop.
    unfold storage.gis_ring_capacity in Hlt. lia.
Qed.

Lemma last_ring_Write (rb : list GISMeta.t) (fix_ : GISMeta.t) :
  last (storage.ring_Write rb fix_) = Some fix_.
Proof. unfold storage.ring_Write. destruct (_ <? _)%nat; apply last_snoc. Qed.

(** X18: a location report from a registered phone number returns the nil
    error and keeps the timer; with the ACC bit set it keeps the registry
    too.  The decoded fix becomes the newest entry of the ring under the
    device id, which grows by one entry until it holds 128 and keeps that
    length afterwards; the rings under all other keys are untouched. *)
Theorem X18_handleMsg0200_ring
    (ctx : Context) (data : ProcessData) (in_ : Msg0200.t)
    (h : MsgHeader) (d : Device.t) (w : World) :
  Incoming data = OfMsg0200 in_ ->
  Msg0200.Header in_ = Some h ->
  storage.cacheByPhone (devices w) !! PhoneNumber h = Some d ->
  exists w' : World,
    handleMsg0200 ctx data w = Done (None, data, w') /\
    timer w' = timer w /\
    (Z.land (Msg0200.StatusSign in_) 1 <> 0 -> devices w' = devices w) /\
    last (storage.GetGisRingByPhone (gis w') (Device.ID d))
      = Some (GISMeta.Decode GISMeta.New (Msg0200.StatusSign in_)) /\
    length (storage.GetGisRingByPhone (gis w') (Device.ID d))
      = (if (length (storage.GetGisRingByPhone (gis w) (Device.ID d)) <? 128)%nat
         then S (length (storage.GetGisRingByPhone (gis w) (Device.ID d)))
         else length (storage.GetGisRingByPhone (gis w) (Device.ID d))) /\
    (forall key : string, key <> Device.ID d ->
       storage.GetGisRingByPhone (gis w') key = storage.GetGisRingByPhone (gis w) key).
Proof.
  intros Hin Hh Hd. eexists. split; [apply (handleMsg0200_found ctx data in_ h d w Hin Hh Hd)|].
  cbn [devices timer gis]. split; [reflexivity|]. split; [|split; [|split]].
  - intros Hacc. apply Z.eqb_neq in Hacc. rewrite Hacc. reflexivity.
  - unfold storage.GetGisRingByPhone at 1. rewrite lookup_insert_eq. cbn [default].
    apply last_ring_Write.
  - unfold storage.GetGisRingByPhone at 1. rewrite lookup_insert_eq. cbn [default].
    apply length_ring_Write.
  - intros key Hkey. unfold storage.GetGisRingByPhone.
    rewrite lookup_insert_ne by congruence. reflexivity.
Qed.

(** X18 at a location report with ACC on after scenario 1. *)
Lemma X18_ring_witness :
  exists w' : World,
    handleMsg0200 (Some Sample.session) (Sample.location_data 1) Sample.registered
      = Done (None, Sample.location_data 1, w') /\
    devices w' = devices Sample.registered /\
    length (storage.GetGisRingByPhone (gis w') "DEV0001") = 1%nat.
Proof.
  destruct (X18_handleMsg0200_ring (Some Sample.session)
              (Sample.location_data 1)
              {| Msg0200.Header := Some (Sample.header 0x0200 Version2013 0 Sample.phone);
                 Msg0200.StatusSign := 1 |}
              (Sample.header 0x0200 Version2013 0 Sample.phone) Sample.device
              Sample.registered eq_refl eq_refl)
    as (w' & Hrun & _ & Hdev & _ & Hlen & _).
  - vm_compute. reflexivity.
  - exists w'. split; [exact Hrun|]. split; [apply Hdev; discriminate | exact Hlen].
Defined.

Section gis_invariant.
Context `{Env} `{Methods}.


End gis_invariant.



(** ** The register acknowledgement (0x8100) *)

(** X20: in a reached state the handler of a register acknowledgement from
    a registered phone number changes nothing in the singletons; the
    authentication it prepares carries the auth code of the device and an
    empty IMEI and software version, and its error is the wrapped error of
    the reply's [GenOutgoing], if any. *)
Theorem X20_processMsg8100_prepares_authentication `{Env} `{Methods}
    (ctx : Context) (in_ : Msg8100.t) (out out' : Msg0102.t) (h : MsgHeader)
    (d : Device.t) (w : World) (gerr : option lib_error) :
  reachable w ->
  Msg8100.Header in_ = Some h ->
  storage.cacheByPhone (devices w) !! PhoneNumber h = Some d ->
  GenOutgoing0102 (Msg0102.with_credentials out (genAuthCode d) "" "") (OfMsg8100 in_)
    = Done (out', gerr) ->
  processMsg8100 ctx {| Incoming := OfMsg8100 in_; Outgoing := Some (OfMsg0102 out) |} w
    = Done (option_map (fun e => Wrap (Lib e) "Fail to generate msg 8100") gerr,
            {| Incoming := OfMsg8100 in_; Outgoing := Some (OfMsg0102 out') |}, w).
Proof.
  intros Hr Hh Hd Hgen.
  destruct (proj2 (reachable_registry_ok w Hr) _ _ Hd) as (_ & Himei & Hsv).
  unfold processMsg8100. cbn [Incoming Outgoing]. rewrite Hh. cbn [deref mbind Go_bind].
  rewrite (GetDeviceByPhone_Some _ _ _ Hd). cbn [Is deref mbind Go_bind].
  rewrite Himei, Hsv. unfold GenOutgoing, via. rewrite Hgen.
  cbn [mbind Go_bind option_map]. destruct gerr; reflexivity.
Qed.

(** X20 at a register acknowledgement for the device of scenario 1. *)
Lemma X20_prepares_authentication_witness :
  @processMsg8100 Sample.env Sample.methods None
    {| Incoming := OfMsg8100 {| Msg8100.Header := Some (Sample.header 0x8100 Version2013 0 Sample.phone);
                                Msg8100.Result := 0; Msg8100.AuthCode := "" |};
       Outgoing := Some (OfMsg0102 Msg0102.zero) |} Sample.registered
  = Done (None,
          {| Incoming := OfMsg8100 {| Msg8100.Header := Some (Sample.header 0x8100 Version2013 0 Sample.phone);
                                      Msg8100.Result := 0; Msg8100.AuthCode := "" |};
             Outgoing := Some (OfMsg0102
               {| Msg0102.Header := Some (Sample.header 0x8100 Version2013 0 Sample.phone);
                  Msg0102.AuthCode := "2911391442"; Msg0102.IMEI := "";
                  Msg0102.SoftwareVersion := "" |}) |},
          Sample.registered).
Proof.
  apply (@X20_processMsg8100_prepares_authentication Sample.env Sample.methods None
           _ Msg0102.zero _ (Sample.header 0x8100 Version2013 0 Sample.phone)
           Sample.device Sample.registered None registered_is_reachable).
  - reflexivity.
  - vm_compute. reflexivity.
  - vm_compute. reflexivity.
Defined.
